(** * storage_doctor: the LLM streaming core, embedded and verified

    A shallow embedding of the Go packages [internal/llm] (token estimator,
    rate limiter, the two provider stream decoders), [internal/httpclient]
    (the recording transport of the tests), [internal/chat] (the context
    manager) and [internal/agent] (the bounded agent loop, the skills),
    followed by the properties proved about them.

    Conventions of the embedding:
    - a Go [string] is a sequence of bytes: Rocq's [string];
    - a Go [int] is a 64-bit two's complement integer: a [Z] with the
      wrap-around written out ([int_add]) wherever an operand is supplied by
      a caller; lengths of values held in memory are plain [Z];
    - a Go map is a [gmap]; a nil map is [None], a non-nil one [Some m];
    - callbacks and the transport are recorded as a trace of [Effect]s in
      the order the code performs them;
    - calls to the logger have no influence on any result and are left out. *)

From stdpp Require Import gmap strings list fin_maps pretty.
From Stdlib Require Import ZArith Lia Ascii String.
From Equations Require Import Equations.

Local Open Scope Z_scope.

(* ===================================================================== *)
(** ** Go primitives *)
(* ===================================================================== *)

Module Go.

(** [int]: 64-bit two's complement. *)
Definition minInt : Z := - 2 ^ 63.
Definition maxInt : Z := 2 ^ 63 - 1.

Definition wrap (z : Z) : Z := (z + 2 ^ 63) mod 2 ^ 64 - 2 ^ 63.

Definition int_add (a b : Z) : Z := wrap (a + b).

Definition in_int (z : Z) : Prop := minInt <= z <= maxInt.

(** [len(s)] of a string: its number of bytes. *)
Definition len (s : string) : Z := Z.of_nat (String.length s).

Definition byte_of (c : ascii) : Z := Z.of_N (N_of_ascii c).

(** [errors]: a message, possibly wrapping a cause ([%w]). *)
Inductive error : Type :=
| ErrorNew (msg : string)
| ErrorWrap (msg : string) (cause : error).

(** [err.Error()]: [fmt.Errorf(msg + "%w", cause)] prints the cause after
    the message. *)
Fixpoint Error (e : error) : string :=
  match e with
  | ErrorNew msg => msg
  | ErrorWrap msg cause => msg +:+ Error cause
  end.

#[export] Instance error_eq_dec : EqDecision error.
Proof. solve_decision. Defined.

(** [errors.Is(e, target)]: [e] or one of the errors it wraps is
    [target]. *)
Fixpoint Is (e target : error) : bool :=
  if decide (e = target) then true
  else match e with
       | ErrorNew _ => false
       | ErrorWrap _ cause => Is cause target
       end.

(** What a call leaves behind: a returned [error] value (nil is [None])
    or a run-time panic. *)
Inductive outcome : Type :=
| Return (err : option error)
| Panic (msg : string).

#[export] Instance outcome_eq_dec : EqDecision outcome.
Proof. solve_decision. Defined.

(** The double quote, [quoted s] for [s] between double quotes, and the
    line feed. *)
Definition dquote : string := String "034"%char "".

Definition quoted (s : string) : string := dquote +:+ s +:+ dquote.

Definition newline : string := String "010"%char "".

(** A computation that may panic on the way. *)
Inductive attempt (A : Type) : Type :=
| Fine (a : A)
| Panics (msg : string).
Arguments Fine {A} a.
Arguments Panics {A} msg.

(** [strings.HasPrefix] and [strings.TrimPrefix]. *)
Definition HasPrefix (s p : string) : bool := String.prefix p s.

Definition TrimPrefix (s p : string) : string :=
  if HasPrefix s p
  then String.substring (String.length p) (String.length s - String.length p) s
  else s.

(** [strings.Join]. *)
Fixpoint Join (elems : list string) (sep : string) : string :=
  match elems with
  | [] => ""
  | [e] => e
  | e :: rest => e +:+ sep +:+ Join rest sep
  end.

(** ** [unicode/utf8]: counting runes

    [first] is the table of the same name in [unicode/utf8]: for a lead
    byte, the length of the sequence it announces and the range its
    second byte has to lie in. *)
Inductive leadInfo : Type :=
| as1                                  (* ASCII: a rune of one byte *)
| xx                                   (* not a valid lead byte *)
| seq (size : nat) (lo hi : Z).

Definition first (c : Z) : leadInfo :=
  if c <? 0x80 then as1
  else if c <? 0xC2 then xx
  else if c <? 0xE0 then seq 2 0x80 0xBF
  else if c =? 0xE0 then seq 3 0xA0 0xBF
  else if c <? 0xED then seq 3 0x80 0xBF
  else if c =? 0xED then seq 3 0x80 0x9F
  else if c <? 0xF0 then seq 3 0x80 0xBF
  else if c =? 0xF0 then seq 4 0x90 0xBF
  else if c <? 0xF4 then seq 4 0x80 0xBF
  else if c =? 0xF4 then seq 4 0x80 0x8F
  else xx.

Definition outside (lo hi c : Z) : bool := (c <? lo) || (hi <? c).

(** [utf8.RuneCountInString]: every byte that does not start a
    well-formed sequence counts as one rune of width one. *)
Fixpoint RuneCountInString (s : string) : Z :=
  match s with
  | EmptyString => 0
  | String c rest =>
      match first (byte_of c) with
      | as1 | xx => 1 + RuneCountInString rest
      | seq 2 lo hi =>
          match rest with
          | String c1 rest1 =>
              if outside lo hi (byte_of c1) then 1 + RuneCountInString rest
              else 1 + RuneCountInString rest1
          | _ => 1 + RuneCountInString rest
          end
      | seq 3 lo hi =>
          match rest with
          | String c1 (String c2 rest2) =>
              if outside lo hi (byte_of c1) then 1 + RuneCountInString rest
              else if outside 0x80 0xBF (byte_of c2) then 1 + RuneCountInString rest
              else 1 + RuneCountInString rest2
          | _ => 1 + RuneCountInString rest
          end
      | seq _ lo hi =>
          match rest with
          | String c1 (String c2 (String c3 rest3)) =>
              if outside lo hi (byte_of c1) then 1 + RuneCountInString rest
              else if outside 0x80 0xBF (byte_of c2) then 1 + RuneCountInString rest
              else if outside 0x80 0xBF (byte_of c3) then 1 + RuneCountInString rest
              else 1 + RuneCountInString rest3
          | _ => 1 + RuneCountInString rest
          end
      end
  end.

End Go.

(* ===================================================================== *)
(** ** encoding/json, as far as the decoders use it *)
(* ===================================================================== *)

(** The value [json.Unmarshal] stores into an [interface{}]. A number keeps
    its literal (the conversion to float64 and its range check are not
    modelled); a nested object keeps its members in the order read, a later
    member shadowing an earlier one of the same key; bytes of a string
    literal that are not valid UTF-8 are kept as they are; the nesting
    limit of the Go decoder is not modelled. *)
Module Json.
Import Go.

#[warnings="-register-all"]
Inductive json : Type :=
| JNull
| JBool (b : bool)
| JNumber (literal : string)
| JString (s : string)
| JArray (elems : list json)
| JObject (members : list (string * json)).

Definition isSpace (c : ascii) : bool :=
  let n := byte_of c in
  (n =? 32) || (n =? 9) || (n =? 10) || (n =? 13).

Fixpoint skipSpace (s : string) : string :=
  match s with
  | String c r => if isSpace c then skipSpace r else s
  | EmptyString => s
  end.

Definition isDigit (c : ascii) : bool :=
  let n := byte_of c in (48 <=? n) && (n <=? 57).

Fixpoint digits (s : string) : string * string :=
  match s with
  | String c r =>
      if isDigit c then let '(d, r') := digits r in (String c d, r')
      else (EmptyString, s)
  | EmptyString => (EmptyString, s)
  end.

Definition hexval (c : ascii) : option Z :=
  let n := byte_of c in
  if (48 <=? n) && (n <=? 57) then Some (n - 48)
  else if (97 <=? n) && (n <=? 102) then Some (n - 87)
  else if (65 <=? n) && (n <=? 70) then Some (n - 55)
  else None.

(** Four hexadecimal digits of a [\u] escape. *)
Definition getu4 (s : string) : option (Z * string) :=
  match s with
  | String a (String b (String c (String d r))) =>
      match hexval a, hexval b, hexval c, hexval d with
      | Some a, Some b, Some c, Some d => Some (((a * 16 + b) * 16 + c) * 16 + d, r)
      | _, _, _, _ => None
      end
  | _ => None
  end.

Definition byte (z : Z) : ascii := ascii_of_N (Z.to_N z).

(** [utf8.EncodeRune]. *)
Definition encodeRune (r : Z) : list ascii :=
  if r <? 0x80 then [byte r]
  else if r <? 0x800 then [byte (0xC0 + r / 64); byte (0x80 + r mod 64)]
  else if r <? 0x10000 then
    [byte (0xE0 + r / 4096); byte (0x80 + (r / 64) mod 64); byte (0x80 + r mod 64)]
  else
    [byte (0xF0 + r / 262144); byte (0x80 + (r / 4096) mod 64);
     byte (0x80 + (r / 64) mod 64); byte (0x80 + r mod 64)].

Definition replacementChar : Z := 0xFFFD.

(** The rune of a [\u] escape whose four digits gave [r]; a high
    surrogate followed by an escaped low surrogate is one rune, any other
    surrogate is the replacement character. *)
Definition escapedRune (r : Z) (rest : string) : Z * string :=
  if (0xD800 <=? r) && (r <? 0xE000) then
    match rest with
    | String "\"%char (String "u"%char rest1) =>
        match getu4 rest1 with
        | Some (r2, rest2) =>
            if (r <? 0xDC00) && (0xDC00 <=? r2) && (r2 <? 0xE000)
            then ((r - 0xD800) * 1024 + (r2 - 0xDC00) + 0x10000, rest2)
            else (replacementChar, rest)
        | None => (replacementChar, rest)
        end
    | _ => (replacementChar, rest)
    end
  else (r, rest).

(** The body of a string literal, after its opening quote. *)
Fixpoint stringBody (fuel : nat) (s : string) (acc : list ascii) : option (string * string) :=
  match fuel with
  | O => None
  | S fuel =>
      match s with
      | EmptyString => None
      | String "034"%char r => Some (string_of_list_ascii (reverse acc), r)
      | String "\"%char (String e r) =>
          let simple (c : ascii) := stringBody fuel r (c :: acc) in
          match e with
          | "034"%char => simple "034"%char
          | "\"%char => simple "\"%char
          | "/"%char => simple "/"%char
          | "b"%char => simple "008"%char
          | "f"%char => simple "012"%char
          | "n"%char => simple "010"%char
          | "r"%char => simple "013"%char
          | "t"%char => simple "009"%char
          | "u"%char =>
              match getu4 r with
              | Some (rr, r1) =>
                  let '(rune, r2) := escapedRune rr r1 in
                  stringBody fuel r2 (reverse (encodeRune rune) ++ acc)
              | None => None
              end
          | _ => None
          end
      | String "\"%char EmptyString => None
      | String c r =>
          if byte_of c <? 32 then None else stringBody fuel r (c :: acc)
      end
  end.

(** The literal of a number: an optional minus sign, an integer part
    without leading zero, an optional fraction, an optional exponent. *)
Definition number (s : string) : option (string * string) :=
  let '(sign, s1) :=
    match s with
    | String "-"%char r => ("-", r)
    | _ => (EmptyString, s)
    end in
  let '(int, s2) := digits s1 in
  if decide (int = "") then None
  else if (1 <? len int) && HasPrefix int "0" then None
  else
    let frac :=
      match s2 with
      | String "."%char r =>
          let '(f, r') := digits r in
          if decide (f = "") then None else Some ("." +:+ f, r')
      | _ => Some (EmptyString, s2)
      end in
    match frac with
    | None => None
    | Some (f, s3) =>
        let exp :=
          match s3 with
          | String e r =>
              if (byte_of e =? 101) || (byte_of e =? 69) then
                let '(sg, r1) :=
                  match r with
                  | String "+"%char r1 => ("+", r1)
                  | String "-"%char r1 => ("-", r1)
                  | _ => (EmptyString, r)
                  end in
                let '(d, r2) := digits r1 in
                if decide (d = "") then None
                else Some (String e sg +:+ d, r2)
              else Some (EmptyString, s3)
          | EmptyString => Some (EmptyString, s3)
          end in
        match exp with
        | None => None
        | Some (e, s4) => Some (sign +:+ int +:+ f +:+ e, s4)
        end
    end.

Definition literal (word : string) (v : json) (s : string) : option (json * string) :=
  if HasPrefix s word then Some (v, TrimPrefix s word) else None.

(** One JSON value at the head of [s], and what follows it. *)
Fixpoint value (fuel : nat) (s : string) : option (json * string) :=
  match fuel with
  | O => None
  | S fuel =>
      match skipSpace s with
      | String "{"%char r =>
          match skipSpace r with
          | String "}"%char r' => Some (JObject [], r')
          | r' => members fuel r' []
          end
      | String "["%char r =>
          match skipSpace r with
          | String "]"%char r' => Some (JArray [], r')
          | r' => elements fuel r' []
          end
      | String "034"%char r =>
          match stringBody (String.length r) r [] with
          | Some (str, r') => Some (JString str, r')
          | None => None
          end
      | String "t"%char _ as s' => literal "true" (JBool true) s'
      | String "f"%char _ as s' => literal "false" (JBool false) s'
      | String "n"%char _ as s' => literal "null" JNull s'
      | s' =>
          match number s' with
          | Some (lit, r) => Some (JNumber lit, r)
          | None => None
          end
      end
  end
with members (fuel : nat) (s : string) (acc : list (string * json)) : option (json * string) :=
  match fuel with
  | O => None
  | S fuel =>
      match skipSpace s with
      | String "034"%char r =>
          match stringBody (String.length r) r [] with
          | Some (key, r1) =>
              match skipSpace r1 with
              | String ":"%char r2 =>
                  match value fuel r2 with
                  | Some (v, r3) =>
                      match skipSpace r3 with
                      | String ","%char r4 => members fuel r4 (acc ++ [(key, v)])
                      | String "}"%char r4 => Some (JObject (acc ++ [(key, v)]), r4)
                      | _ => None
                      end
                  | None => None
                  end
              | _ => None
              end
          | None => None
          end
      | _ => None
      end
  end
with elements (fuel : nat) (s : string) (acc : list json) : option (json * string) :=
  match fuel with
  | O => None
  | S fuel =>
      match value fuel s with
      | Some (v, r) =>
          match skipSpace r with
          | String ","%char r' => elements fuel r' (acc ++ [v])
          | String "]"%char r' => Some (JArray (acc ++ [v]), r')
          | _ => None
          end
      | None => None
      end
  end.

(** A whole document: one value, white space around it and nothing else
    (what [checkValid] accepts). *)
Definition parse (data : string) : option json :=
  match value (2 * String.length data + 2) data with
  | Some (v, rest) => if decide (skipSpace rest = "") then Some v else None
  | None => None
  end.

(** [json.Unmarshal(data, &target)] for a target of type
    [map[string]interface{}]: the target afterwards, and whether the
    returned error is nil. A syntax error leaves the target alone; [null]
    sets it to nil; an object is stored member by member into the target
    (a fresh map if the target is nil); any other value is a type error
    and leaves the target alone. *)
Definition Unmarshal (data : string) (target : option (gmap string json))
  : option (gmap string json) * bool :=
  match parse data with
  | None => (target, false)
  | Some JNull => (None, true)
  | Some (JObject members) =>
      (Some (foldl (λ m kv, <[kv.1 := kv.2]> m) (default ∅ target) members), true)
  | Some _ => (target, false)
  end.

End Json.

(* ===================================================================== *)
(** ** Package llm: messages, tools, token estimator, rate limiter *)
(* ===================================================================== *)

Module llm.
Import Go.

(** [provider.go] *)
Record Message : Type := { Role : string; Content : string }.

#[export] Instance Message_eq_dec : EqDecision Message.
Proof. solve_decision. Defined.

(** *** token_estimator.go *)

(** [int(math.Ceil(float64(bytes) / 3.0))]. For [0 <= bytes < 2^53] the
    conversion to float64 is exact and the rounded quotient lies within
    1/4 of [bytes/3], so its ceiling is the integer ceiling written
    here. *)
Definition ceilThird (bytes : Z) : Z := (bytes + 2) / 3.

Definition estimateTextTokens (text : string) : Z :=
  if decide (text = "") then 0
  else
    let bytes := len text in
    let runes := RuneCountInString text in
    let estimate := ceilThird bytes in
    let estimate := if estimate <? runes ÷ 2 then runes ÷ 2 else estimate in
    let estimate := if estimate <? 1 then 1 else estimate in
    estimate.

Definition EstimateTokens (messages : list Message) : Z :=
  let total :=
    foldl (λ total msg, total + (estimateTextTokens (Content msg) + 4)) 0 messages in
  if total <? 1 then 1 else total.

(** *** tools.go *)

Record Tool : Type :=
  { ToolName : string; Description : string; InputSchema : Json.json }.

Record ToolCall : Type :=
  { ID : string; Name : string; Input : option (gmap string Json.json) }.

(** A string property of an input schema, and the schema of an object. *)
Definition stringProperty (name description : string) : string * Json.json :=
  (name, Json.JObject [("type", Json.JString "string");
                       ("description", Json.JString description)]).

Definition objectSchema (properties : list (string * Json.json)) (required : list string)
  : Json.json :=
  Json.JObject [("type", Json.JString "object");
                ("properties", Json.JObject properties);
                ("required", Json.JArray (Json.JString <$> required))].

(** [GetTools]: the catalog of tools. *)
Definition GetTools : list Tool :=
  [ {| ToolName := "execute_command";
       Description := "쉘 명령어를 실행합니다. 명령어 실행 전에 사용자 승인이 필요합니다.";
       InputSchema :=
         objectSchema [stringProperty "command" "실행할 쉘 명령어";
                       stringProperty "description" "명령어 실행 목적 설명"]
                      ["command"; "description"] |};
    {| ToolName := "read_file";
       Description := "파일을 읽고 내용을 반환합니다.";
       InputSchema := objectSchema [stringProperty "path" "읽을 파일 경로"] ["path"] |};
    {| ToolName := "write_file";
       Description := "파일을 작성하거나 수정합니다. 변경 전에 자동으로 백업이 생성됩니다.";
       InputSchema :=
         objectSchema [stringProperty "path" "작성할 파일 경로";
                       stringProperty "content" "파일 내용";
                       stringProperty "description" "파일 수정 목적 설명"]
                      ["path"; "content"; "description"] |};
    {| ToolName := "search_web";
       Description := "웹에서 정보를 검색합니다. 스토리지 문제 해결을 위한 유사 사례나 해결 방안을 찾을 때 사용합니다.";
       InputSchema := objectSchema [stringProperty "query" "검색 쿼리"] ["query"] |};
    {| ToolName := "monitor_log";
       Description := "로그 파일을 모니터링하거나 검색합니다.";
       InputSchema :=
         objectSchema [stringProperty "path" "로그 파일 경로";
                       stringProperty "action" "동작: 'tail' (실시간 모니터링), 'search' (패턴 검색), 'filter' (레벨 필터링), 'summarize' (요약)";
                       stringProperty "pattern" "검색 패턴 (search 또는 filter 액션 시 필요)"]
                      ["path"; "action"] |};
    {| ToolName := "ask_user";
       Description := "사용자에게 추가 정보를 요청하거나 확인을 받습니다.";
       InputSchema := objectSchema [stringProperty "question" "사용자에게 물어볼 질문"]
                                   ["question"] |} ].

(** *** The wire: requests, responses, the transport *)

(** [anthropicContentBlock], [anthropicMessage], [anthropicTool],
    [anthropicRequest] of anthropic.go. *)
Record anthropicContentBlock : Type :=
  { cbType : string; cbText : string; cbID : string; cbToolUseID : string;
    cbName : string; cbInput : option (gmap string Json.json) }.

Record anthropicMessage : Type :=
  { amRole : string; amContent : list anthropicContentBlock }.

Record anthropicRequest : Type :=
  { arModel : string; arMaxTokens : Z; arMessages : list anthropicMessage;
    arStream : bool; arSystem : string; arTools : list Tool }.

(** [openaiMessage], [openaiTool], [openaiRequest] of openai.go. *)
Record openaiMessage : Type := { omRole : string; omContent : string }.

Record openaiTool : Type := { otType : string; otFunction : Tool }.

Record openaiRequest : Type :=
  { orModel : string; orMessages : list openaiMessage; orStream : bool;
    orMaxTokens : Z; orTools : list openaiTool }.

(** The body of a request is the JSON text of one of the two request
    structures; it is kept as the structure. *)
Inductive requestBody : Type :=
| AnthropicBody (r : anthropicRequest)
| OpenAIBody (r : openaiRequest).

Record Request : Type :=
  { Method : string; URL : string; Headers : list (string * string);
    Body : requestBody }.

(** An [http.Response]: the status code, [Header.Get], and the body as
    the two readers of the providers see it: [io.ReadAll] gives
    [bodyText]; the [bufio.Scanner] yields [scanLines] one by one and
    then stops, [Err()] being [scanErr] from then on. A scanner goes on
    handing out the lines it has buffered after its reader has failed:
    [scanFailsAt] is the number of lines yielded before the [Scan] call
    in which the reader fails, so that [Err()] is already [scanErr] once
    more lines than that have been yielded, and nil before. *)
Record Response : Type :=
  { StatusCode : Z; HeaderGet : string → string;
    bodyText : string; scanLines : list string; scanErr : option error;
    scanFailsAt : nat }.

(** [scanner.Err()] when the loop is left after [n] lines. *)
Definition errAfter (resp : Response) (n : nat) : option error :=
  if (scanFailsAt resp <? n)%nat then scanErr resp else None.

(** [httpclient.HTTPClient.Do]. *)
Inductive doResult : Type :=
| DoResponse (resp : Response)
| DoError (err : error).

Definition Duration := Z.
Definition Instant := Z.

(** What a call does to its surroundings, in the order it does it. *)
Inductive Effect : Type :=
| RateLimitReport (wait : Duration) (waiting : bool)
| LimiterWait (tokens : Z)
| ClientDo (req : Request)
| OnChunk (chunk : string)
| OnToolCall (toolCall : ToolCall)
| Printf (text : string).

(** The requests a transport has recorded ([MockHTTPClient.GetRequests]). *)
Definition recordedRequests (effects : list Effect) : list Request :=
  omap (λ e, match e with ClientDo req => Some req | _ => None end) effects.

(** The tool calls handed to [onToolCall] and the chunks handed to
    [onChunk]. *)
Definition toolCallsOf (effects : list Effect) : list ToolCall :=
  omap (λ e, match e with OnToolCall tc => Some tc | _ => None end) effects.

Definition chunksOf (effects : list Effect) : list string :=
  omap (λ e, match e with OnChunk c => Some c | _ => None end) effects.

(** *** rate_limit.go

    A [time.Time] is the number of nanoseconds since the zero time, a
    [time.Duration] a number of nanoseconds. [Sub] saturates at the
    bounds of [Duration] as [Time.Sub] does. The mutex serialises the
    calls; the model is the sequence of calls in the order the mutex
    grants them. *)

Definition IsZero (t : Instant) : bool := t =? 0.

Definition Sub (t u : Instant) : Duration :=
  let d := t - u in
  if d <? minInt then minInt else if maxInt <? d then maxInt else d.

Definition Add (t : Instant) (d : Duration) : Instant := t + d.

Record RateLimiter : Type :=
  { window : Duration; maxTokens : Z; maxRequests : Z;
    windowStart : Instant; usedTokens : Z; usedRequests : Z }.

Definition NewRateLimiter (window : Duration) (maxTokens maxRequests : Z) : RateLimiter :=
  {| window := window; maxTokens := maxTokens; maxRequests := maxRequests;
     windowStart := 0; usedTokens := 0; usedRequests := 0 |}.

Definition setUsage (l : RateLimiter) (start : Instant) (tokens requests : Z) : RateLimiter :=
  {| window := window l; maxTokens := maxTokens l; maxRequests := maxRequests l;
     windowStart := start; usedTokens := tokens; usedRequests := requests |}.

(** [reserve], with the reading of [time.Now()] as an argument. *)
Definition reserve (l : RateLimiter) (now : Instant) (tokens : Z) : RateLimiter * Duration :=
  let l :=
    if IsZero (windowStart l) || (window l <=? Sub now (windowStart l))
    then setUsage l now 0 0
    else l in
  let tokensOK := (maxTokens l <=? 0) || (int_add (usedTokens l) tokens <=? maxTokens l) in
  let requestsOK := (maxRequests l <=? 0) || (int_add (usedRequests l) 1 <=? maxRequests l) in
  if tokensOK && requestsOK then
    (setUsage l (windowStart l) (int_add (usedTokens l) tokens) (int_add (usedRequests l) 1), 0)
  else
    let wait := Sub (Add (windowStart l) (window l)) now in
    if wait <? 0 then (l, 0) else (l, wait).

(** A [context.Context] as the limiter uses it: whether a
    [RateLimitReporter] was installed with [WithRateLimitReporter], and
    the error [ctx.Err()] returns once the context is done. *)
Record Context : Type := { hasReporter : bool; ctxErr : error }.

Definition reportRateLimit (ctx : Context) (wait : Duration) (waiting : bool) : list Effect :=
  if hasReporter ctx then [RateLimitReport wait waiting] else [].

(** The loop of [Wait]. Each element of [rounds] describes one turn of
    the loop: the reading of [time.Now()] in [reserve], and whether
    [ctx.Done()] fires before the timer of that turn. When [rounds] is
    used up while the limiter still refuses, the call has not returned:
    the result is [None]. *)
Fixpoint waitLoop (ctx : Context) (rounds : list (Instant * bool)) (l : RateLimiter)
    (tokens : Z) : option (RateLimiter * option error * list Effect) :=
  match rounds with
  | [] => None
  | (now, done) :: rounds =>
      let '(l, wait) := reserve l now tokens in
      if wait =? 0 then Some (l, None, reportRateLimit ctx 0 false)
      else if done : bool then
        Some (l, Some (ctxErr ctx),
              reportRateLimit ctx wait true ++ reportRateLimit ctx 0 false)
      else
        match waitLoop ctx rounds l tokens with
        | Some (l, err, effects) =>
            Some (l, err,
                  reportRateLimit ctx wait true ++ reportRateLimit ctx 0 false ++ effects)
        | None => None
        end
  end.

(** [Wait] on a limiter that may be nil. *)
Definition Wait (ctx : Context) (rounds : list (Instant * bool)) (l : option RateLimiter)
    (tokens : Z) : option (option RateLimiter * option error * list Effect) :=
  match l with
  | None => Some (None, None, [])
  | Some l =>
      let tokens := if tokens <? 0 then 0 else tokens in
      match waitLoop ctx rounds l tokens with
      | Some (l, err, effects) => Some (Some l, err, effects)
      | None => None
      end
  end.

Definition UpdateLimits (l : option RateLimiter) (tokensPerWindow requestsPerWindow : Z)
  : option RateLimiter :=
  match l with
  | None => None
  | Some l =>
      Some {| window := window l;
              maxTokens := if 0 <? tokensPerWindow then tokensPerWindow else maxTokens l;
              maxRequests := if 0 <? requestsPerWindow then requestsPerWindow else maxRequests l;
              windowStart := windowStart l; usedTokens := usedTokens l;
              usedRequests := usedRequests l |}
  end.

(** [strings.ToLower] is the identity on the names the repository passes. *)
Definition defaultRateLimits (provider : string) : Z * Z :=
  if decide (provider = "openai") then (50000, 60)
  else if decide (provider = "anthropic") then (50000, 60)
  else (50000, 60).

(** [time.Minute]. *)
Definition Minute : Duration := 60 * 1000000000.

(** [anthropicDelta] and [anthropicStreamResponse]; a nil pointer is
    [None]. The [Message] field is never read by the decoder. *)
Record anthropicDelta : Type :=
  { dType : string; dText : string; dPartialJSON : string; dToolUseID : string;
    dName : string; dInput : option (gmap string Json.json) }.

Record anthropicStreamResponse : Type :=
  { srType : string; srDelta : option anthropicDelta;
    srContentBlock : option anthropicContentBlock }.

(** [openaiFunctionDelta], [openaiToolCallDelta], [openaiDelta],
    [openaiChoice], [openaiStreamResponse]. *)
Record openaiFunctionDelta : Type := { fdName : string; fdArguments : string }.

Record openaiToolCallDelta : Type :=
  { tcdIndex : Z; tcdID : string; tcdType : string; tcdFunction : openaiFunctionDelta }.

Record openaiDelta : Type :=
  { odContent : string; odToolCalls : list openaiToolCallDelta }.

Record openaiChoice : Type := { Delta : openaiDelta }.

Record openaiStreamResponse : Type := { Choices : list openaiChoice }.

(** The functions of [strings], [strconv] and [encoding/json] that the
    providers call on texts from outside. [ParseFloatInt s] is [int(f)]
    for the float64 that [strconv.ParseFloat(s, 64)] reads, [None] when
    it reports an error. [MarshalInput] is [json.Marshal] of a tool input,
    [None] when it reports an error. [UnmarshalInput data target] is
    [json.Unmarshal(data, &target)] for a [map[string]interface{}]: the
    target afterwards and whether the error is nil ([Json.Unmarshal] is
    such a function). The last two are [json.Unmarshal] into a fresh
    stream record, [None] when it reports an error. *)
Record Library : Type :=
  { TrimSpace : string → string;
    ParseFloatInt : string → option Z;
    Atoi : string → option Z;
    UnmarshalInput : string → option (gmap string Json.json)
                     → option (gmap string Json.json) * bool;
    UnmarshalAnthropic : string → option anthropicStreamResponse;
    UnmarshalOpenAI : string → option openaiStreamResponse;
    MarshalInput : option (gmap string Json.json) → option string }.

(** A library whose [UnmarshalInput] is the decoder of [Json]. *)
Definition withJson (lib : Library) : Library :=
  {| TrimSpace := TrimSpace lib; ParseFloatInt := ParseFloatInt lib; Atoi := Atoi lib;
     UnmarshalInput := Json.Unmarshal;
     UnmarshalAnthropic := UnmarshalAnthropic lib;
     UnmarshalOpenAI := UnmarshalOpenAI lib;
     MarshalInput := MarshalInput lib |}.

(** [strings.Contains]. *)
Definition Contains (s substr : string) : bool :=
  bool_decide (is_Some (String.index 0 substr s)).

Definition parseRateLimitHeader (lib : Library) (value : string) : Z :=
  let value := TrimSpace lib value in
  if decide (value = "") then 0
  else
    let viaAtoi := match Atoi lib value with Some n => n | None => 0 end in
    if Contains value "." then
      match ParseFloatInt lib value with
      | Some f => f
      | None => viaAtoi
      end
    else viaAtoi.

Definition updateLimiterFromHeaders (lib : Library) (l : option RateLimiter)
    (headers : string → string) (tokensKey requestsKey : string) : option RateLimiter :=
  UpdateLimits l (parseRateLimitHeader lib (headers tokensKey))
                 (parseRateLimitHeader lib (headers requestsKey)).

(** *** Server-sent events

    What one scanned line is to the decoding loop: skipped (an empty
    line, a line without the [data: ] prefix, a record that does not
    unmarshal), the [[DONE]] sentinel, or a decoded record. *)
Inductive sseLine (A : Type) : Type :=
| Skipped
| DoneSentinel
| Record_ (r : A).
Arguments Skipped {A}.
Arguments DoneSentinel {A}.
Arguments Record_ {A} r.

Definition readLine {A : Type} (unmarshal : string → option A) (line : string) : sseLine A :=
  if decide (line = "") then Skipped
  else if HasPrefix line "data: " then
    let data := TrimPrefix line "data: " in
    if decide (data = "[DONE]") then DoneSentinel
    else match unmarshal data with
         | None => Skipped
         | Some r => Record_ r
         end
  else Skipped.

(** What the run of a provider call leaves: the provider afterwards, what
    the call returned, and its effects in order. *)
Record run (P : Type) : Type :=
  { after : P; returned : outcome; effects : list Effect }.
Arguments after {P} r.
Arguments returned {P} r.
Arguments effects {P} r.

(** The surroundings of one provider call: the context, the turns of the
    limiter's waiting loop (see [waitLoop]) and the transport. *)
Record Env : Type :=
  { ctx : Context; rounds : list (Instant * bool); client : Request → doResult }.

(** *** anthropic.go *)
Module anthropic.

Record AnthropicProvider : Type :=
  { apiKey : string; model : string; limiter : option RateLimiter }.

Definition NewAnthropicProvider (cfgAPIKey cfgModel : string) : AnthropicProvider :=
  let '(tokensPerMinute, requestsPerMinute) := defaultRateLimits "anthropic" in
  {| apiKey := cfgAPIKey; model := cfgModel;
     limiter := Some (NewRateLimiter Minute tokensPerMinute requestsPerMinute) |}.

Definition withLimiter (p : AnthropicProvider) (l : option RateLimiter) : AnthropicProvider :=
  {| apiKey := apiKey p; model := model p; limiter := l |}.

(** The tool-call assembly buffer; [inputJSON] is the content of the
    [strings.Builder]. *)
Record toolBuffer : Type :=
  { id : string; name : string; input : option (gmap string Json.json);
    inputJSON : string }.

(** The variables of the decoding loop, and what the callbacks have
    received so far. *)
Record decoder : Type :=
  { currentTool : option toolBuffer; receivedChunks : Z; receivedToolCalls : Z;
    emitted : list Effect }.

Definition start : decoder :=
  {| currentTool := None; receivedChunks := 0; receivedToolCalls := 0; emitted := [] |}.

Definition setTool (d : decoder) (t : option toolBuffer) : decoder :=
  {| currentTool := t; receivedChunks := receivedChunks d;
     receivedToolCalls := receivedToolCalls d; emitted := emitted d |}.

(** The closure [finalizeTool]; [onToolCall] tells whether the callback
    is non-nil. *)
Definition finalizeTool (lib : Library) (onToolCall : bool) (d : decoder) : decoder :=
  match currentTool d with
  | None => d
  | Some tool =>
      if bool_decide (id tool = "") || bool_decide (name tool = "") || negb onToolCall
      then setTool d None
      else
        let input := match input tool with None => Some ∅ | Some m => Some m end in
        let input :=
          if 0 <? len (inputJSON tool)
          then (UnmarshalInput lib (inputJSON tool) input).1
          else input in
        {| currentTool := None; receivedChunks := receivedChunks d;
           receivedToolCalls := receivedToolCalls d + 1;
           emitted := emitted d ++
             [OnToolCall {| ID := id tool; Name := name tool; Input := input |}] |}
  end.

(** The legacy [tool_use] delta: string values of its input go to the
    argument text, the others into the input map. Go ranges over the
    map in an unspecified order; the model takes that of
    [map_to_list]. *)
Definition legacyToolUse (delta : anthropicDelta) (current : option toolBuffer) : toolBuffer :=
  let tool :=
    match current with
    | Some tool => tool
    | None => {| id := ""; name := ""; input := Some ∅; inputJSON := "" |}
    end in
  let input0 := match input tool with None => ∅ | Some m => m end in
  let id' :=
    if bool_decide (dToolUseID delta ≠ "") && bool_decide (id tool = "")
    then dToolUseID delta else id tool in
  let name' :=
    if bool_decide (dName delta ≠ "") && bool_decide (name tool = "")
    then dName delta else name tool in
  let '(input', json') :=
    match dInput delta with
    | None => (input0, inputJSON tool)
    | Some m =>
        foldl (λ '(inp, js) '(k, v),
                 match v with
                 | Json.JString str => (inp, js +:+ str)
                 | _ => (<[k := v]> inp, js)
                 end)
              (input0, inputJSON tool) (map_to_list m)
    end in
  {| id := id'; name := name'; input := Some input'; inputJSON := json' |}.

Inductive step : Type :=
| Next (d : decoder)            (* go on with the next line *)
| Stop (d : decoder)            (* break out of the loop *)
| Abort (err : error).          (* return err *)

(** The [switch streamResp.Type] of the loop body. *)
Definition handle (lib : Library) (onToolCall : bool) (d : decoder)
    (streamResp : anthropicStreamResponse) : step :=
  let type := srType streamResp in
  if decide (type = "content_block_start") then
    match srContentBlock streamResp with
    | Some cb =>
        if decide (cbType cb = "tool_use") then
          let d := finalizeTool lib onToolCall d in
          let id0 := if decide (cbID cb = "") then cbToolUseID cb else cbID cb in
          Next (setTool d (Some {| id := id0; name := cbName cb; input := cbInput cb;
                                   inputJSON := "" |}))
        else Next d
    | None => Next d
    end
  else if decide (type = "content_block_delta") then
    match srDelta streamResp with
    | Some delta =>
        if bool_decide (dType delta = "text_delta") && bool_decide (dText delta ≠ "") then
          Next {| currentTool := currentTool d; receivedChunks := receivedChunks d + 1;
                  receivedToolCalls := receivedToolCalls d;
                  emitted := emitted d ++ [OnChunk (dText delta)] |}
        else if decide (dType delta = "input_json_delta") then
          if decide (dPartialJSON delta = "") then Next d
          else
            match currentTool d with
            | None => Next d
            | Some tool =>
                Next (setTool d (Some {| id := id tool; name := name tool;
                                         input := input tool;
                                         inputJSON := inputJSON tool +:+ dPartialJSON delta |}))
            end
        else if decide (dType delta = "tool_use") then
          Next (setTool d (Some (legacyToolUse delta (currentTool d))))
        else Next d
    | None => Next d
    end
  else if decide (type = "content_block_stop") then Next (finalizeTool lib onToolCall d)
  else if decide (type = "message_stop") then Stop (finalizeTool lib onToolCall d)
  else if decide (type = "error") then Abort (ErrorNew "스트림에서 에러 이벤트 수신")
  else Next d.

(** How the scanning loop ended: the scanner had no further line, the
    loop was left by [break], or the function returned from inside. *)
Inductive loopEnd : Type :=
| Exhausted
| Broken
| Returned (err : error).

Fixpoint decode (lib : Library) (onToolCall : bool)
    (lines : list (sseLine anthropicStreamResponse)) (d : decoder) : decoder * loopEnd :=
  match lines with
  | [] => (d, Exhausted)
  | Skipped :: lines => decode lib onToolCall lines d
  | DoneSentinel :: _ => (d, Broken)
  | Record_ r :: lines =>
      match handle lib onToolCall d r with
      | Next d => decode lib onToolCall lines d
      | Stop d => (d, Broken)
      | Abort err => (d, Returned err)
      end
  end.

(** The number of lines the loop has scanned when it ends: all of them,
    or those up to and with the line at which it is left. *)
Fixpoint scanned (lib : Library) (onToolCall : bool)
    (lines : list (sseLine anthropicStreamResponse)) (d : decoder) : nat :=
  match lines with
  | [] => 0
  | Skipped :: lines => S (scanned lib onToolCall lines d)
  | DoneSentinel :: _ => 1
  | Record_ r :: lines =>
      match handle lib onToolCall d r with
      | Next d => S (scanned lib onToolCall lines d)
      | Stop _ | Abort _ => 1
      end
  end.

(** The conversion of the messages: the last system message becomes the
    system prompt, blank messages are dropped. *)
Definition convertMessages (lib : Library) (messages : list Message)
  : list anthropicMessage * string :=
  foldl (λ '(anthropicMessages, systemPrompt) msg,
           if decide (Role msg = "system") then (anthropicMessages, Content msg)
           else if decide (TrimSpace lib (Content msg) = "") then (anthropicMessages, systemPrompt)
           else (anthropicMessages ++
                   [{| amRole := Role msg;
                       amContent := [{| cbType := "text"; cbText := Content msg; cbID := "";
                                        cbToolUseID := ""; cbName := ""; cbInput := None |}] |}],
                 systemPrompt))
        ([], "") messages.

Definition newRequest (p : AnthropicProvider) (reqBody : anthropicRequest) : Request :=
  {| Method := "POST"; URL := "https://api.anthropic.com/v1/messages";
     Headers := [("Content-Type", "application/json"); ("x-api-key", apiKey p);
                 ("anthropic-version", "2023-06-01")];
     Body := AnthropicBody reqBody |}.

(** [StreamChatWithTools]. [onChunk] is a function; [onToolCall] tells
    whether the tool-call callback is non-nil. The result is [None]
    when the limiter's [Wait] does not return within the turns that
    [env] describes. *)
Definition StreamChatWithTools (lib : Library) (env : Env) (p : AnthropicProvider)
    (messages : list Message) (tools : list Tool) (onToolCall : bool)
  : option (run AnthropicProvider) :=
  if decide (apiKey p = "") then
    Some {| after := p; returned := Return (Some (ErrorNew "anthropic API key not set"));
            effects := [] |}
  else
    let tokens := EstimateTokens messages in
    match Wait (ctx env) (rounds env) (limiter p) tokens with
    | None => None
    | Some (l, Some err, waited) =>
        Some {| after := withLimiter p l;
                returned := Return (Some (ErrorWrap "rate limit 대기 실패: " err));
                effects := LimiterWait tokens :: waited |}
    | Some (l, None, waited) =>
        let before := LimiterWait tokens :: waited in
        let '(anthropicMessages, systemPrompt) := convertMessages lib messages in
        if decide (List.length anthropicMessages = 0%nat) then
          Some {| after := withLimiter p l;
                  returned := Return (Some (ErrorNew "no valid messages to send"));
                  effects := before |}
        else
          let reqBody :=
            {| arModel := model p; arMaxTokens := 4096; arMessages := anthropicMessages;
               arStream := true; arSystem := systemPrompt; arTools := tools |} in
          let req := newRequest p reqBody in
          match client env req with
          | DoError err =>
              Some {| after := withLimiter p l;
                      returned := Return (Some (ErrorWrap "HTTP 요청 실패: " err));
                      effects := before ++ [ClientDo req] |}
          | DoResponse resp =>
              let l := updateLimiterFromHeaders lib l (HeaderGet resp)
                         "anthropic-ratelimit-limit-tokens"
                         "anthropic-ratelimit-limit-requests" in
              if decide (StatusCode resp ≠ 200) then
                Some {| after := withLimiter p l;
                        returned := Return (Some (ErrorNew
                          ("anthropic API error: HTTP " +:+ pretty (StatusCode resp)
                           +:+ " - " +:+ bodyText resp)));
                        effects := before ++ [ClientDo req] |}
              else
                let lines := readLine (UnmarshalAnthropic lib) <$> scanLines resp in
                let '(d, ending) := decode lib onToolCall lines start in
                let err :=
                  match ending with
                  | Returned err => Some err
                  | Broken =>
                      match errAfter resp (scanned lib onToolCall lines start) with
                      | Some err => Some (ErrorWrap "스트림 읽기 실패: " err)
                      | None => None
                      end
                  | Exhausted =>
                      match scanErr resp with
                      | Some err => Some (ErrorWrap "스트림 읽기 실패: " err)
                      | None => None
                      end
                  end in
                Some {| after := withLimiter p l; returned := Return err;
                        effects := before ++ [ClientDo req] ++ emitted d |}
          end
    end.

Definition StreamChat (lib : Library) (env : Env) (p : AnthropicProvider)
    (messages : list Message) : option (run AnthropicProvider) :=
  StreamChatWithTools lib env p messages [] false.

(** [Chat]: the chunks concatenated, or the empty string with the
    error. *)
Definition Chat (lib : Library) (env : Env) (p : AnthropicProvider)
    (messages : list Message) : option (AnthropicProvider * string * outcome) :=
  match StreamChat lib env p messages with
  | None => None
  | Some r =>
      match returned r with
      | Return None => Some (after r, String.concat "" (chunksOf (effects r)), Return None)
      | failed => Some (after r, "", failed)
      end
  end.

Definition GetModel (p : AnthropicProvider) : string := model p.

End anthropic.

(** *** openai.go *)
Module openai.

Record OpenAIProvider : Type := { apiKey : string; model : string }.

Definition NewOpenAIProvider (cfgAPIKey cfgModel : string) : OpenAIProvider :=
  {| apiKey := cfgAPIKey; model := cfgModel |}.

(** The variables of the decoding loop ([currentToolCalls] maps an
    index to the call under assembly), and what the callbacks have
    received so far. *)
Record decoder : Type :=
  { currentToolCalls : gmap Z ToolCall; emitted : list Effect }.

Definition start : decoder := {| currentToolCalls := ∅; emitted := [] |}.

(** [Input["_raw_args"].(string)], the empty string when the entry is
    missing or no string; reading a nil map is allowed. *)
Definition rawArgs (input : option (gmap string Json.json)) : string :=
  match input ≫= (λ m, m !! "_raw_args") with
  | Some (Json.JString args) => args
  | _ => ""
  end.

(** The body of the loop over [delta.ToolCalls]. Storing into a nil map
    panics. *)
Definition applyToolCallDelta (lib : Library) (calls : gmap Z ToolCall)
    (toolCallDelta : openaiToolCallDelta) : attempt (gmap Z ToolCall) :=
  let idx := tcdIndex toolCallDelta in
  let fn := tcdFunction toolCallDelta in
  let call :=
    match calls !! idx with
    | Some call => call
    | None => {| ID := tcdID toolCallDelta; Name := fdName fn; Input := Some ∅ |}
    end in
  let call :=
    if decide (fdName fn ≠ "")
    then {| ID := ID call; Name := fdName fn; Input := Input call |}
    else call in
  let call :=
    if bool_decide (tcdID toolCallDelta ≠ "") && bool_decide (ID call = "")
    then {| ID := tcdID toolCallDelta; Name := Name call; Input := Input call |}
    else call in
  if decide (fdArguments fn = "") then Fine (<[idx := call]> calls)
  else
    let existingArgs := rawArgs (Input call) +:+ fdArguments fn in
    match Input call with
    | None => Panics "assignment to entry in nil map"
    | Some m =>
        let stored := <["_raw_args" := Json.JString existingArgs]> m in
        let '(parsedArgs, ok) := UnmarshalInput lib existingArgs None in
        let input :=
          if ok : bool then delete "_raw_args" <$> parsedArgs else Some stored in
        Fine (<[idx := {| ID := ID call; Name := Name call; Input := input |}]> calls)
    end.

Fixpoint applyToolCallDeltas (lib : Library) (calls : gmap Z ToolCall)
    (deltas : list openaiToolCallDelta) : attempt (gmap Z ToolCall) :=
  match deltas with
  | [] => Fine calls
  | toolCallDelta :: deltas =>
      match applyToolCallDelta lib calls toolCallDelta with
      | Fine calls => applyToolCallDeltas lib calls deltas
      | Panics msg => Panics msg
      end
  end.

(** One decoded record: the loop variables afterwards, and the message
    of the panic if the record made the loop panic (the chunk of the
    record has been delivered by then). *)
Definition handle (lib : Library) (onToolCall : bool) (d : decoder)
    (streamResp : openaiStreamResponse) : decoder * option string :=
  match Choices streamResp with
  | [] => (d, None)
  | choice :: _ =>
      let delta := Delta choice in
      let d :=
        if decide (odContent delta = "") then d
        else {| currentToolCalls := currentToolCalls d;
                emitted := emitted d ++ [OnChunk (odContent delta)] |} in
      if bool_decide (0 < List.length (odToolCalls delta))%nat && onToolCall then
        match applyToolCallDeltas lib (currentToolCalls d) (odToolCalls delta) with
        | Fine calls => ({| currentToolCalls := calls; emitted := emitted d |}, None)
        | Panics msg => (d, Some msg)
        end
      else (d, None)
  end.

(** How the scanning loop ended: the scanner had no further line, the
    loop was left by [break], or it panicked. *)
Inductive loopEnd : Type :=
| Exhausted
| Broken
| Panicked (msg : string).

Fixpoint decode (lib : Library) (onToolCall : bool)
    (lines : list (sseLine openaiStreamResponse)) (d : decoder) : decoder * loopEnd :=
  match lines with
  | [] => (d, Exhausted)
  | Skipped :: lines => decode lib onToolCall lines d
  | DoneSentinel :: _ => (d, Broken)
  | Record_ r :: lines =>
      match handle lib onToolCall d r with
      | (d, None) => decode lib onToolCall lines d
      | (d, Some msg) => (d, Panicked msg)
      end
  end.

(** The number of lines the loop has scanned when it ends: all of them,
    or those up to and with the line at which it is left. *)
Fixpoint scanned (lib : Library) (onToolCall : bool)
    (lines : list (sseLine openaiStreamResponse)) (d : decoder) : nat :=
  match lines with
  | [] => 0
  | Skipped :: lines => S (scanned lib onToolCall lines d)
  | DoneSentinel :: _ => 1
  | Record_ r :: lines =>
      match handle lib onToolCall d r with
      | (d, None) => S (scanned lib onToolCall lines d)
      | (_, Some _) => 1
      end
  end.

(** "Process any remaining tool calls": every assembled call with an id
    and a name goes to the callback. Go ranges over the map in an
    unspecified order; the model takes that of [map_to_list]. *)
Definition remaining (onToolCall : bool) (calls : gmap Z ToolCall) : list Effect :=
  if onToolCall then
    omap (λ '(_, toolCall),
            if bool_decide (ID toolCall ≠ "") && bool_decide (Name toolCall ≠ "")
            then Some (OnToolCall toolCall) else None)
         (map_to_list calls)
  else [].

Definition convertMessages (messages : list Message) : list openaiMessage :=
  (λ msg,
     if Contains (Content msg) "<tool_result"
     then {| omRole := Role msg; omContent := Content msg |}
     else {| omRole := Role msg; omContent := Content msg |}) <$> messages.

Definition newRequest (p : OpenAIProvider) (reqBody : openaiRequest) : Request :=
  {| Method := "POST"; URL := "https://api.openai.com/v1/chat/completions";
     Headers := [("Content-Type", "application/json");
                 ("Authorization", "Bearer " +:+ apiKey p)];
     Body := OpenAIBody reqBody |}.

(** [StreamChatWithTools]; the context is only attached to the
    request. *)
Definition StreamChatWithTools (lib : Library) (env : Env) (p : OpenAIProvider)
    (messages : list Message) (tools : list Tool) (onToolCall : bool)
  : run OpenAIProvider :=
  if decide (apiKey p = "") then
    {| after := p; returned := Return (Some (ErrorNew "openai API key not set"));
       effects := [] |}
  else
    let reqBody :=
      {| orModel := model p; orMessages := convertMessages messages; orStream := true;
         orMaxTokens := 4096;
         orTools := (λ tool, {| otType := "function"; otFunction := tool |}) <$> tools |} in
    let req := newRequest p reqBody in
    match client env req with
    | DoError err =>
        {| after := p; returned := Return (Some (ErrorWrap "failed to send request: " err));
           effects := [ClientDo req] |}
    | DoResponse resp =>
        if decide (StatusCode resp ≠ 200) then
          {| after := p;
             returned := Return (Some (ErrorNew
               ("openai API error: " +:+ pretty (StatusCode resp) +:+ " - "
                +:+ bodyText resp)));
             effects := [ClientDo req] |}
        else
          let lines := readLine (UnmarshalOpenAI lib) <$> scanLines resp in
          let '(d, ending) := decode lib onToolCall lines start in
          match ending with
          | Panicked msg =>
              {| after := p; returned := Panic msg;
                 effects := [ClientDo req] ++ emitted d |}
          | Broken =>
              let err :=
                match errAfter resp (scanned lib onToolCall lines start) with
                | Some err => Some (ErrorWrap "failed to read stream: " err)
                | None => None
                end in
              {| after := p; returned := Return err;
                 effects := [ClientDo req] ++ emitted d
                            ++ remaining onToolCall (currentToolCalls d) |}
          | Exhausted =>
              let err :=
                match scanErr resp with
                | Some err => Some (ErrorWrap "failed to read stream: " err)
                | None => None
                end in
              {| after := p; returned := Return err;
                 effects := [ClientDo req] ++ emitted d
                            ++ remaining onToolCall (currentToolCalls d) |}
          end
    end.

Definition StreamChat (lib : Library) (env : Env) (p : OpenAIProvider)
    (messages : list Message) : run OpenAIProvider :=
  StreamChatWithTools lib env p messages [] false.

Definition Chat (lib : Library) (env : Env) (p : OpenAIProvider)
    (messages : list Message) : OpenAIProvider * string * outcome :=
  let r := StreamChat lib env p messages in
  match returned r with
  | Return None => (after r, String.concat "" (chunksOf (effects r)), Return None)
  | failed => (after r, "", failed)
  end.

Definition GetModel (p : OpenAIProvider) : string := model p.

End openai.

(** *** provider.go: the [Provider] interface

    An implementation with state [S]. [StreamChatWithTools] gives the
    state afterwards, the calls of [onChunk] and [onToolCall] in the
    order made, and the returned error; the flag tells whether
    [onToolCall] is non-nil. Implementations are taken to return. *)
Record Provider (S : Type) : Type :=
  { StreamChatWithTools : S → list Message → list Tool → bool → S * list Effect * option error;
    Chat : S → list Message → S * string * option error;
    GetModel : S → string }.
Arguments StreamChatWithTools {S} _ _ _ _ _.
Arguments Chat {S} _ _ _.
Arguments GetModel {S} _ _.

End llm.

(* ===================================================================== *)
(** ** Package httpclient: the recording test transport (mock.go) *)
(* ===================================================================== *)

Module httpclient.
Import Go llm.

(** What [net/http] contributes: [http.StatusText], and the canonical form
    that [Header.Set] gives to a key. *)
Record Net : Type :=
  { StatusText : Z → string; CanonicalHeaderKey : string → string }.

(** A stored [*http.Response]: [unread] is what the body reader still has
    to give. *)
Record stored : Type :=
  { Status : string; Code : Z; unread : string; Header : gmap string string }.

Record MockHTTPClient : Type :=
  { responses : gmap string stored; errors : gmap string error;
    requests : list Request }.

Definition NewMockHTTPClient : MockHTTPClient :=
  {| responses := ∅; errors := ∅; requests := [] |}.

(** [SetResponse]; [headers] are the entries of the map handed in, in the
    order Go ranges over them (nil is the empty list), set one by one. *)
Definition SetResponse (net : Net) (m : MockHTTPClient) (url : string) (statusCode : Z)
    (body : string) (headers : list (string * string)) : MockHTTPClient :=
  let header :=
    foldl (λ h '(k, v), <[CanonicalHeaderKey net k := v]> h) ∅ headers in
  {| responses :=
       <[url := {| Status := StatusText net statusCode; Code := statusCode;
                   unread := body; Header := header |}]> (responses m);
     errors := errors m; requests := requests m |}.

Definition SetError (m : MockHTTPClient) (url : string) (err : error) : MockHTTPClient :=
  {| responses := responses m; errors := <[url := err]> (errors m);
     requests := requests m |}.

Definition GetRequests (m : MockHTTPClient) : list Request := requests m.

Definition ClearRequests (m : MockHTTPClient) : MockHTTPClient :=
  {| responses := responses m; errors := errors m; requests := [] |}.

(** What [Do] hands back: the response with the bytes of its body, or the
    error. *)
Inductive answer : Type :=
| Answer (status : string) (code : Z) (body : string) (header : gmap string string)
| Failure (err : error).

(** [http.StatusNotFound]. *)
Definition StatusNotFound : Z := 404.

(** [Do]: the request is stored first; a configured error wins over a
    configured response; the body of the stored response is read from its
    own reader with [io.ReadAll], which leaves that reader at its end. *)
Definition Do (net : Net) (m : MockHTTPClient) (req : Request) : MockHTTPClient * answer :=
  let m := {| responses := responses m; errors := errors m;
              requests := requests m ++ [req] |} in
  let url := URL req in
  match errors m !! url with
  | Some err => (m, Failure err)
  | None =>
      match responses m !! url with
      | Some resp =>
          let bodyBytes := unread resp in
          ({| responses :=
                <[url := {| Status := Status resp; Code := Code resp; unread := "";
                            Header := Header resp |}]> (responses m);
              errors := errors m; requests := requests m |},
           Answer (Status resp) (Code resp) bodyBytes (Header resp))
      | None =>
          (m, Answer (StatusText net StatusNotFound) StatusNotFound "Not Found" ∅)
      end
  end.

End httpclient.

(* ===================================================================== *)
(** ** Package chat: the context manager *)
(* ===================================================================== *)

Module chat.
Import Go llm.

Section Manager.
Context {S : Type} (P : Provider S).

Record Manager : Type :=
  { provider : S; messages : list Message; maxMessages : Z; summarizeThreshold : Z }.

Definition NewManager (provider : S) : Manager :=
  {| provider := provider; messages := []; maxMessages := 50; summarizeThreshold := 30 |}.

Definition setMessages (m : Manager) (msgs : list Message) : Manager :=
  {| provider := provider m; messages := msgs; maxMessages := maxMessages m;
     summarizeThreshold := summarizeThreshold m |}.

Definition setProvider (m : Manager) (p : S) : Manager :=
  {| provider := p; messages := messages m; maxMessages := maxMessages m;
     summarizeThreshold := summarizeThreshold m |}.

Definition AddMessage (m : Manager) (role content : string) : Manager :=
  setMessages m (messages m ++ [{| Role := role; Content := content |}]).

Definition GetMessages (m : Manager) : list Message := messages m.

Definition Clear (m : Manager) : Manager := setMessages m [].

Definition SetSystemPrompt (m : Manager) (prompt : string) : Manager :=
  let filtered := filter (λ msg, Role msg ≠ "system") (messages m) in
  setMessages m ({| Role := "system"; Content := prompt |} :: filtered).

(** [summarizeContext]: the manager afterwards and the returned
    error. *)
Definition summarizeContext (m : Manager) : Manager * option error :=
  if Z.of_nat (List.length (messages m)) <? 10 then (m, None)
  else
    let n := List.length (messages m) in
    let oldMessages := take (n - 5) (messages m) in
    let recentMessages := drop (n - 5) (messages m) in
    let summaryPrompt :=
      foldl (λ prompt msg, prompt +:+ Role msg +:+ ": " +:+ Content msg +:+ newline)
            ("다음 대화 내용을 간결하게 요약해주세요. 중요한 정보(에러 메시지, 명령어, 파일 경로 등)는 반드시 포함해주세요:"
             +:+ newline +:+ newline)
            oldMessages in
    let summaryMessages :=
      [{| Role := "system";
          Content := "You are a helpful assistant that summarizes conversations while preserving important technical details." |};
       {| Role := "user"; Content := summaryPrompt |}] in
    let '(p, summary, err) := Chat P (provider m) summaryMessages in
    match err with
    | Some err => (setProvider m p, Some (ErrorWrap "failed to generate summary: " err))
    | None =>
        (setMessages (setProvider m p)
           ({| Role := "system"; Content := "Previous conversation summary: " +:+ summary |}
              :: recentMessages),
         None)
    end.

Definition formatToolInput (lib : Library) (input : option (gmap string Json.json)) : string :=
  match MarshalInput lib input with
  | Some data => data
  | None => "{}"
  end.

(** The callbacks the manager hands to the provider: a chunk goes on to
    [onChunk]; a tool call goes on to [onToolCall] if that is
    non-nil. *)
Definition forward (onToolCall : bool) (e : Effect) : list Effect :=
  match e with
  | OnChunk chunk => [OnChunk chunk]
  | OnToolCall toolCall => if onToolCall then [OnToolCall toolCall] else []
  | _ => []
  end.

(** [Manager.StreamChatWithTools]: the manager afterwards, what the
    caller's callbacks and the terminal received, and the returned
    error. *)
Definition StreamChatWithTools (lib : Library) (m : Manager) (userInput : string)
    (tools : list Tool) (onToolCall : bool) : Manager * list Effect * option error :=
  let m := AddMessage m "user" userInput in
  let '(m, warned) :=
    if Z.of_nat (List.length (messages m)) >? summarizeThreshold m then
      match summarizeContext m with
      | (m, Some err) =>
          (m, [Printf ("Warning: failed to summarize context: " +:+ Error err +:+ newline)])
      | (m, None) => (m, [])
      end
    else (m, []) in
  let '(p, streamed, err) := llm.StreamChatWithTools P (provider m) (messages m) tools true in
  let m := setProvider m p in
  let out := warned ++ (streamed ≫= forward onToolCall) in
  match err with
  | Some err => (m, out, Some (ErrorWrap "failed to stream chat: " err))
  | None =>
      let responseText :=
        foldl (λ text tc,
                 text +:+ newline +:+ "<function_call>{" +:+ quoted "name" +:+ ":"
                 +:+ quoted (Name tc) +:+ "," +:+ quoted "input" +:+ ":"
                 +:+ formatToolInput lib (Input tc) +:+ "}</function_call>")
              (String.concat "" (chunksOf streamed)) (toolCallsOf streamed) in
      (AddMessage m "assistant" responseText, out, None)
  end.

(** [chat.FormatToolCall] of parser.go. *)
Definition FormatToolCall (toolName result : string) (success : bool) : string :=
  let status := if success then "성공" else "실패" in
  "<tool_result name=" +:+ quoted toolName +:+ " status=" +:+ quoted status +:+ ">"
  +:+ result +:+ "</tool_result>".

End Manager.

End chat.

(* ===================================================================== *)
(** ** Package agent: the bounded agent loop *)
(* ===================================================================== *)

Module agent.
Import Go llm chat.

(** The tool executor handed to the agent: a callback with a state of its
    own, giving the result text and the error. It is taken to return. *)
Definition Executor (E : Type) : Type := E → ToolCall → E * string * option error.

(** What the loop does, in order: a request to the provider with the
    reply it got, the execution of a tool call, a chunk handed to the
    caller's [onChunk]. *)
Inductive Event : Type :=
| Request_ (messages : list Message) (reply : list Effect) (err : option error)
| Executed (toolCall : ToolCall) (result : string) (err : option error)
| Chunk (chunk : string).

Definition isRequest (ev : Event) : bool :=
  match ev with Request_ _ _ _ => true | _ => false end.

(** The number of requests sent to the provider. *)
Definition requestsIn (events : list Event) : nat := List.length (filter isRequest events).

(** *** skill.go, as far as it works on the loaded skills *)

Record Skill : Type :=
  { SkillName : string; SkillDescription : string; SkillContent : string; Path : string }.

Module SkillManager.

(** [GetSkillMetadata] on the skills the manager has loaded. *)
Definition GetSkillMetadata (skills : list Skill) : string :=
  if decide (List.length skills = 0%nat) then ""
  else
    let builder := "사용 가능한 스킬:" +:+ newline in
    let builder :=
      (foldl (λ '(i, builder) skill,
                (S i,
                 builder +:+ pretty (Z.of_nat i + 1) +:+ ". " +:+ SkillName skill +:+ ": "
                 +:+ SkillDescription skill +:+ newline))
             (0%nat, builder) skills).2 in
    builder +:+ newline +:+ "작업과 관련된 스킬이 있다면 해당 스킬을 활성화하여 사용하세요." +:+ newline.

(** [ActivateSkill]: the content of the first skill of that name. *)
Fixpoint ActivateSkill (skills : list Skill) (name : string) : string * option error :=
  match skills with
  | [] => ("", Some (ErrorNew ("skill not found: " +:+ name)))
  | skill :: skills =>
      if decide (SkillName skill = name) then (SkillContent skill, None)
      else ActivateSkill skills name
  end.

End SkillManager.

Section Agent.
Context {S E : Type} (P : Provider S) (onToolCall : Executor E).

(** The [Agent] structure is never written after [NewAgent]; what its
    pointers lead to is the [Store]. [skillMetadata] is what
    [skillManager.GetSkillMetadata()] returns. *)
Record Agent : Type :=
  { skillMetadata : string; tools : list Tool; maxIterations : Z }.

Definition NewAgent (skillMetadata : string) : Agent :=
  {| skillMetadata := skillMetadata; tools := GetTools; maxIterations := 10 |}.

(** The provider and the chat manager the agent points to, and the
    state of the tool executor. *)
Record Store : Type :=
  { llmProvider : S; chatManager : @Manager S; executor : E }.

Definition setChat (st : Store) (m : @Manager S) : Store :=
  {| llmProvider := llmProvider st; chatManager := m; executor := executor st |}.

Definition setLLM (st : Store) (p : S) : Store :=
  {| llmProvider := p; chatManager := chatManager st; executor := executor st |}.

Definition setExecutor (st : Store) (e : E) : Store :=
  {| llmProvider := llmProvider st; chatManager := chatManager st; executor := e |}.

(** The fixed opening of the system prompt. *)
Definition preamble : string :=
  String.concat newline
    ["당신은 스토리지 문제 해결을 전문으로 하는 자율적인 AI Agent입니다.";
     "";
     "주요 역할:";
     "1. 사용자가 설명한 스토리지 문제를 분석하고 진단";
     "2. 필요한 도구를 자율적으로 선택하고 실행";
     "3. 여러 단계의 작업을 계획하고 순차적으로 수행";
     "4. 중간 결과를 분석하고 다음 단계를 결정";
     "5. 작업이 완료될 때까지 반복적으로 도구를 사용";
     "";
     "작업 방식:";
     "- 문제를 분석하고 해결 계획을 수립";
     "- 필요한 도구를 순차적으로 실행";
     "- 각 도구 실행 결과를 분석";
     "- 결과에 따라 다음 단계 결정";
     "- 목표 달성 시 작업 종료";
     "";
     "중요 규칙:";
     "- 명령어 실행 전 사용자 승인 필요 (auto_approve가 설정되지 않은 경우)";
     "- 파일 수정 전 자동 백업 생성";
     "- 위험한 작업은 사용자에게 확인";
     "- 한국어로 응답";
     "";
     ""].

Definition buildSystemPrompt (a : Agent) : string :=
  let builder := preamble in
  let builder :=
    if decide (skillMetadata a ≠ "") then builder +:+ skillMetadata a +:+ newline
    else builder in
  let builder := builder +:+ "사용 가능한 도구:" +:+ newline in
  foldl (λ builder tool,
           builder +:+ "- " +:+ ToolName tool +:+ ": " +:+ Description tool +:+ newline)
        builder (tools a).

(** "Execute tool calls": every call goes to the executor, and every
    outcome becomes one tool-result record. *)
Definition executeToolCalls (e : E) (toolCalls : list ToolCall)
  : E * list string * list Event :=
  foldl (λ '(e, toolResults, events) toolCall,
           let '(e, result, err) := onToolCall e toolCall in
           let record :=
             match err with
             | Some err => FormatToolCall (Name toolCall) ("오류: " +:+ Error err) false
             | None => FormatToolCall (Name toolCall) result true
             end in
           (e, toolResults ++ [record], events ++ [Executed toolCall result err]))
        (e, [], []) toolCalls.

(** What a task leaves: the store, the returned text and error, and the
    events in order. *)
Record taskRun : Type :=
  { store : Store; response : string; failure : option error; events : list Event }.

(** The statements after the loop of [ExecuteTask]. *)
Definition finish (st : Store) (finalResponse : string) (events : list Event) : taskRun :=
  {| store := setChat st (AddMessage (chatManager st) "assistant" finalResponse);
     response := finalResponse; failure := None; events := events |}.

(** The loop of [ExecuteTask]. *)
Equations? executeLoop (a : Agent) (st : Store) (iterations : Z) (finalResponse : string)
    (events : list Event) : taskRun
  by wf (Z.to_nat (maxIterations a - iterations)) lt :=
  executeLoop a st iterations finalResponse events
    with Z_lt_dec iterations (maxIterations a) := {
    | right _ => finish st finalResponse events
    | left _ =>
        let iterations := iterations + 1 in
        let messages := GetMessages (chatManager st) in
        let '(p, reply, err) :=
          llm.StreamChatWithTools P (llmProvider st) messages (tools a) true in
        let st := setLLM st p in
        let events := events ++ [Request_ messages reply err] in
        match err with
        | Some err =>
            {| store := st; response := "";
               failure := Some (ErrorWrap "LLM 호출 실패: " err); events := events |}
        | None =>
            let response := String.concat "" (chunksOf reply) in
            let finalResponse := finalResponse +:+ response +:+ newline +:+ newline in
            let toolCalls := toolCallsOf reply in
            if decide (List.length toolCalls = 0%nat) then
              finish (setChat st (AddMessage (chatManager st) "assistant" response))
                     finalResponse events
            else
              let '(e, toolResults, executed) := executeToolCalls (executor st) toolCalls in
              let toolResultsText := Join toolResults (newline +:+ newline) in
              let st := setChat (setExecutor st e)
                          (AddMessage (chatManager st) "user" toolResultsText) in
              executeLoop a st iterations finalResponse (events ++ executed)
        end }.
Proof. lia. Qed.

(** [ExecuteTask]. *)
Definition ExecuteTask (a : Agent) (st : Store) (task : string) : taskRun :=
  let systemPrompt := buildSystemPrompt a in
  let st := setChat st (SetSystemPrompt (chatManager st) systemPrompt) in
  let st := setChat st (AddMessage (chatManager st) "user" task) in
  executeLoop a st 0 "" [].

Definition progressNote : string :=
  newline +:+ newline +:+ "[도구 실행 완료, 다음 단계 진행 중...]" +:+ newline +:+ newline.

(** The loop of [StreamTask]; the chunks of a reply are handed to the
    caller's [onChunk] while the request runs. *)
Equations? streamLoop (a : Agent) (st : Store) (iterations : Z) (events : list Event)
  : taskRun
  by wf (Z.to_nat (maxIterations a - iterations)) lt :=
  streamLoop a st iterations events with Z_lt_dec iterations (maxIterations a) := {
    | right _ => {| store := st; response := ""; failure := None; events := events |}
    | left _ =>
        let iterations := iterations + 1 in
        let messages := GetMessages (chatManager st) in
        let '(p, reply, err) :=
          llm.StreamChatWithTools P (llmProvider st) messages (tools a) true in
        let st := setLLM st p in
        let events := events ++ [Request_ messages reply err] ++ (Chunk <$> chunksOf reply) in
        match err with
        | Some err =>
            {| store := st; response := "";
               failure := Some (ErrorWrap "LLM 호출 실패: " err); events := events |}
        | None =>
            let response := String.concat "" (chunksOf reply) in
            let toolCalls := toolCallsOf reply in
            if bool_decide (response = "") && bool_decide (List.length toolCalls = 0%nat) then
              {| store := st; response := "";
                 failure := Some (ErrorNew "LLM에서 응답을 받지 못했습니다 (빈 응답)");
                 events := events |}
            else if decide (List.length toolCalls = 0%nat) then
              {| store := setChat st (AddMessage (chatManager st) "assistant" response);
                 response := ""; failure := None; events := events |}
            else
              let '(e, toolResults, executed) := executeToolCalls (executor st) toolCalls in
              let toolResultsText := Join toolResults (newline +:+ newline) in
              let st := setChat (setExecutor st e)
                          (AddMessage (chatManager st) "user" toolResultsText) in
              streamLoop a st iterations (events ++ executed ++ [Chunk progressNote])
        end }.
Proof. lia. Qed.

(** [StreamTask]; [response] of the result is unused. *)
Definition StreamTask (a : Agent) (st : Store) (task : string) : taskRun :=
  let systemPrompt := buildSystemPrompt a in
  let st := setChat st (SetSystemPrompt (chatManager st) systemPrompt) in
  let st := setChat st (AddMessage (chatManager st) "user" task) in
  streamLoop a st 0 [].

(** [Agent.ActivateSkill], on the skills the skill manager has loaded. *)
Definition ActivateSkill (skills : list Skill) (st : Store) (skillName : string)
  : Store * option error :=
  match SkillManager.ActivateSkill skills skillName with
  | (_, Some err) => (st, Some (ErrorWrap "스킬 활성화 실패: " err))
  | (skillContent, None) =>
      let currentPrompt := GetMessages (chatManager st) in
      match currentPrompt with
      | first :: _ =>
          if decide (Role first = "system") then
            let newPrompt := Content first +:+ newline +:+ newline +:+ skillContent in
            (setChat st (SetSystemPrompt (chatManager st) newPrompt), None)
          else (setChat st (AddMessage (chatManager st) "system" skillContent), None)
      | [] => (setChat st (AddMessage (chatManager st) "system" skillContent), None)
      end
  end.

End Agent.

End agent.

(* ===================================================================== *)
(** ** Vocabulary of the properties *)
(* ===================================================================== *)

Module Spec.
Import Go llm.

(** *** Token estimator, in the words of its contract *)

(** The ceiling of [a / b]. *)
Definition ceilDiv (a b : Z) : Z := - ((- a) / b).

(** "Text cost = ceil(byte-length / 3), but never less than
    (character-count / 2), and never less than 1 for non-empty text;
    empty text costs 0." *)
Definition textCost (content : string) : Z :=
  if decide (content = "") then 0
  else Z.max 1 (Z.max (ceilDiv (len content) 3) (RuneCountInString content / 2)).

Definition Zsum (l : list Z) : Z := foldr Z.add 0 l.

(** "Total is the sum across all messages, floored at 1." *)
Definition estimate (messages : list Message) : Z :=
  Z.max 1 (Zsum ((λ msg, 4 + textCost (Content msg)) <$> messages)).

(** *** Rate limiter *)

(** "The window is expired or never started." *)
Definition expired (l : RateLimiter) (now : Instant) : bool :=
  IsZero (windowStart l) || (window l <=? Sub now (windowStart l)).

(** The limiter a call at [now] works with: window and counters reset if
    the window is expired or never started. *)
Definition current (l : RateLimiter) (now : Instant) : RateLimiter :=
  if expired l now then setUsage l now 0 0 else l.

(** "(max-tokens <= 0 or used-tokens+tokens <= max-tokens) and
    (max-requests <= 0 or used-requests+1 <= max-requests)", the sums
    being those of Go's [int]. *)
Definition fits (l : RateLimiter) (tokens : Z) : Prop :=
  (maxTokens l <= 0 ∨ int_add (usedTokens l) tokens <= maxTokens l)
  ∧ (maxRequests l <= 0 ∨ int_add (usedRequests l) 1 <= maxRequests l).

(** The rule of [reserve] in the words of the specification. *)
Inductive reserveRule (l : RateLimiter) (now : Instant) (tokens : Z)
  : RateLimiter * Duration → Prop :=
| reserve_commit :
    fits (current l now) tokens →
    reserveRule l now tokens
      (setUsage (current l now) (windowStart (current l now))
         (int_add (usedTokens (current l now)) tokens)
         (int_add (usedRequests (current l now)) 1), 0)
| reserve_refuse :
    ¬ fits (current l now) tokens →
    reserveRule l now tokens
      (current l now,
       Z.max 0 (Sub (Add (windowStart (current l now)) (window l)) now)).

(** A sequence of [reserve] calls, each with its reading of the clock and
    its tokens: the limiter afterwards and the waits returned. *)
Fixpoint reserveAll (l : RateLimiter) (calls : list (Instant * Z))
  : RateLimiter * list Duration :=
  match calls with
  | [] => (l, [])
  | (now, tokens) :: calls =>
      let '(l, wait) := reserve l now tokens in
      let '(l, waits) := reserveAll l calls in
      (l, wait :: waits)
  end.

(** The calls all fall into the window that [l] has open. *)
Definition inWindow (l : RateLimiter) (calls : list (Instant * Z)) : Prop :=
  Forall (λ call, expired l call.1 = false) calls.

Definition totalTokens (calls : list (Instant * Z)) : Z := Zsum (snd <$> calls).

(** The claim as the specification words it: calls in one window whose
    cumulative tokens stay within max-tokens never get a positive
    wait. *)
Definition tokensAloneSuffice : Prop :=
  ∀ (l : RateLimiter) (calls : list (Instant * Z)),
    0 < window l → 0 < maxTokens l → 0 <= usedTokens l →
    inWindow l calls →
    Forall (λ call, 0 <= call.2) calls →
    usedTokens l + totalTokens calls <= maxTokens l →
    Forall (λ wait, wait = 0) (reserveAll l calls).2.

(** And: the first call exceeding a cap gets a positive wait, whatever
    the window duration. *)
Definition refusalAlwaysWaits : Prop :=
  ∀ (l : RateLimiter) (now : Instant) (tokens : Z),
    windowStart l <= now → ¬ fits (current l now) tokens →
    0 < (reserve l now tokens).2.

(** *** Providers *)

(** An effect that is a call of one of the two callbacks. *)
Definition isCallback (e : Effect) : Prop :=
  match e with
  | OnChunk _ | OnToolCall _ => True
  | _ => False
  end.

(** *** Stream decoders *)

(** The decoded records among the lines of a stream. *)
Definition recordsOf {A : Type} (lines : list (sseLine A)) : list A :=
  omap (λ line, match line with Record_ r => Some r | _ => None end) lines.








(** The tool calls that a run of each decoding loop hands to [onToolCall];
    for the OpenAI loop those of "process any remaining tool calls" are
    among them unless the loop panicked. *)
Definition anthropicCompleted (lib : Library) (onToolCall : bool)
    (lines : list (sseLine anthropicStreamResponse)) : list ToolCall :=
  toolCallsOf (anthropic.emitted (anthropic.decode lib onToolCall lines anthropic.start).1).


(** *** Context manager: the summary *)

(** "Sends the older prefix, flattened as "{role}: {content}" lines, to
    ChatProvider.chat with an instruction to preserve technical details
    (error text, commands, paths)." *)
Definition flattened (older : list Message) : string :=
  foldr (λ msg rest, Role msg +:+ ": " +:+ Content msg +:+ newline +:+ rest) "" older.

Definition summaryRequest (older : list Message) : list Message :=
  [{| Role := "system";
      Content := "You are a helpful assistant that summarizes conversations while preserving important technical details." |};
   {| Role := "user";
      Content :=
        "다음 대화 내용을 간결하게 요약해주세요. 중요한 정보(에러 메시지, 명령어, 파일 경로 등)는 반드시 포함해주세요:"
        +:+ newline +:+ newline +:+ flattened older |}].

(** The synthesized summary of [older]: what the provider's [Chat]
    returns for that request. *)
Definition synthesized {S : Type} (P : Provider S) (p : S) (older : list Message) : string :=
  (llm.Chat P p (summaryRequest older)).1.2.

(** *** Agent loop *)

(** The last request an agent run sent to the provider. *)
Definition lastRequest (events : list agent.Event) : option agent.Event :=
  last (filter agent.isRequest events).

(** A provider whose every reply is empty: no text, no tool call, no
    error. *)
Definition silentProvider (S : Type) : Provider S :=
  {| llm.StreamChatWithTools := λ s _ _ _, (s, [], None);
     llm.Chat := λ s _, (s, "", None);
     llm.GetModel := λ _, "" |}.

(** A provider that asks for a tool in every reply and never fails. *)
Definition insists {S : Type} (P : Provider S) : Prop :=
  ∀ s messages tools onToolCall,
    (llm.StreamChatWithTools P s messages tools onToolCall).2 = None
    ∧ toolCallsOf (llm.StreamChatWithTools P s messages tools onToolCall).1.2 ≠ [].






(** *** Tool-call assembly *)

(** The records of one tool call in an Anthropic stream: the block start
    with id, name and input, one [input_json_delta] per argument fragment,
    the block stop. *)
Definition anthropicToolUse (id name : string) (input : option (gmap string Json.json))
  : anthropicStreamResponse :=
  {| srType := "content_block_start"; srDelta := None;
     srContentBlock :=
       Some {| cbType := "tool_use"; cbText := ""; cbID := id; cbToolUseID := "";
               cbName := name; cbInput := input |} |}.

Definition anthropicFragment (fragment : string) : anthropicStreamResponse :=
  {| srType := "content_block_delta";
     srDelta :=
       Some {| dType := "input_json_delta"; dText := ""; dPartialJSON := fragment;
               dToolUseID := ""; dName := ""; dInput := None |};
     srContentBlock := None |}.



(** The records of one tool call in an OpenAI stream: the first carries the
    id, the name and the first argument fragment, the others a fragment
    each; the stream ends behind them. *)
Definition openaiFragment (idx : Z) (id name fragment : string) : openaiStreamResponse :=
  {| Choices :=
       [{| Delta :=
             {| odContent := "";
                odToolCalls :=
                  [{| tcdIndex := idx; tcdID := id; tcdType := "";
                      tcdFunction := {| fdName := name; fdArguments := fragment |} |}] |} |}] |}.






(** What the OpenAI decoder leaves as input after parsing [text]: the
    parsed object without [_raw_args], or [text] under [_raw_args]. *)
Definition settled (lib : Library) (text : string) : option (gmap string Json.json) :=
  let '(parsed, ok) := UnmarshalInput lib text None in
  if ok : bool then delete "_raw_args" <$> parsed
  else Some {["_raw_args" := Json.JString text]}.

(** A library for runs of the decoding loops, which call [UnmarshalInput]
    and nothing else: the JSON decoder of [Json], every other function
    trivial. *)
Definition bareLibrary : Library :=
  {| TrimSpace := id; ParseFloatInt := λ _, None; Atoi := λ _, None;
     UnmarshalInput := Json.Unmarshal; UnmarshalAnthropic := λ _, None;
     UnmarshalOpenAI := λ _, None; MarshalInput := λ _, None |}.




(** *** Rate limiter: the waiting loop *)

(** The readings of the clock in [rounds] never go back, beginning at
    [start]. *)
Fixpoint monotone (start : Instant) (rounds : list (Instant * bool)) : Prop :=
  match rounds with
  | [] => True
  | (now, _) :: rounds => start <= now ∧ monotone now rounds
  end.

(** Both counters are within the caps that are positive. *)
Definition withinCaps (l : RateLimiter) : Prop :=
  (0 < maxTokens l → usedTokens l <= maxTokens l)
  ∧ (0 < maxRequests l → usedRequests l <= maxRequests l).

(** A call of the rate-limit reporter. *)
Definition isReport (e : Effect) : Prop :=
  match e with
  | RateLimitReport _ _ => True
  | _ => False
  end.

(** *** Agent runs *)

(** The message lists of the requests an agent run sent, in order. *)
Definition requestMessages (events : list agent.Event) : list (list Message) :=
  omap (λ ev, match ev with agent.Request_ messages _ _ => Some messages | _ => None end)
       events.

(** The tool calls an agent run executed, in order. *)
Definition executedCalls (events : list agent.Event) : list ToolCall :=
  omap (λ ev, match ev with agent.Executed toolCall _ _ => Some toolCall | _ => None end)
       events.

(** The history a task starts from: the built prompt, the messages held
    before that are no system messages, the task. *)
Definition taskHistory (prompt : string) (before : list Message) (task : string)
  : list Message :=
  {| Role := "system"; Content := prompt |}
    :: filter (λ msg, Role msg ≠ "system") before ++ [{| Role := "user"; Content := task |}].

(** Each request extends the one before it, beginning at [from], and
    [final] extends the last. *)
Fixpoint chain (from : list Message) (requests : list (list Message))
    (final : list Message) : Prop :=
  match requests with
  | [] => from `prefix_of` final
  | messages :: requests => from `prefix_of` messages ∧ chain messages requests final
  end.

(** The tool-result record that [executeToolCalls] writes for an
    executed call. *)
Definition toolRecord (ev : agent.Event) : option string :=
  match ev with
  | agent.Executed toolCall result (Some err) =>
      Some (chat.FormatToolCall (Name toolCall) ("오류: " +:+ Error err) false)
  | agent.Executed toolCall result None =>
      Some (chat.FormatToolCall (Name toolCall) result true)
  | _ => None
  end.

(** *** Streams *)

(** The records a decoding loop gets to handle: the decoded ones that
    come before the [[DONE]] sentinel and before the first record on which
    [ends] holds. *)
Fixpoint heard {A : Type} (ends : A → bool) (lines : list (sseLine A)) : list A :=
  match lines with
  | [] => []
  | Skipped :: lines => heard ends lines
  | DoneSentinel :: _ => []
  | Record_ r :: lines => if ends r then [] else r :: heard ends lines
  end.

(** The records that end an Anthropic stream. *)
Definition anthropicEnds (r : anthropicStreamResponse) : bool :=
  bool_decide (srType r = "message_stop") || bool_decide (srType r = "error").

(** The text a record of either vendor carries for the reader. *)
Definition anthropicText (r : anthropicStreamResponse) : list string :=
  match srDelta r with
  | Some delta =>
      if bool_decide (srType r = "content_block_delta")
         && bool_decide (dType delta = "text_delta") && bool_decide (dText delta ≠ "")
      then [dText delta] else []
  | None => []
  end.

Definition openaiText (r : openaiStreamResponse) : list string :=
  match Choices r with
  | choice :: _ =>
      if decide (odContent (Delta choice) = "") then [] else [odContent (Delta choice)]
  | [] => []
  end.

(** The records at which the Anthropic loop hands a buffered tool call to
    the callback. *)
Definition anthropicHandsOver (r : anthropicStreamResponse) : Prop :=
  srType r = "content_block_start" ∨ srType r = "content_block_stop"
  ∨ srType r = "message_stop".

(** A message that the Anthropic provider does not send as a message. *)
Definition unsent (lib : Library) (msg : Message) : Prop :=
  Role msg = "system" ∨ TrimSpace lib (Content msg) = "".

Definition asAnthropic (msg : Message) : anthropicMessage :=
  {| amRole := Role msg;
     amContent := [{| cbType := "text"; cbText := Content msg; cbID := "";
                      cbToolUseID := ""; cbName := ""; cbInput := None |}] |}.

(** The lines of a stream without the skipped ones. *)
Fixpoint unskipped {A : Type} (lines : list (sseLine A)) : list (sseLine A) :=
  match lines with
  | [] => []
  | Skipped :: lines => unskipped lines
  | line :: lines => line :: unskipped lines
  end.

(** *** The recording transport *)

(** A series of [Do] calls on the recording transport: the transport
    afterwards and the answers in order. *)
Fixpoint DoAll (net : httpclient.Net) (m : httpclient.MockHTTPClient)
    (reqs : list Request) : httpclient.MockHTTPClient * list httpclient.answer :=
  match reqs with
  | [] => (m, [])
  | req :: reqs =>
      let '(m, first) := httpclient.Do net m req in
      let '(m, others) := DoAll net m reqs in
      (m, first :: others)
  end.

End Spec.

(* ===================================================================== *)
(** ** Properties *)
(* ===================================================================== *)

Import Go llm Spec.

(** *** Token estimator *)

Lemma RuneCountInString_step (c : ascii) (rest : string) :
  ∃ t : string,
    (String.length t <= String.length rest)%nat
    ∧ RuneCountInString (String c rest) = 1 + RuneCountInString t.
Proof.
  assert (Hsame : ∃ t : string, (String.length t <= String.length rest)%nat
                                ∧ 1 + RuneCountInString rest = 1 + RuneCountInString t).
  { exists rest. split; [lia|reflexivity]. }
  cbn [RuneCountInString].
  destruct (first (byte_of c)) as [| |size lo hi]; [exact Hsame|exact Hsame|].
  destruct size as [|[|[|[|size]]]];
    repeat first
      [ exact Hsame
      | match goal with
        | |- context [match ?r with EmptyString => _ | String _ _ => _ end] =>
            is_var r; destruct r
        | |- context [if outside ?a ?b ?c then _ else _] => destruct (outside a b c)
        end ];
    eexists; (split; [|reflexivity]); cbn [String.length]; lia.
Qed.

Lemma RuneCountInString_nonneg (s : string) : 0 <= RuneCountInString s.
Proof.
  assert (H : ∀ n (s : string), (String.length s <= n)%nat → 0 <= RuneCountInString s).
  { clear s. induction n as [|n IH]; intros s Hlen.
    - destruct s; [reflexivity|cbn [String.length] in Hlen; lia].
    - destruct s as [|c rest]; [reflexivity|].
      destruct (RuneCountInString_step c rest) as (t & Ht & ->).
      cbn [String.length] in Hlen.
      assert (0 <= RuneCountInString t) by (apply IH; lia). lia. }
  apply (H (String.length s)). lia.
Qed.

Lemma ceilThird_ceilDiv (b : Z) : ceilThird b = ceilDiv b 3.
Proof.
  unfold ceilThird, ceilDiv.
  pose proof (Z.div_mod (b + 2) 3 ltac:(lia)) as H1.
  pose proof (Z.mod_pos_bound (b + 2) 3 ltac:(lia)) as H2.
  pose proof (Z.div_mod (- b) 3 ltac:(lia)) as H3.
  pose proof (Z.mod_pos_bound (- b) 3 ltac:(lia)) as H4.
  lia.
Qed.

Lemma estimateTextTokens_textCost (text : string) : estimateTextTokens text = textCost text.
Proof.
  unfold estimateTextTokens, textCost.
  destruct (decide (text = "")) as [|Hne]; [reflexivity|].
  pose proof (RuneCountInString_nonneg text) as Hr.
  rewrite Z.quot_div_nonneg by lia.
  rewrite <- ceilThird_ceilDiv.
  generalize (ceilThird (len text)) (RuneCountInString text / 2). intros third half.
  destruct (Z.ltb_spec third half);
    match goal with |- context [?a <? 1] => destruct (Z.ltb_spec a 1) end; lia.
Qed.

Lemma foldl_estimate (messages : list Message) (acc : Z) :
  foldl (λ total msg, total + (estimateTextTokens (Content msg) + 4)) acc messages
  = acc + Zsum ((λ msg, 4 + textCost (Content msg)) <$> messages).
Proof.
  revert acc. induction messages as [|msg messages IH]; intros acc; simpl.
  - lia.
  - rewrite IH, estimateTextTokens_textCost. unfold fmap. lia.
Qed.

(** C8. For every message list, [EstimateTokens] is the sum over the
    messages of 4 plus the text cost of the content, floored at 1, the
    text cost being 0 for the empty text and otherwise the ceiling of a
    third of the byte length, but at least half the number of characters
    and at least 1. *)
Theorem EstimateTokens_is_estimate (messages : list Message) :
  EstimateTokens messages = estimate messages.
Proof.
  unfold EstimateTokens, estimate. rewrite foldl_estimate.
  destruct (Z.ltb_spec (0 + Zsum ((λ msg, 4 + textCost (Content msg)) <$> messages)) 1); lia.
Qed.

(** *** Rate limiter *)

Lemma int_add_exact (a b : Z) : in_int (a + b) → int_add a b = a + b.
Proof.
  unfold in_int, minInt, maxInt, int_add, wrap. intros H.
  rewrite Z.mod_small by lia. lia.
Qed.

Lemma fits_spec (l : RateLimiter) (tokens : Z) :
  ((maxTokens l <=? 0) || (int_add (usedTokens l) tokens <=? maxTokens l))
  && ((maxRequests l <=? 0) || (int_add (usedRequests l) 1 <=? maxRequests l)) = true
  ↔ fits l tokens.
Proof.
  unfold fits.
  rewrite andb_true_iff, !orb_true_iff, !Z.leb_le. reflexivity.
Qed.

Lemma reserve_current (l : RateLimiter) (now : Instant) (tokens : Z) :
  reserve l now tokens = reserve (current l now) now tokens ∨ expired l now = true.
Proof. destruct (expired l now) eqn:He; [by right|]. left. unfold current. by rewrite He. Qed.

Lemma reserve_follows_rule (l : RateLimiter) (now : Instant) (tokens : Z) :
  reserveRule l now tokens (reserve l now tokens).
Proof.
  unfold reserve. fold (expired l now). fold (current l now).
  set (c := current l now).
  assert (Hw : window c = window l).
  { subst c. unfold current. by destruct (expired l now). }
  destruct (_ && _) eqn:Hfit.
  - apply fits_spec in Hfit. by apply reserve_commit.
  - assert (Hno : ¬ fits c tokens).
    { intros Hf. apply fits_spec in Hf. congruence. }
    match goal with
    | |- context [if ?b then _ else _] => destruct b eqn:Hb
    end.
    + apply Z.ltb_lt in Hb. rewrite Hw in Hb.
      assert (Heq : (c, 0)
                    = (c, Z.max 0 (Sub (Add (windowStart c) (window l)) now)))
        by (f_equal; lia).
      rewrite Heq. subst c. by apply reserve_refuse.
    + apply Z.ltb_ge in Hb. rewrite Hw in Hb |- *.
      assert (Heq : (c, Sub (Add (windowStart c) (window l)) now)
                    = (c, Z.max 0 (Sub (Add (windowStart c) (window l)) now)))
        by (f_equal; lia).
      rewrite Heq. subst c. by apply reserve_refuse.
Qed.

Lemma reserve_wait_nonneg (l : RateLimiter) (now : Instant) (tokens : Z) :
  0 <= (reserve l now tokens).2.
Proof. destruct (reserve_follows_rule l now tokens); simpl; lia. Qed.

(** A call inside the open window that fits both caps is granted. *)
Lemma reserve_granted (l : RateLimiter) (now : Instant) (tokens : Z) :
  expired l now = false → fits l tokens →
  reserve l now tokens
  = (setUsage l (windowStart l) (int_add (usedTokens l) tokens) (int_add (usedRequests l) 1), 0).
Proof.
  intros He Hf. unfold reserve. fold (expired l now). rewrite He.
  apply fits_spec in Hf. by rewrite Hf.
Qed.

Lemma totalTokens_cons (now tokens : Z) (calls : list (Instant * Z)) :
  totalTokens ((now, tokens) :: calls) = tokens + totalTokens calls.
Proof. reflexivity. Qed.

Lemma totalTokens_nonneg (calls : list (Instant * Z)) :
  Forall (λ call, 0 <= call.2) calls → 0 <= totalTokens calls.
Proof.
  induction 1 as [|[now tokens] calls Hx _ IH]; [unfold totalTokens; simpl; lia|].
  rewrite totalTokens_cons. simpl in Hx. lia.
Qed.

Lemma reserveAll_within_caps (calls : list (Instant * Z)) (l : RateLimiter) :
  in_int (maxTokens l) → in_int (maxRequests l) →
  (maxTokens l <= 0 ∨ (0 <= usedTokens l ∧ usedTokens l + totalTokens calls <= maxTokens l)) →
  (maxRequests l <= 0
   ∨ (0 <= usedRequests l ∧ usedRequests l + Z.of_nat (List.length calls) <= maxRequests l)) →
  inWindow l calls →
  Forall (λ call, 0 <= call.2) calls →
  Forall (λ wait, wait = 0) (reserveAll l calls).2.
Proof.
  revert l. induction calls as [|[now tokens] calls IH]; intros l HmT HmR HT HR Hwin Hpos.
  - simpl. constructor.
  - inversion Hwin as [|? ? Hnow Hwin']; subst. inversion Hpos as [|? ? Htok Hpos']; subst.
    simpl in Hnow, Htok.
    pose proof (totalTokens_nonneg calls Hpos') as Hrest.
    rewrite totalTokens_cons in HT. cbn [List.length] in HR.
    assert (Hfit : fits l tokens).
    { unfold in_int, minInt, maxInt in *. split.
      - destruct HT as [?|[? ?]]; [by left|right].
        rewrite int_add_exact; [lia|unfold in_int, minInt, maxInt; lia].
      - destruct HR as [?|[? ?]]; [by left|right].
        rewrite int_add_exact; [lia|unfold in_int, minInt, maxInt; lia]. }
    simpl. rewrite (reserve_granted l now tokens Hnow Hfit).
    set (l' := setUsage l (windowStart l) _ _).
    assert (Hrec : Forall (λ wait, wait = 0) (reserveAll l' calls).2).
    { apply IH; subst l'; simpl; auto.
      - destruct HT as [?|[? ?]]; [by left|right].
        unfold in_int, minInt, maxInt in *.
        rewrite int_add_exact; [lia|unfold in_int, minInt, maxInt; lia].
      - destruct HR as [?|[? ?]]; [by left|right].
        unfold in_int, minInt, maxInt in *.
        rewrite int_add_exact; [lia|unfold in_int, minInt, maxInt; lia]. }
    destruct (reserveAll l' calls) as [l'' waits]. simpl in *.
    constructor; [reflexivity|exact Hrec].
Qed.

(** With a positive window, a call that exceeds a cap leaves the counters
    alone and is told to wait a positive time of at most the window. *)
Lemma reserve_refused_wait (l : RateLimiter) (now : Instant) (tokens : Z) :
  0 < window l <= maxInt → windowStart l <= now → ¬ fits (current l now) tokens →
  (reserve l now tokens).1 = current l now ∧ 0 < (reserve l now tokens).2 <= window l.
Proof.
  intros Hw Hmono Hno.
  destruct (reserve_follows_rule l now tokens) as [Hf|_]; [contradiction|]. simpl.
  split; [reflexivity|].
  unfold current, expired in *. unfold Sub, Add, IsZero, minInt, maxInt in *.
  destruct (_ || _) eqn:He; simpl.
  - repeat match goal with |- context [?a <? ?b] => destruct (Z.ltb_spec a b) end; lia.
  - apply orb_false_iff in He as [_ He]. apply Z.leb_gt in He.
    repeat match goal with
           | |- context [?a <? ?b] => destruct (Z.ltb_spec a b)
           | H : context [?a <? ?b] |- _ => destruct (Z.ltb_spec a b)
           end; lia.
Qed.

(** C3, as amended. Every [reserve] call follows the rule of the
    specification (reset of an expired or unstarted window, then commit and
    zero wait if both caps allow, else unchanged counters and the remaining
    time, never negative). Calls in one window whose cumulative tokens stay
    within max-tokens and whose number stays within max-requests (a cap
    that is not positive is no cap) all get a zero wait. With a positive
    window duration, a call exceeding either cap gets a positive wait of at
    most the window duration. *)
Theorem reserve_contract (l : RateLimiter) (now : Instant) (tokens : Z)
    (calls : list (Instant * Z)) :
  reserveRule l now tokens (reserve l now tokens)
  ∧ 0 <= (reserve l now tokens).2
  ∧ (in_int (maxTokens l) → in_int (maxRequests l) →
     (maxTokens l <= 0
      ∨ (0 <= usedTokens l ∧ usedTokens l + totalTokens calls <= maxTokens l)) →
     (maxRequests l <= 0
      ∨ (0 <= usedRequests l
         ∧ usedRequests l + Z.of_nat (List.length calls) <= maxRequests l)) →
     inWindow l calls →
     Forall (λ call, 0 <= call.2) calls →
     Forall (λ wait, wait = 0) (reserveAll l calls).2)
  ∧ (0 < window l <= maxInt → windowStart l <= now → ¬ fits (current l now) tokens →
     (reserve l now tokens).1 = current l now ∧ 0 < (reserve l now tokens).2 <= window l).
Proof.
  split; [apply reserve_follows_rule|].
  split; [apply reserve_wait_nonneg|].
  split; [apply reserveAll_within_caps|apply reserve_refused_wait].
Qed.

Lemma reserve_contract_witness :
  let l := {| window := Minute; maxTokens := 100; maxRequests := 2;
              windowStart := 5; usedTokens := 0; usedRequests := 0 |} in
  Forall (λ wait, wait = 0) (reserveAll l [(6, 40); (7, 60)]).2
  ∧ (reserve l 8 101).1 = current l 8
  ∧ 0 < (reserve l 8 101).2 <= window l.
Proof.
  intros l.
  destruct (reserve_contract l 8 101 [(6, 40); (7, 60)]) as (_ & _ & Hseq & Hwait).
  split.
  - apply Hseq.
    + unfold in_int, minInt, maxInt. simpl. lia.
    + unfold in_int, minInt, maxInt. simpl. lia.
    + right. vm_compute. split; discriminate.
    + right. vm_compute. split; discriminate.
    + repeat constructor.
    + repeat constructor; simpl; lia.
  - apply Hwait.
    + vm_compute. split; [reflexivity|discriminate].
    + vm_compute. discriminate.
    + intros [[Ht|Ht] _]; vm_compute in Ht; apply Ht; reflexivity.
Defined.

(** The claim of C3 as worded fails twice: with a request cap of one, the
    second of two calls of one token each is told to wait although the
    tokens stay far below max-tokens; and with a window duration of zero a
    call exceeding the token cap is told to wait zero. *)
Lemma tokens_alone_do_not_suffice : ¬ tokensAloneSuffice ∧ ¬ refusalAlwaysWaits.
Proof.
  split.
  - intros H.
    specialize (H {| window := Minute; maxTokens := 100; maxRequests := 1;
                     windowStart := 5; usedTokens := 0; usedRequests := 0 |}
                  [(6, 1); (7, 1)]).
    assert (Hall : Forall (λ wait, wait = 0) [0; 59999999998]).
    { apply H.
      - unfold Minute. simpl. lia.
      - simpl. lia.
      - simpl. lia.
      - repeat constructor.
      - repeat constructor; simpl; lia.
      - vm_compute. discriminate. }
    inversion Hall as [|? ? _ Hrest]. inversion Hrest as [|? ? Hbad _]. discriminate Hbad.
  - intros H.
    specialize (H {| window := 0; maxTokens := 100; maxRequests := 60;
                     windowStart := 5; usedTokens := 0; usedRequests := 0 |} 6 101).
    assert (Hlt : 0 < 0).
    { apply H.
      - simpl. lia.
      - intros [[Ht|Ht] _]; vm_compute in Ht; apply Ht; reflexivity. }
    lia.
Qed.

(** *** Context manager: summarization *)

Lemma append_assoc (a b c : string) : (a +:+ b) +:+ c = a +:+ (b +:+ c).
Proof.
  induction a as [|ch a IH]; [reflexivity|].
  change (String ch ((a +:+ b) +:+ c) = String ch (a +:+ (b +:+ c))). by rewrite IH.
Qed.

Section Summarization.
Context {S : Type} (P : Provider S).

(** The prompt that [summarizeContext] builds line by line is the
    instruction followed by the flattened messages. *)
Lemma summaryPrompt_flattened (older : list Message) (prompt : string) :
  foldl (λ prompt msg, prompt +:+ Role msg +:+ ": " +:+ Content msg +:+ newline) prompt older
  = prompt +:+ flattened older.
Proof.
  revert prompt. induction older as [|msg older IH]; intros prompt; cbn [foldl flattened foldr].
  - symmetry. induction prompt as [|ch prompt IHp]; [reflexivity|].
    change (String ch (prompt +:+ "") = String ch prompt). by rewrite IHp.
  - rewrite IH. fold (flattened older). by rewrite !append_assoc.
Qed.

Lemma summarizeContext_success (m : @chat.Manager S) :
  10 <= Z.of_nat (List.length (chat.messages m)) →
  (chat.summarizeContext P m).2 = None →
  chat.messages (chat.summarizeContext P m).1
  = {| Role := "system";
       Content := "Previous conversation summary: "
                  +:+ synthesized P (chat.provider m)
                        (take (List.length (chat.messages m) - 5) (chat.messages m)) |}
      :: drop (List.length (chat.messages m) - 5) (chat.messages m)
  ∧ chat.summarizeThreshold (chat.summarizeContext P m).1 = chat.summarizeThreshold m.
Proof.
  intros Hfloor. unfold chat.summarizeContext, synthesized, summaryRequest.
  destruct (Z.ltb_spec (Z.of_nat (List.length (chat.messages m))) 10) as [Hlt|_]; [lia|].
  rewrite summaryPrompt_flattened, !append_assoc.
  destruct (Chat P _ _) as [[p summary] [err|]]; simpl; [discriminate|].
  intros _. split; reflexivity.
Qed.

Lemma length_recent {A : Type} (l : list A) :
  (5 <= List.length l)%nat → List.length (drop (List.length l - 5) l) = 5%nat.
Proof. intros H. rewrite length_drop. lia. Qed.

(** C7. When the message list, the new user turn included, is longer than
    the summarization threshold and has at least ten messages, and the
    summarization succeeds, the sequence that replaces it starts with a
    system message holding the synthesized summary (what the provider's
    [Chat] returned for the older messages, all but the last five,
    flattened into the summary request), followed at once by the last five
    messages as they were and in their order; the turn then appends the
    assistant reply behind them. *)
Theorem summarization_keeps_recent (lib : Library) (m : @chat.Manager S)
    (userInput : string) (tools : list Tool) (onToolCall : bool) :
  let m1 := chat.AddMessage m "user" userInput in
  let n := List.length (chat.messages m1) in
  let older := take (n - 5) (chat.messages m1) in
  let recent := drop (n - 5) (chat.messages m1) in
  let summarized :=
    {| Role := "system";
       Content := "Previous conversation summary: "
                  +:+ synthesized P (chat.provider m) older |}
      :: recent in
  chat.summarizeThreshold m < Z.of_nat n →
  10 <= Z.of_nat n →
  (chat.summarizeContext P m1).2 = None →
  chat.messages (chat.summarizeContext P m1).1 = summarized
  ∧ chat.messages m1 = older ++ recent
  ∧ List.length recent = 5%nat
  ∧ recent `suffix_of` chat.messages m1
  ∧ ∀ run, chat.StreamChatWithTools P lib m userInput tools onToolCall = run →
           run.2 = None →
           ∃ reply : string,
             chat.messages run.1.1
             = summarized ++ [{| Role := "assistant"; Content := reply |}].
Proof.
  intros m1 n older recent summarized Hthreshold Hfloor Hok.
  destruct (summarizeContext_success m1 Hfloor Hok) as (Hmsgs & Hthr).
  change (chat.provider m1) with (chat.provider m) in Hmsgs.
  fold n in Hmsgs. fold older in Hmsgs. fold recent in Hmsgs. fold summarized in Hmsgs.
  split; [exact Hmsgs|].
  split; [symmetry; apply take_drop|].
  split; [apply length_recent; subst n; lia|].
  split; [apply suffix_drop|].
  intros run <- Hrun. unfold chat.StreamChatWithTools in *. fold m1 in Hrun |- *.
  assert (Hgt : (Z.of_nat (List.length (chat.messages m1)) >? chat.summarizeThreshold m1) = true).
  { apply Z.gtb_lt. exact Hthreshold. }
  rewrite Hgt in Hrun |- *.
  destruct (chat.summarizeContext P m1) as [m2 [err|]] eqn:Hsum; [discriminate Hok|].
  cbn [fst] in Hmsgs.
  destruct (llm.StreamChatWithTools P (chat.provider m2) (chat.messages m2) tools true)
    as [[p streamed] [err|]]; simpl in Hrun |- *; [discriminate Hrun|].
  eexists. rewrite Hmsgs. reflexivity.
Qed.

End Summarization.

Lemma summarization_keeps_recent_witness :
  let P : Provider unit :=
    {| llm.StreamChatWithTools := λ s _ _ _, (s, [OnChunk "fine"], None);
       llm.Chat := λ s messages,
         (s, "seen: " +:+ default "" (Content <$> last messages), None);
       llm.GetModel := λ _, "model" |} in
  let lib : Library :=
    {| TrimSpace := id; ParseFloatInt := λ _, None; Atoi := λ _, None;
       UnmarshalInput := Json.Unmarshal; UnmarshalAnthropic := λ _, None;
       UnmarshalOpenAI := λ _, None; MarshalInput := λ _, None |} in
  let m : @chat.Manager unit :=
    {| chat.provider := tt;
       chat.messages :=
         (λ i : nat, {| Role := "user"; Content := pretty i |}) <$> List.seq 0%nat 10%nat;
       chat.maxMessages := 50; chat.summarizeThreshold := 10 |} in
  chat.messages (chat.summarizeContext P (chat.AddMessage m "user" "next")).1
  = {| Role := "system";
       Content :=
         "Previous conversation summary: seen: "
         +:+ "다음 대화 내용을 간결하게 요약해주세요. 중요한 정보(에러 메시지, 명령어, 파일 경로 등)는 반드시 포함해주세요:"
         +:+ newline +:+ newline
         +:+ "user: 0" +:+ newline +:+ "user: 1" +:+ newline +:+ "user: 2" +:+ newline
         +:+ "user: 3" +:+ newline +:+ "user: 4" +:+ newline +:+ "user: 5" +:+ newline |}
      :: [{| Role := "user"; Content := "6" |}; {| Role := "user"; Content := "7" |};
          {| Role := "user"; Content := "8" |}; {| Role := "user"; Content := "9" |};
          {| Role := "user"; Content := "next" |}].
Proof.
  intros P lib m.
  destruct (summarization_keeps_recent P lib m "next" [] false) as (H & _).
  - vm_compute. reflexivity.
  - vm_compute. discriminate.
  - vm_compute. reflexivity.
  - etransitivity; [exact H|]. vm_compute. reflexivity.
Defined.

(** *** Providers: credential check and rate-limit wait *)

(** C9. For both providers, a call without a configured API key returns
    the authentication error at once: nothing reaches the transport, and
    the provider is left as it was. *)
Theorem missing_credential_no_request (lib : Library) (env : Env)
    (messages : list Message) (tools : list Tool) (onToolCall : bool)
    (pa : anthropic.AnthropicProvider) (po : openai.OpenAIProvider) :
  (anthropic.apiKey pa = "" →
   anthropic.StreamChatWithTools lib env pa messages tools onToolCall
   = Some {| after := pa;
             returned := Return (Some (ErrorNew "anthropic API key not set"));
             effects := [] |}
   ∧ ∀ r, anthropic.StreamChatWithTools lib env pa messages tools onToolCall = Some r →
          recordedRequests (effects r) = [])
  ∧ (openai.apiKey po = "" →
     openai.StreamChatWithTools lib env po messages tools onToolCall
     = {| after := po;
          returned := Return (Some (ErrorNew "openai API key not set"));
          effects := [] |}
     ∧ recordedRequests
         (effects (openai.StreamChatWithTools lib env po messages tools onToolCall)) = []).
Proof.
  split.
  - intros Hkey. unfold anthropic.StreamChatWithTools.
    destruct (decide (anthropic.apiKey pa = "")) as [_|Hne]; [|contradiction].
    split; [reflexivity|]. intros r [= <-]. reflexivity.
  - intros Hkey. unfold openai.StreamChatWithTools.
    destruct (decide (openai.apiKey po = "")) as [_|Hne]; [|contradiction].
    split; reflexivity.
Qed.

Lemma missing_credential_no_request_witness :
  let lib : Library :=
    {| TrimSpace := id; ParseFloatInt := λ _, None; Atoi := λ _, None;
       UnmarshalInput := Json.Unmarshal; UnmarshalAnthropic := λ _, None;
       UnmarshalOpenAI := λ _, None; MarshalInput := λ _, None |} in
  let env : Env :=
    {| ctx := {| hasReporter := false; ctxErr := ErrorNew "context canceled" |};
       rounds := [(1, false)];
       client := λ _, DoError (ErrorNew "connection refused") |} in
  let hello := [{| Role := "user"; Content := "Hello" |}] in
  recordedRequests
    (effects (openai.StreamChatWithTools lib env (openai.NewOpenAIProvider "" "gpt-5")
                hello [] false)) = []
  ∧ ∀ r, anthropic.StreamChatWithTools lib env
           (anthropic.NewAnthropicProvider "" "claude-haiku-4-5-20251001") hello [] false
         = Some r →
         recordedRequests (effects r) = [].
Proof.
  intros lib env hello.
  destruct (missing_credential_no_request lib env hello [] false
              (anthropic.NewAnthropicProvider "" "claude-haiku-4-5-20251001")
              (openai.NewOpenAIProvider "" "gpt-5")) as [Ha Ho].
  split.
  - apply Ho. reflexivity.
  - apply Ha. reflexivity.
Defined.

Lemma openai_handle_callbacks (lib : Library) (onToolCall : bool) (d : openai.decoder)
    (r : openaiStreamResponse) :
  Forall isCallback (openai.emitted d) →
  Forall isCallback (openai.emitted (openai.handle lib onToolCall d r).1).
Proof.
  intros Hd. unfold openai.handle.
  destruct (Choices r) as [|choice _]; [exact Hd|].
  assert (Hd' : Forall isCallback
                  (openai.emitted
                     (if decide (odContent (Delta choice) = "") then d
                      else {| openai.currentToolCalls := openai.currentToolCalls d;
                              openai.emitted :=
                                openai.emitted d ++ [OnChunk (odContent (Delta choice))] |}))).
  { destruct (decide _); [exact Hd|]. simpl. apply Forall_app. split; [exact Hd|].
    repeat constructor. }
  destruct (_ && _); [|exact Hd'].
  destruct (openai.applyToolCallDeltas _ _ _); [|exact Hd']. exact Hd'.
Qed.

Lemma openai_decode_callbacks (lib : Library) (onToolCall : bool)
    (lines : list (sseLine openaiStreamResponse)) (d : openai.decoder) :
  Forall isCallback (openai.emitted d) →
  Forall isCallback (openai.emitted (openai.decode lib onToolCall lines d).1).
Proof.
  revert d. induction lines as [|line lines IH]; intros d Hd; simpl; [exact Hd|].
  destruct line as [| |r]; [by apply IH|exact Hd|].
  pose proof (openai_handle_callbacks lib onToolCall d r Hd) as Hh.
  destruct (openai.handle lib onToolCall d r) as [d' [msg|]]; simpl in *; [exact Hh|].
  by apply IH.
Qed.

Lemma openai_remaining_callbacks (onToolCall : bool) (calls : gmap Z ToolCall) :
  Forall isCallback (openai.remaining onToolCall calls).
Proof.
  unfold openai.remaining. destruct onToolCall; [|constructor].
  induction (map_to_list calls) as [|[k tc] l IH]; simpl; [constructor|].
  destruct (_ && _); [constructor; [exact I|exact IH]|exact IH].
Qed.

Lemma callbacks_no_requests (l : list Effect) :
  Forall isCallback l → recordedRequests l = [].
Proof.
  induction 1 as [|e rest He _ IH]; [reflexivity|].
  unfold recordedRequests in *. simpl. destruct e; try contradiction; exact IH.
Qed.

(** With a key, the OpenAI provider goes to the transport first: nothing
    happens before the request, and the limiter's [Wait] never runs. *)
Lemma openai_effects (lib : Library) (env : Env) (p : openai.OpenAIProvider)
    (messages : list Message) (tools : list Tool) (onToolCall : bool) :
  openai.apiKey p ≠ "" →
  ∃ req rest,
    effects (openai.StreamChatWithTools lib env p messages tools onToolCall)
    = ClientDo req :: rest
    ∧ Forall isCallback rest.
Proof.
  intros Hkey. unfold openai.StreamChatWithTools.
  destruct (decide (openai.apiKey p = "")) as [|_]; [contradiction|].
  destruct (client env _) as [resp|err]; simpl.
  - destruct (decide (StatusCode resp ≠ 200)); simpl.
    + eexists _, []. split; [reflexivity|constructor].
    + pose proof (openai_decode_callbacks lib onToolCall
                    (readLine (UnmarshalOpenAI lib) <$> scanLines resp) openai.start
                    (Forall_nil_2 _)) as Hcb.
      destruct (openai.decode _ _ _ _) as [d ending]. simpl in Hcb.
      destruct ending; simpl; eexists _, _; (split; [reflexivity|]);
        try apply Forall_app; try split; auto using openai_remaining_callbacks.
  - eexists _, []. split; [reflexivity|constructor].
Qed.

(** C4, on the OpenAI provider. A call with a key, here on a context that
    is cancelled in the first turn of any wait, starts with the request to
    the transport; [RateLimiter.Wait] is not among its effects. *)
Theorem openai_sends_without_waiting (lib : Library) (client : Request → doResult)
    (messages : list Message) (tools : list Tool) (onToolCall : bool) :
  let env := {| ctx := {| hasReporter := false; ctxErr := ErrorNew "context canceled" |};
                rounds := [(1, true)]; client := client |} in
  let r := openai.StreamChatWithTools lib env (openai.NewOpenAIProvider "sk-test" "gpt-5")
             messages tools onToolCall in
  (∃ req rest, effects r = ClientDo req :: rest)
  ∧ (∀ tokens, LimiterWait tokens ∉ effects r)
  ∧ List.length (recordedRequests (effects r)) = 1%nat.
Proof.
  intros env r.
  destruct (openai_effects lib env (openai.NewOpenAIProvider "sk-test" "gpt-5")
              messages tools onToolCall) as (req & rest & Heff & Hcb); [discriminate|].
  fold r in Heff. rewrite Heff. split; [by eexists _, _|].
  assert (Hnone : ∀ e, e ∈ rest → isCallback e) by (by apply Forall_forall).
  split.
  - intros tokens Hin. apply elem_of_cons in Hin as [Heq|Hin]; [discriminate|].
    apply Hnone in Hin. exact Hin.
  - change (recordedRequests (ClientDo req :: rest)) with (req :: recordedRequests rest).
    by rewrite (callbacks_no_requests rest Hcb).
Qed.

Lemma waitLoop_no_requests (ctx : Context) (rounds : list (Instant * bool))
    (l l' : RateLimiter) (tokens : Z) (err : option error) (waited : list Effect) :
  waitLoop ctx rounds l tokens = Some (l', err, waited) → recordedRequests waited = [].
Proof.
  revert l l' err waited.
  induction rounds as [|[now done] rounds IH]; intros l l' err waited Hloop; [discriminate|].
  cbn [waitLoop] in Hloop. destruct (reserve l now tokens) as [l2 wait].
  unfold reportRateLimit in Hloop.
  destruct (wait =? 0).
  { injection Hloop as _ _ <-. by destruct (hasReporter ctx). }
  destruct done.
  { injection Hloop as _ _ <-. by destruct (hasReporter ctx). }
  destruct (waitLoop ctx rounds l2 tokens) as [[[l3 e3] w3]|] eqn:Hrec; [|discriminate].
  injection Hloop as _ _ <-. specialize (IH _ _ _ _ Hrec).
  destruct (hasReporter ctx); exact IH.
Qed.

Lemma Wait_no_requests (ctx : Context) (rounds : list (Instant * bool))
    (l l' : option RateLimiter) (tokens : Z) (err : option error) (waited : list Effect) :
  Wait ctx rounds l tokens = Some (l', err, waited) → recordedRequests waited = [].
Proof.
  unfold Wait. destruct l as [l0|]; [|by intros [= _ _ <-]].
  destruct (waitLoop _ _ _ _) as [[[l1 e1] w1]|] eqn:Hloop; [|discriminate].
  intros [= _ _ <-]. by eapply waitLoop_no_requests.
Qed.

(** The Anthropic provider does wait first: a call with a key enters
    [RateLimiter.Wait] with the estimate of the messages before anything
    else, and an error of the wait (the context's error on cancellation)
    comes back wrapped, nothing having reached the transport. *)
Lemma anthropic_waits_first (lib : Library) (env : Env) (p : anthropic.AnthropicProvider)
    (messages : list Message) (tools : list Tool) (onToolCall : bool)
    (r : run anthropic.AnthropicProvider) :
  anthropic.apiKey p ≠ "" →
  anthropic.StreamChatWithTools lib env p messages tools onToolCall = Some r →
  (∃ rest, effects r = LimiterWait (EstimateTokens messages) :: rest)
  ∧ ∀ l err waited,
      Wait (ctx env) (rounds env) (anthropic.limiter p) (EstimateTokens messages)
      = Some (l, Some err, waited) →
      returned r = Return (Some (ErrorWrap "rate limit 대기 실패: " err))
      ∧ recordedRequests (effects r) = [].
Proof.
  intros Hkey. unfold anthropic.StreamChatWithTools.
  destruct (decide (anthropic.apiKey p = "")) as [|_]; [contradiction|].
  destruct (Wait _ _ _ _) as [[[l [err|]] waited]|] eqn:Hwait; [| |discriminate].
  - intros [= <-]. cbn [effects returned]. split; [by eexists|].
    intros l' err' waited' Heq. injection Heq as _ <- _. split; [reflexivity|].
    change (recordedRequests (LimiterWait (EstimateTokens messages) :: waited))
      with (recordedRequests waited).
    by eapply Wait_no_requests.
  - destruct (anthropic.convertMessages lib messages) as [anthropicMessages systemPrompt].
    destruct (decide (List.length anthropicMessages = 0%nat)).
    { intros [= <-]. cbn [effects returned]. split; [by eexists|]. intros ? ? ? [=]. }
    destruct (client env _) as [resp|err].
    + destruct (decide (StatusCode resp ≠ 200)).
      { intros [= <-]. cbn [effects returned]. split; [by eexists|]. intros ? ? ? [=]. }
      destruct (anthropic.decode _ _ _ _) as [d ending].
      intros [= <-]. cbn [effects returned]. split; [by eexists|]. intros ? ? ? [=].
    + intros [= <-]. cbn [effects returned]. split; [by eexists|]. intros ? ? ? [=].
Qed.

(** *** Agent loop *)

Section AgentLoop.
Context {S E : Type} (P : Provider S) (onToolCall : agent.Executor E).

Lemma requestsIn_app (l1 l2 : list agent.Event) :
  agent.requestsIn (l1 ++ l2) = (agent.requestsIn l1 + agent.requestsIn l2)%nat.
Proof. unfold agent.requestsIn. by rewrite filter_app, length_app. Qed.

Lemma lastRequest_app (l1 l2 : list agent.Event) :
  lastRequest (l1 ++ l2)
  = match lastRequest l2 with Some ev => Some ev | None => lastRequest l1 end.
Proof. unfold lastRequest. by rewrite filter_app, last_app. Qed.

Lemma executeToolCalls_events (toolCalls : list ToolCall) (e : E) :
  filter agent.isRequest (agent.executeToolCalls onToolCall e toolCalls).2 = [].
Proof.
  unfold agent.executeToolCalls.
  assert (H : ∀ (acc : E * list string * list agent.Event),
             filter agent.isRequest acc.2 = [] →
             filter agent.isRequest
               (foldl (λ '(e, toolResults, events) toolCall,
                         let '(e, result, err) := onToolCall e toolCall in
                         let record :=
                           match err with
                           | Some err =>
                               chat.FormatToolCall (Name toolCall) ("오류: " +:+ Error err) false
                           | None => chat.FormatToolCall (Name toolCall) result true
                           end in
                         (e, toolResults ++ [record],
                          events ++ [agent.Executed toolCall result err]))
                      acc toolCalls).2 = []).
  { induction toolCalls as [|tc tcs IH]; intros [[e0 rs] evs] Hacc; simpl; [exact Hacc|].
    destruct (onToolCall e0 tc) as [[e1 result] err]. apply IH. simpl in *.
    rewrite filter_app, Hacc. reflexivity. }
  apply H. reflexivity.
Qed.

Lemma filter_request_chunks (chunks : list string) :
  filter agent.isRequest (agent.Chunk <$> chunks) = [].
Proof. induction chunks; [reflexivity|]. simpl. exact IHchunks. Qed.

(** The loop of [ExecuteTask] sends at most [maxIterations - iterations]
    requests. *)
Lemma executeLoop_bound (a : agent.Agent) (st : agent.Store) (iterations : Z)
    (finalResponse : string) (events : list agent.Event) :
  (agent.requestsIn
     (agent.events (agent.executeLoop P onToolCall a st iterations finalResponse events))
   <= agent.requestsIn events + Z.to_nat (agent.maxIterations a - iterations))%nat.
Proof.
  funelim (agent.executeLoop P onToolCall a st iterations finalResponse events);
    [|simpl; lia].
  clear Heqcall.
  destruct (llm.StreamChatWithTools P _ _ _ _) as [[p reply] err].
  destruct err as [err|]; simpl.
  { rewrite requestsIn_app. unfold agent.requestsIn at 2. simpl. lia. }
  destruct (decide _) as [Hnone|Hsome]; simpl.
  { rewrite requestsIn_app. unfold agent.requestsIn at 2. simpl. lia. }
  pose proof (executeToolCalls_events (toolCallsOf reply) (agent.executor (agent.setLLM st p)))
    as Hexec.
  destruct (agent.executeToolCalls _ _ _) as [[e toolResults] executed] eqn:Hrun.
  simpl in Hexec.
  match goal with
  | IH : context [agent.executeLoop] |- _ =>
      specialize (IH (p, reply) None p reply Hsome (e, toolResults) executed e toolResults)
  end.
  etransitivity; [eassumption|].
  rewrite !requestsIn_app. unfold agent.requestsIn at 2 3. rewrite Hexec. simpl. lia.
Qed.

Lemma streamLoop_bound (a : agent.Agent) (st : agent.Store) (iterations : Z)
    (events : list agent.Event) :
  (agent.requestsIn (agent.events (agent.streamLoop P onToolCall a st iterations events))
   <= agent.requestsIn events + Z.to_nat (agent.maxIterations a - iterations))%nat.
Proof.
  funelim (agent.streamLoop P onToolCall a st iterations events); [|simpl; lia].
  clear Heqcall.
  destruct (llm.StreamChatWithTools P _ _ _ _) as [[p reply] err].
  assert (Hone : agent.requestsIn
                   (events ++ [agent.Request_ (chat.GetMessages (agent.chatManager st)) reply err]
                           ++ (agent.Chunk <$> chunksOf reply))
                 = (agent.requestsIn events + 1)%nat).
  { rewrite requestsIn_app. f_equal. unfold agent.requestsIn. simpl.
    by rewrite filter_request_chunks. }
  destruct err as [err|]; cbn [agent.events].
  { rewrite Hone. lia. }
  destruct (_ && _); cbn [agent.events]; [rewrite Hone; lia|].
  destruct (decide _) as [Hnone|Hsome]; cbn [agent.events]; [rewrite Hone; lia|].
  pose proof (executeToolCalls_events (toolCallsOf reply) (agent.executor (agent.setLLM st p)))
    as Hexec.
  destruct (agent.executeToolCalls _ _ _) as [[e toolResults] executed] eqn:Hrun.
  simpl in Hexec.
  match goal with
  | IH : context [agent.streamLoop] |- _ =>
      specialize (IH (p, reply) None p reply Hsome (e, toolResults) executed e toolResults)
  end.
  etransitivity; [eassumption|].
  rewrite requestsIn_app, Hone, requestsIn_app.
  unfold agent.requestsIn at 2 3. rewrite Hexec. simpl. lia.
Qed.

(** C5. Whatever the task, the provider and the tool executor, a run of
    [ExecuteTask] or of [StreamTask] returns after at most [maxIterations]
    requests to the provider, and [NewAgent] sets [maxIterations] to 10. *)
Theorem agent_loop_bounded (a : agent.Agent) (st : agent.Store) (task skills : string) :
  (agent.requestsIn (agent.events (agent.ExecuteTask P onToolCall a st task))
   <= Z.to_nat (agent.maxIterations a))%nat
  ∧ (agent.requestsIn (agent.events (agent.StreamTask P onToolCall a st task))
     <= Z.to_nat (agent.maxIterations a))%nat
  ∧ agent.maxIterations (agent.NewAgent skills) = 10.
Proof.
  split; [|split; [|reflexivity]].
  - unfold agent.ExecuteTask.
    etransitivity; [apply executeLoop_bound|].
    unfold agent.requestsIn. simpl. rewrite Z.sub_0_r. lia.
  - unfold agent.StreamTask.
    etransitivity; [apply streamLoop_bound|].
    unfold agent.requestsIn. simpl. rewrite Z.sub_0_r. lia.
Qed.

End AgentLoop.

Section AgentReplies.
Context {S E : Type} (P : Provider S) (onToolCall : agent.Executor E).

(** With a provider that asks for a tool in every reply the cap is what
    ends the loops: they send exactly [maxIterations] requests and return
    without error. *)
Lemma executeLoop_exhausts (a : agent.Agent) (st : agent.Store) (iterations : Z)
    (finalResponse : string) (events : list agent.Event) :
  insists P →
  agent.requestsIn
    (agent.events (agent.executeLoop P onToolCall a st iterations finalResponse events))
  = (agent.requestsIn events + Z.to_nat (agent.maxIterations a - iterations))%nat
  ∧ agent.failure (agent.executeLoop P onToolCall a st iterations finalResponse events) = None.
Proof.
  intros Hins.
  funelim (agent.executeLoop P onToolCall a st iterations finalResponse events);
    [|simpl; split; [lia|reflexivity]].
  clear Heqcall.
  destruct (Hins (agent.llmProvider st) (chat.GetMessages (agent.chatManager st))
              (agent.tools a) true) as [Herr Hcalls].
  destruct (llm.StreamChatWithTools P _ _ _ _) as [[p reply] err].
  simpl in Herr, Hcalls. subst err. simpl.
  destruct (decide _) as [Hnone|Hsome]; [by apply nil_length_inv in Hnone|].
  pose proof (executeToolCalls_events onToolCall (toolCallsOf reply)
                (agent.executor (agent.setLLM st p))) as Hexec.
  destruct (agent.executeToolCalls _ _ _) as [[e toolResults] executed] eqn:Hrun.
  simpl in Hexec.
  match goal with
  | IH : context [agent.executeLoop] |- _ =>
      specialize (IH (p, reply) None p reply Hsome (e, toolResults) executed e toolResults Hins)
        as [IHn IHf]
  end.
  split; [|exact IHf]. etransitivity; [exact IHn|]. rewrite !requestsIn_app.
  unfold agent.requestsIn at 2 3. rewrite Hexec. simpl. lia.
Qed.

(** What the loop of [ExecuteTask] leaves when the last reply it got asked
    for no tool. *)
Lemma executeLoop_final (a : agent.Agent) (st : agent.Store) (iterations : Z)
    (finalResponse : string) (events : list agent.Event) :
  let r := agent.executeLoop P onToolCall a st iterations finalResponse events in
  ∃ new : list agent.Event,
    agent.events r = events ++ new
    ∧ ∀ messages reply,
        lastRequest new = Some (agent.Request_ messages reply None) →
        toolCallsOf reply = [] →
        ∃ earlier before,
          chat.messages (agent.chatManager (agent.store r))
          = earlier ++ [{| Role := "assistant"; Content := String.concat "" (chunksOf reply) |};
                        {| Role := "assistant"; Content := agent.response r |}]
          ∧ agent.response r
            = before +:+ String.concat "" (chunksOf reply) +:+ newline +:+ newline
          ∧ agent.failure r = None.
Proof.
  funelim (agent.executeLoop P onToolCall a st iterations finalResponse events).
  2:{ simpl. exists []. rewrite app_nil_r. split; [reflexivity|]. intros ? ? [=]. }
  clear Heqcall. simpl.
  destruct (llm.StreamChatWithTools P _ _ _ _) as [[p reply0] err].
  destruct err as [err|]; simpl.
  { eexists. split; [reflexivity|]. intros ? ? [=]. }
  destruct (decide _) as [Hnone|Hsome]; simpl.
  { eexists. split; [reflexivity|]. intros msgs reply [= _ <-] _.
    exists (chat.messages (agent.chatManager st)), finalResponse.
    rewrite <- app_assoc. simpl. auto. }
  pose proof (executeToolCalls_events onToolCall (toolCallsOf reply0)
                (agent.executor (agent.setLLM st p))) as Hexec.
  destruct (agent.executeToolCalls _ _ _) as [[e toolResults] executed] eqn:Hrun.
  simpl in Hexec.
  match goal with
  | IH : context [agent.executeLoop] |- _ =>
      specialize (IH (p, reply0) None p reply0 Hsome (e, toolResults) executed e toolResults)
        as (new & Hev & Hfinal)
  end.
  simpl in Hev, Hfinal.
  exists ([agent.Request_ (chat.GetMessages (agent.chatManager st)) reply0 None]
            ++ executed ++ new).
  split; [rewrite Hev; by rewrite <- !app_assoc|].
  intros msgs reply Hlast Hno.
  rewrite !lastRequest_app in Hlast.
  destruct (lastRequest new) as [ev|] eqn:Hnew.
  - injection Hlast as ->. by apply (Hfinal msgs reply).
  - unfold lastRequest in Hlast. rewrite Hexec in Hlast. simpl in Hlast.
    injection Hlast as _ <-. rewrite Hno in Hsome. contradiction.
Qed.

(** C10. When the last reply that [ExecuteTask] got from the provider
    asked for no tool (and was no failure), the message sequence ends with
    two assistant messages: the text of that reply, added where the loop
    breaks, and behind it the accumulated final response, which ends with
    that text and two line feeds and is what the task returns. *)
Theorem ExecuteTask_appends_reply_twice (a : agent.Agent) (st : agent.Store) (task : string)
    (messages : list Message) (reply : list Effect) :
  let r := agent.ExecuteTask P onToolCall a st task in
  lastRequest (agent.events r) = Some (agent.Request_ messages reply None) →
  toolCallsOf reply = [] →
  ∃ earlier before,
    chat.messages (agent.chatManager (agent.store r))
    = earlier ++ [{| Role := "assistant"; Content := String.concat "" (chunksOf reply) |};
                  {| Role := "assistant"; Content := agent.response r |}]
    ∧ agent.response r
      = before +:+ String.concat "" (chunksOf reply) +:+ newline +:+ newline
    ∧ agent.failure r = None.
Proof.
  intros r Hlast Hno. subst r. unfold agent.ExecuteTask in *.
  set (st1 := agent.setChat (agent.setChat st _) _) in *.
  destruct (executeLoop_final a st1 0 "" []) as (new & Hev & H).
  simpl in Hev. rewrite Hev in Hlast. by apply H with messages.
Qed.

End AgentReplies.

Lemma ExecuteTask_appends_reply_twice_witness :
  let P : Provider unit :=
    {| llm.StreamChatWithTools := λ s _ _ _, (s, [OnChunk "all "; OnChunk "good"], None);
       llm.Chat := λ s _, (s, "", None);
       llm.GetModel := λ _, "model" |} in
  let exec : agent.Executor unit := λ e _, (e, "", None) in
  let a := {| agent.skillMetadata := ""; agent.tools := []; agent.maxIterations := 10 |} in
  let st := {| agent.llmProvider := tt; agent.chatManager := chat.NewManager tt;
               agent.executor := tt |} in
  let r := agent.ExecuteTask P exec a st "check the disk" in
  ∃ earlier before,
    chat.messages (agent.chatManager (agent.store r))
    = earlier ++ [{| Role := "assistant"; Content := "all good" |};
                  {| Role := "assistant"; Content := agent.response r |}]
    ∧ agent.response r = before +:+ "all good" +:+ newline +:+ newline
    ∧ agent.failure r = None.
Proof.
  intros P exec a st r.
  apply (ExecuteTask_appends_reply_twice P exec a st "check the disk"
           (chat.messages (agent.chatManager
              (agent.setChat
                 (agent.setChat st (chat.SetSystemPrompt (agent.chatManager st)
                                      (agent.buildSystemPrompt a)))
                 (chat.AddMessage (chat.SetSystemPrompt (agent.chatManager st)
                                     (agent.buildSystemPrompt a)) "user" "check the disk"))))
           [OnChunk "all "; OnChunk "good"]).
  - vm_compute. reflexivity.
  - reflexivity.
Defined.

(** C6, on [ExecuteTask]. A reply with no text and no tool call makes
    [ExecuteTask] return without error, two line feeds as its response,
    after one request; [StreamTask] returns the empty-response error on
    the same reply. *)
Theorem ExecuteTask_accepts_empty_reply {S E : Type} (onToolCall : agent.Executor E)
    (st : @agent.Store S E) (task skills : string) :
  let a := agent.NewAgent skills in
  let r := agent.ExecuteTask (silentProvider S) onToolCall a st task in
  agent.failure r = None
  ∧ agent.response r = newline +:+ newline
  ∧ agent.requestsIn (agent.events r) = 1%nat
  ∧ agent.failure (agent.StreamTask (silentProvider S) onToolCall a st task)
    = Some (ErrorNew "LLM에서 응답을 받지 못했습니다 (빈 응답)").
Proof.
  intros a r. subst r. unfold agent.ExecuteTask, agent.StreamTask.
  rewrite agent.executeLoop_unfold_eq, agent.streamLoop_unfold_eq.
  unfold agent.executeLoop_unfold, agent.streamLoop_unfold.
  destruct (Z_lt_dec 0 (agent.maxIterations a)) as [Hlt|Hge]; [|simpl in Hge; lia].
  simpl. auto.
Qed.

(** *** Stream decoders: completed tool calls carry an id and a name *)

Lemma toolCallsOf_app (l1 l2 : list Effect) :
  toolCallsOf (l1 ++ l2) = toolCallsOf l1 ++ toolCallsOf l2.
Proof. unfold toolCallsOf. apply omap_app. Qed.


Section AnthropicDecoder.
Context (lib : Library) (onToolCall : bool).

(** [finalizeTool] empties the buffer; it hands a call to the callback only
    for a buffer with an id and a name, and only if there is a callback. *)
Lemma finalizeTool_cases (d : anthropic.decoder) :
  anthropic.currentTool (anthropic.finalizeTool lib onToolCall d) = None
  ∧ (anthropic.emitted (anthropic.finalizeTool lib onToolCall d) = anthropic.emitted d
     ∨ ∃ tool input,
         anthropic.currentTool d = Some tool
         ∧ anthropic.id tool ≠ "" ∧ anthropic.name tool ≠ "" ∧ onToolCall = true
         ∧ anthropic.emitted (anthropic.finalizeTool lib onToolCall d)
           = anthropic.emitted d
             ++ [OnToolCall {| ID := anthropic.id tool; Name := anthropic.name tool;
                               Input := input |}]).
Proof.
  unfold anthropic.finalizeTool.
  destruct (anthropic.currentTool d) as [tool|] eqn:Htool; [|by split; [|left]].
  destruct (bool_decide (anthropic.id tool = "")) eqn:Hid; [by split; [|left]|].
  destruct (bool_decide (anthropic.name tool = "")) eqn:Hname; [by split; [|left]|].
  destruct onToolCall; [|by split; [|left]].
  apply bool_decide_eq_false in Hid, Hname.
  cbn [orb negb anthropic.currentTool anthropic.emitted].
  split; [reflexivity|]. right. eexists tool, _. repeat split; try done.
Qed.






End AnthropicDecoder.

Section OpenAIDecoder.
Context (lib : Library) (onToolCall : bool).









End OpenAIDecoder.


(** *** Stream decoders: assembly of the tool-call arguments *)


Section Assembly.
Context (lib : Library).




End Assembly.

Section OpenAIAssembly.
Context (lib : Library).

Lemma rawArgs_empty : openai.rawArgs (Some ∅) = "".
Proof. unfold openai.rawArgs. cbn [mbind option_bind]. by rewrite lookup_empty. Qed.

Lemma rawArgs_raw (text : string) :
  openai.rawArgs (Some {["_raw_args" := Json.JString text]}) = text.
Proof. unfold openai.rawArgs. cbn [mbind option_bind]. by rewrite lookup_singleton_eq. Qed.

(** One argument fragment for a call that is new, or whose input holds the
    text accumulated so far under [_raw_args]: the fragment is appended to
    that text and the whole is parsed. *)
Lemma openai_fragment_applied (idx : Z) (id name id' name' text fragment : string)
    (m : gmap string Json.json) (calls : gmap Z ToolCall) :
  id ≠ "" → name ≠ "" → fragment ≠ "" →
  (calls = ∅ ∧ id' = id ∧ name' = name ∧ m = ∅ ∧ text = ""
   ∨ calls = {[idx := {| ID := id; Name := name; Input := Some m |}]}
     ∧ id' = "" ∧ name' = "" ∧ m = {["_raw_args" := Json.JString text]}) →
  openai.applyToolCallDelta lib calls
    {| tcdIndex := idx; tcdID := id'; tcdType := "";
       tcdFunction := {| fdName := name'; fdArguments := fragment |} |}
  = Fine {[idx := {| ID := id; Name := name; Input := settled lib (text +:+ fragment) |}]}.
Proof.
  intros Hid Hname Hfragment Hstate. unfold openai.applyToolCallDelta.
  cbn [tcdIndex tcdID tcdFunction fdName fdArguments].
  assert (Hcall : match calls !! idx with
                  | Some call => call
                  | None => {| ID := id'; Name := name'; Input := Some ∅ |}
                  end
                  = {| ID := if decide (id' = "") then id else id';
                       Name := if decide (name' = "") then name else name';
                       Input := Some m |}).
  { destruct Hstate as [(-> & -> & -> & -> & _)|(-> & -> & -> & _)].
    - rewrite lookup_empty. by rewrite !decide_False.
    - by rewrite lookup_singleton_eq. }
  rewrite Hcall. clear Hcall.
  assert (Hraw : openai.rawArgs (Some m) = text
                 ∧ ∀ v, <["_raw_args" := v]> m = {["_raw_args" := v]}).
  { destruct Hstate as [(_ & _ & _ & -> & ->)|(_ & _ & _ & ->)].
    - split; [apply rawArgs_empty|]. intros v. apply insert_empty.
    - split; [apply rawArgs_raw|]. intros v. apply insert_singleton_eq. }
  destruct Hraw as [Hraw Hinsert].
  assert (Hnames : (id' = id ∨ id' = "") ∧ (name' = name ∨ name' = "")).
  { destruct Hstate as [(_ & -> & -> & _)|(_ & -> & -> & _)]; auto. }
  destruct Hnames as [Hid' Hname'].
  assert (Hcalls : ∀ c, <[idx := c]> calls = {[idx := c]}).
  { intros c. destruct Hstate as [(-> & _)|(-> & _)];
      [apply insert_empty|apply insert_singleton_eq]. }
  set (call1 := if decide (name' ≠ "") then _ else _).
  assert (H1 : call1 = {| ID := if decide (id' = "") then id else id'; Name := name;
                          Input := Some m |}).
  { subst call1. destruct Hname' as [-> | ->].
    - rewrite decide_True by assumption. reflexivity.
    - rewrite decide_False by (intros H; by apply H). reflexivity. }
  rewrite H1. clear H1 call1. cbn [ID Name Input].
  set (call2 := if _ && _ then _ else _).
  assert (H2 : call2 = {| ID := id; Name := name; Input := Some m |}).
  { subst call2. destruct Hid' as [-> | ->].
    - rewrite decide_False by assumption.
      rewrite (bool_decide_eq_false_2 (id = "")) by assumption.
      rewrite andb_false_r. reflexivity.
    - rewrite decide_True by reflexivity.
      rewrite (bool_decide_eq_false_2 ("" ≠ "")) by (intros H; by apply H).
      reflexivity. }
  rewrite H2. clear H2 call2. cbn [ID Name Input].
  rewrite decide_False by assumption.
  rewrite Hraw, Hinsert. unfold settled.
  destruct (UnmarshalInput lib (text +:+ fragment) None) as [parsedArgs ok].
  by rewrite Hcalls.
Qed.

Lemma openai_fragment_handled (idx : Z) (id name id' name' text fragment : string)
    (m : gmap string Json.json) (d : openai.decoder) :
  id ≠ "" → name ≠ "" → fragment ≠ "" →
  (openai.currentToolCalls d = ∅ ∧ id' = id ∧ name' = name ∧ m = ∅ ∧ text = ""
   ∨ openai.currentToolCalls d = {[idx := {| ID := id; Name := name; Input := Some m |}]}
     ∧ id' = "" ∧ name' = "" ∧ m = {["_raw_args" := Json.JString text]}) →
  openai.handle lib true d (openaiFragment idx id' name' fragment)
  = ({| openai.currentToolCalls :=
          {[idx := {| ID := id; Name := name; Input := settled lib (text +:+ fragment) |}]};
        openai.emitted := openai.emitted d |}, None).
Proof.
  intros Hid Hname Hfragment Hstate. unfold openai.handle, openaiFragment.
  cbn [Choices Delta odContent odToolCalls openai.applyToolCallDeltas].
  rewrite decide_True by reflexivity. cbn [List.length andb].
  rewrite bool_decide_eq_true_2 by lia. cbn [andb].
  by rewrite (openai_fragment_applied idx id name id' name' text fragment m _
                Hid Hname Hfragment Hstate).
Qed.



End OpenAIAssembly.





(* ===================================================================== *)
(** ** Further properties of the code *)
(* ===================================================================== *)

(** *** Token estimator: bounds *)

Lemma RuneCountInString_le_len (s : string) : RuneCountInString s <= len s.
Proof.
  unfold len.
  assert (H : ∀ n (s : string), (String.length s <= n)%nat
                → RuneCountInString s <= Z.of_nat (String.length s)).
  { clear s. induction n as [|n IH]; intros s Hlen.
    - destruct s; [reflexivity|cbn [String.length] in Hlen; lia].
    - destruct s as [|c rest]; [reflexivity|].
      destruct (RuneCountInString_step c rest) as (t & Ht & ->).
      cbn [String.length] in Hlen |- *.
      assert (RuneCountInString t <= Z.of_nat (String.length t)) by (apply IH; lia). lia. }
  apply (H (String.length s)). lia.
Qed.

Lemma textCost_nonneg (text : string) : 0 <= textCost text.
Proof. unfold textCost. destruct (decide (text = "")); lia. Qed.

Lemma Zsum_app (l1 l2 : list Z) : Zsum (l1 ++ l2) = Zsum l1 + Zsum l2.
Proof. unfold Zsum. induction l1 as [|z l1 IH]; simpl; lia. Qed.

Lemma Zsum_costs (messages : list Message) :
  4 * Z.of_nat (List.length messages)
  <= Zsum ((λ msg, 4 + textCost (Content msg)) <$> messages).
Proof.
  induction messages as [|msg messages IH]; [reflexivity|].
  pose proof (textCost_nonneg (Content msg)).
  rewrite fmap_cons. cbn [Zsum foldr List.length]. fold (Zsum ((λ msg, 4 + textCost (Content msg)) <$> messages)).
  lia.
Qed.

(** X1. The estimate of a conversation is at least 1 and at least 4 per
    message, and appending messages never lowers it. *)
Theorem EstimateTokens_grows (messages more : list Message) :
  Z.max 1 (4 * Z.of_nat (List.length messages)) <= EstimateTokens messages
  ∧ EstimateTokens messages <= EstimateTokens (messages ++ more).
Proof.
  unfold EstimateTokens. rewrite !foldl_estimate, fmap_app, Zsum_app.
  pose proof (Zsum_costs messages). pose proof (Zsum_costs more).
  repeat match goal with |- context [?a <? 1] => destruct (Z.ltb_spec a 1) end; lia.
Qed.

(** X2. A non-empty text is estimated at no less than 1 and no less than a
    third of its bytes, and at no more than its number of bytes. *)
Theorem estimateTextTokens_bounds (text : string) :
  text ≠ "" →
  1 <= estimateTextTokens text <= len text ∧ len text <= 3 * estimateTextTokens text.
Proof.
  intros Hne. unfold estimateTextTokens.
  destruct (decide (text = "")) as [|_]; [contradiction|].
  pose proof (RuneCountInString_le_len text) as Hle.
  pose proof (RuneCountInString_nonneg text) as Hr.
  assert (Hlen : 1 <= len text).
  { unfold len. destruct text; [contradiction|]. cbn [String.length]. lia. }
  rewrite Z.quot_div_nonneg by lia. unfold ceilThird.
  pose proof (Z.div_mod (len text + 2) 3 ltac:(lia)) as H1.
  pose proof (Z.mod_pos_bound (len text + 2) 3 ltac:(lia)) as H2.
  pose proof (Z.div_mod (RuneCountInString text) 2 ltac:(lia)) as H3.
  pose proof (Z.mod_pos_bound (RuneCountInString text) 2 ltac:(lia)) as H4.
  set (third := (len text + 2) / 3) in *. set (half := RuneCountInString text / 2) in *.
  clearbody third half.
  destruct (Z.ltb_spec third half);
    match goal with |- context [?a <? 1] => destruct (Z.ltb_spec a 1) end; lia.
Qed.

Lemma estimateTextTokens_bounds_witness :
  1 <= estimateTextTokens "디스크" <= len "디스크"
  ∧ len "디스크" <= 3 * estimateTextTokens "디스크".
Proof. apply (estimateTextTokens_bounds "디스크"). discriminate. Defined.

(** *** Rate limiter: the waiting loop *)

Lemma current_fields (l : RateLimiter) (now : Instant) :
  window (current l now) = window l ∧ maxTokens (current l now) = maxTokens l
  ∧ maxRequests (current l now) = maxRequests l.
Proof. unfold current. destruct (expired l now); done. Qed.

Lemma current_start (l : RateLimiter) (now : Instant) :
  windowStart l <= now → windowStart (current l now) <= now.
Proof. unfold current. destruct (expired l now); simpl; lia. Qed.

Lemma monotone_earlier (start start' : Instant) (rounds : list (Instant * bool)) :
  start' <= start → monotone start rounds → monotone start' rounds.
Proof. destruct rounds as [|[now fired] rounds]; simpl; [tauto|]. intros ? [? ?]. split; [lia|assumption]. Qed.

Lemma fits_or_not (l : RateLimiter) (tokens : Z) : fits l tokens ∨ ¬ fits l tokens.
Proof.
  destruct (((maxTokens l <=? 0) || (int_add (usedTokens l) tokens <=? maxTokens l))
            && ((maxRequests l <=? 0) || (int_add (usedRequests l) 1 <=? maxRequests l)))
    eqn:Hb.
  - left. by apply fits_spec.
  - right. intros Hf. apply fits_spec in Hf. congruence.
Qed.

(** With a positive window and a clock that does not go back, a wait of
    zero is a committed reservation. *)
Lemma reserve_zero_committed (l : RateLimiter) (now : Instant) (tokens : Z) :
  0 < window l <= maxInt → windowStart l <= now →
  (reserve l now tokens).2 = 0 →
  fits (current l now) tokens
  ∧ (reserve l now tokens).1
    = setUsage (current l now) (windowStart (current l now))
        (int_add (usedTokens (current l now)) tokens)
        (int_add (usedRequests (current l now)) 1).
Proof.
  intros Hw Hmono Hzero.
  destruct (fits_or_not (current l now) tokens) as [Hf|Hno].
  - split; [done|]. destruct (reserve_follows_rule l now tokens) as [_|Hno]; [done|contradiction].
  - destruct (reserve_refused_wait l now tokens Hw Hmono Hno) as [_ ?]. lia.
Qed.

Lemma reserve_refused_state (l : RateLimiter) (now : Instant) (tokens : Z) :
  (reserve l now tokens).2 ≠ 0 → (reserve l now tokens).1 = current l now.
Proof. destruct (reserve_follows_rule l now tokens); simpl; [lia|done]. Qed.

Lemma waitLoop_nil_committed (ctx : Context) (rounds : list (Instant * bool))
    (l l' : RateLimiter) (tokens : Z) (effs : list Effect) :
  0 < window l <= maxInt → monotone (windowStart l) rounds →
  waitLoop ctx rounds l tokens = Some (l', None, effs) →
  ∃ c : RateLimiter,
    fits c tokens ∧ window c = window l ∧ maxTokens c = maxTokens l
    ∧ maxRequests c = maxRequests l
    ∧ l' = setUsage c (windowStart c) (int_add (usedTokens c) tokens)
             (int_add (usedRequests c) 1).
Proof.
  revert l effs. induction rounds as [|[now fired] rounds IH]; intros l effs Hw Hmono Hrun;
    [discriminate|].
  destruct Hmono as [Hnow Hmono]. cbn [waitLoop] in Hrun.
  destruct (current_fields l now) as (Hcw & Hct & Hcr).
  destruct (reserve l now tokens) as [l1 wait] eqn:Hres.
  destruct (Z.eqb_spec wait 0) as [->|Hwait].
  - injection Hrun as <- _.
    destruct (reserve_zero_committed l now tokens Hw Hnow) as [Hfit Hl1];
      [by rewrite Hres|].
    rewrite Hres in Hl1. cbn [fst] in Hl1. by exists (current l now).
  - destruct fired; [discriminate|].
    pose proof (reserve_refused_state l now tokens) as Hl1.
    rewrite Hres in Hl1. cbn [fst snd] in Hl1. specialize (Hl1 Hwait). subst l1.
    destruct (waitLoop ctx rounds (current l now) tokens) as [[[l2 err] effs2]|] eqn:Hrec;
      [|discriminate].
    injection Hrun as -> -> _.
    destruct (IH (current l now) effs2) as (c & Hfit & Hc1 & Hc2 & Hc3 & Hc);
      [lia| |done|].
    + apply (monotone_earlier now); [by apply current_start|done].
    + exists c. rewrite Hc1, Hc2, Hc3, Hcw, Hct, Hcr. done.
Qed.

(** X3. With a positive window and a clock that does not go back, a nil
    return of [Wait] means that the reservation was committed: the limiter
    it leaves has both counters within the caps that are positive, and its
    window and caps are those it had. *)
Theorem Wait_nil_within_caps (ctx : Context) (rounds : list (Instant * bool))
    (l l' : RateLimiter) (tokens : Z) (effs : list Effect) :
  0 < window l <= maxInt → monotone (windowStart l) rounds →
  Wait ctx rounds (Some l) tokens = Some (Some l', None, effs) →
  withinCaps l' ∧ window l' = window l ∧ maxTokens l' = maxTokens l
  ∧ maxRequests l' = maxRequests l.
Proof.
  intros Hw Hmono Hrun. unfold Wait in Hrun.
  destruct (waitLoop _ _ _ _) as [[[l1 err] effs1]|] eqn:Hloop; [|discriminate].
  injection Hrun as -> -> ->.
  destruct (waitLoop_nil_committed _ _ _ _ _ _ Hw Hmono Hloop)
    as (c & [Hft Hfr] & Hc1 & Hc2 & Hc3 & ->).
  unfold withinCaps, setUsage.
  cbn [usedTokens usedRequests maxTokens maxRequests window].
  rewrite <- Hc2, <- Hc3. repeat split; try done; intros; lia.
Qed.

Lemma Wait_nil_within_caps_witness :
  let l := NewRateLimiter Minute 50000 60 in
  let l' := setUsage l 1000 120 1 in
  withinCaps l' ∧ window l' = window l ∧ maxTokens l' = maxTokens l
  ∧ maxRequests l' = maxRequests l.
Proof.
  apply (Wait_nil_within_caps {| hasReporter := true; ctxErr := ErrorNew "context canceled" |}
           [(1000, false)] (NewRateLimiter Minute 50000 60)
           (setUsage (NewRateLimiter Minute 50000 60) 1000 120 1) 120
           [RateLimitReport 0 false]).
  - vm_compute. split; [reflexivity|discriminate].
  - vm_compute. split; [discriminate|exact I].
  - vm_compute. reflexivity.
Defined.

Lemma waitLoop_oversized (ctx : Context) (rounds : list (Instant * bool))
    (l : RateLimiter) (tokens : Z) :
  0 < window l <= maxInt → monotone (windowStart l) rounds →
  0 < maxTokens l < tokens → 0 <= usedTokens l → usedTokens l + tokens <= maxInt →
  ∀ (l' : RateLimiter) (err : option error) (effs : list Effect),
    waitLoop ctx rounds l tokens = Some (l', err, effs) → err = Some (ctxErr ctx).
Proof.
  revert l. induction rounds as [|[now fired] rounds IH];
    intros l Hw Hmono Hcap Hused Hsum l' err effs Hrun; [discriminate|].
  destruct Hmono as [Hnow Hmono]. cbn [waitLoop] in Hrun.
  destruct (current_fields l now) as (Hcw & Hct & Hcr).
  assert (Hcu : 0 <= usedTokens (current l now) <= usedTokens l).
  { unfold current. destruct (expired l now); simpl; lia. }
  assert (Hno : ¬ fits (current l now) tokens).
  { intros [[Hle|Hle] _]; [lia|].
    rewrite int_add_exact in Hle by (unfold in_int, minInt, maxInt in *; lia). lia. }
  destruct (reserve_refused_wait l now tokens Hw Hnow Hno) as [Hl1 Hwait].
  destruct (reserve l now tokens) as [l1 wait] eqn:Hres. cbn [fst snd] in Hl1, Hwait. subst l1.
  destruct (Z.eqb_spec wait 0) as [Hz|_]; [lia|].
  destruct fired; [by injection Hrun as _ <- _|].
  destruct (waitLoop ctx rounds (current l now) tokens) as [[[l2 err2] effs2]|] eqn:Hrec;
    [|discriminate].
  injection Hrun as _ <- _.
  eapply (IH (current l now)); [lia| |lia|lia|lia|exact Hrec].
  apply (monotone_earlier now); [by apply current_start|done].
Qed.

(** X4. A request for more tokens than a positive token cap is never
    granted: with a positive window and a clock that does not go back,
    [Wait] either does not return or returns the error of the context. *)
Theorem Wait_never_grants_oversized (ctx : Context) (rounds : list (Instant * bool))
    (l : RateLimiter) (tokens : Z) :
  0 < window l <= maxInt → monotone (windowStart l) rounds →
  0 < maxTokens l < tokens → 0 <= usedTokens l → usedTokens l + tokens <= maxInt →
  Wait ctx rounds (Some l) tokens = None
  ∨ ∃ (l' : RateLimiter) (effs : list Effect),
      Wait ctx rounds (Some l) tokens = Some (Some l', Some (ctxErr ctx), effs).
Proof.
  intros Hw Hmono Hcap Hused Hsum. unfold Wait.
  destruct (Z.ltb_spec tokens 0); [lia|].
  destruct (waitLoop _ _ _ _) as [[[l1 err] effs1]|] eqn:Hloop; [|by left].
  right. exists l1, effs1.
  by rewrite (waitLoop_oversized _ _ _ _ Hw Hmono Hcap Hused Hsum _ _ _ Hloop).
Qed.

Lemma Wait_never_grants_oversized_witness :
  let ctx := {| hasReporter := false; ctxErr := ErrorNew "context deadline exceeded" |} in
  let l := NewRateLimiter Minute 50000 60 in
  let rounds := [(1000, false); (1000 + Minute, false); (1000 + 2 * Minute, true)] in
  Wait ctx rounds (Some l) 50001 = None
  ∨ ∃ (l' : RateLimiter) (effs : list Effect),
      Wait ctx rounds (Some l) 50001 = Some (Some l', Some (ctxErr ctx), effs).
Proof.
  apply (Wait_never_grants_oversized _ _ (NewRateLimiter Minute 50000 60) 50001).
  - vm_compute. split; [reflexivity|discriminate].
  - vm_compute. repeat split; discriminate.
  - vm_compute. split; reflexivity.
  - vm_compute. discriminate.
  - vm_compute. discriminate.
Defined.

Lemma reportRateLimit_reports (ctx : Context) (wait : Duration) (waiting : bool) :
  Forall isReport (reportRateLimit ctx wait waiting).
Proof.
  unfold reportRateLimit. destruct (hasReporter ctx); [|apply Forall_nil_2].
  by repeat constructor.
Qed.

Lemma Wait_only_reports (ctx : Context) (rounds : list (Instant * bool))
    (l l' : option RateLimiter) (tokens : Z) (err : option error) (effs : list Effect) :
  Wait ctx rounds l tokens = Some (l', err, effs) → Forall isReport effs.
Proof.
  unfold Wait. destruct l as [l|]; [|intros [= _ _ <-]; apply Forall_nil_2].
  generalize (if tokens <? 0 then 0 else tokens). clear tokens. intros tokens Hrun.
  destruct (waitLoop _ _ _ _) as [[[l1 err1] effs1]|] eqn:Hloop; [|discriminate].
  injection Hrun as _ _ <-. clear l' err.
  revert l l1 err1 effs1 Hloop.
  induction rounds as [|[now fired] rounds IH]; intros l l1 err effs Hloop; [discriminate|].
  cbn [waitLoop] in Hloop. destruct (reserve l now tokens) as [l2 wait].
  destruct (wait =? 0); [injection Hloop as _ _ <-; apply reportRateLimit_reports|].
  destruct fired.
  { injection Hloop as _ _ <-. apply Forall_app; split; apply reportRateLimit_reports. }
  destruct (waitLoop ctx rounds l2 tokens) as [[[l3 err3] effs3]|] eqn:Hrec; [|discriminate].
  injection Hloop as _ _ <-.
  repeat (apply Forall_app; split); try apply reportRateLimit_reports. by eapply IH.
Qed.

(** X5. Whenever [Wait] returns, its error is nil or the error of the
    context; it calls nothing but the rate-limit reporter; without a
    reporter it has no effect at all, and with one the last report is
    "not waiting, zero wait". *)
Theorem Wait_reports (ctx : Context) (rounds : list (Instant * bool))
    (l : option RateLimiter) (tokens : Z) (l' : option RateLimiter)
    (err : option error) (effs : list Effect) :
  Wait ctx rounds l tokens = Some (l', err, effs) →
  (err = None ∨ err = Some (ctxErr ctx))
  ∧ Forall isReport effs
  ∧ (hasReporter ctx = false → effs = [])
  ∧ (hasReporter ctx = true → is_Some l → last effs = Some (RateLimitReport 0 false)).
Proof.
  unfold Wait. destruct l as [l|].
  2:{ intros [= <- <- <-]. split; [by left|]. split; [apply Forall_nil_2|].
      split; [done|]. intros _ [? [=]]. }
  generalize (if tokens <? 0 then 0 else tokens). clear tokens. intros tokens Hrun.
  destruct (waitLoop _ _ _ _) as [[[l1 err1] effs1]|] eqn:Hloop; [|discriminate].
  injection Hrun as _ -> ->. clear l'.
  revert l l1 err effs Hloop.
  induction rounds as [|[now fired] rounds IH]; intros l l1 err effs Hloop; [discriminate|].
  cbn [waitLoop] in Hloop.
  destruct (reserve l now tokens) as [l2 wait].
  assert (Hlast : ∀ pre, hasReporter ctx = true →
            last (pre ++ reportRateLimit ctx 0 false) = Some (RateLimitReport 0 false)).
  { intros pre Hrep. unfold reportRateLimit. rewrite Hrep. by rewrite last_snoc. }
  assert (Hnone : ∀ w b, hasReporter ctx = false → reportRateLimit ctx w b = []).
  { intros w b Hrep. unfold reportRateLimit. by rewrite Hrep. }
  destruct (wait =? 0).
  - injection Hloop as _ <- <-. repeat split; [by left|apply reportRateLimit_reports|auto|].
    intros Hrep _. apply (Hlast [] Hrep).
  - destruct fired.
    + injection Hloop as _ <- <-.
      repeat split; [by right| |  |].
      * apply Forall_app; split; apply reportRateLimit_reports.
      * intros Hrep. by rewrite !Hnone.
      * intros Hrep _. by apply Hlast.
    + destruct (waitLoop ctx rounds l2 tokens) as [[[l3 err3] effs3]|] eqn:Hrec;
        [|discriminate].
      injection Hloop as _ <- <-.
      destruct (IH _ _ _ _ Hrec) as (Herr & Hall & Hoff & Hon).
      repeat split; [done| | |].
      * repeat (apply Forall_app; split); try apply reportRateLimit_reports. done.
      * intros Hrep. rewrite !Hnone by done. by apply Hoff.
      * intros Hrep _. specialize (Hon Hrep ltac:(eauto)).
        rewrite !app_assoc.
        destruct effs3 as [|e effs3 _] using rev_ind; [discriminate|].
        rewrite last_snoc in Hon. rewrite app_assoc. by rewrite last_snoc.
Qed.

Lemma Wait_reports_witness :
  let ctx := {| hasReporter := true; ctxErr := ErrorNew "context canceled" |} in
  let effs := [RateLimitReport Minute true; RateLimitReport 0 false] in
  (Some (ctxErr ctx) = None ∨ Some (ctxErr ctx) = Some (ctxErr ctx))
  ∧ Forall isReport effs
  ∧ (hasReporter ctx = false → effs = [])
  ∧ (hasReporter ctx = true → is_Some (Some (NewRateLimiter Minute 50000 60))
     → last effs = Some (RateLimitReport 0 false)).
Proof.
  apply (Wait_reports {| hasReporter := true; ctxErr := ErrorNew "context canceled" |}
           [(1000, true)] (Some (NewRateLimiter Minute 50000 60)) 50001
           (Some (setUsage (NewRateLimiter Minute 50000 60) 1000 0 0))
           (Some (ErrorNew "context canceled"))
           [RateLimitReport Minute true; RateLimitReport 0 false]).
  vm_compute. reflexivity.
Defined.

(** X6. Response headers replace a cap only by a positive value: the
    window, its start and both counters are untouched, a positive cap stays
    positive, and a header that is blank once trimmed leaves its cap as it
    was. *)
Theorem headers_only_set_positive_caps (lib : Library) (l : RateLimiter)
    (headers : string → string) (tokensKey requestsKey : string) :
  ∃ l' : RateLimiter,
    updateLimiterFromHeaders lib (Some l) headers tokensKey requestsKey = Some l'
    ∧ window l' = window l ∧ windowStart l' = windowStart l
    ∧ usedTokens l' = usedTokens l ∧ usedRequests l' = usedRequests l
    ∧ (0 < maxTokens l → 0 < maxTokens l')
    ∧ (0 < maxRequests l → 0 < maxRequests l')
    ∧ (TrimSpace lib (headers tokensKey) = "" → maxTokens l' = maxTokens l)
    ∧ (TrimSpace lib (headers requestsKey) = "" → maxRequests l' = maxRequests l).
Proof.
  unfold updateLimiterFromHeaders, UpdateLimits. eexists. split; [reflexivity|]. simpl.
  repeat split.
  - intros ?. destruct (Z.ltb_spec 0 (parseRateLimitHeader lib (headers tokensKey))); lia.
  - intros ?. destruct (Z.ltb_spec 0 (parseRateLimitHeader lib (headers requestsKey))); lia.
  - intros Hblank. unfold parseRateLimitHeader. rewrite Hblank. reflexivity.
  - intros Hblank. unfold parseRateLimitHeader. rewrite Hblank. reflexivity.
Qed.

(** *** Chat manager *)

Lemma filter_system_nonsystem (msgs : list Message) :
  filter (λ msg, Role msg = "system") (filter (λ msg, Role msg ≠ "system") msgs) = [].
Proof.
  induction msgs as [|msg msgs IH]; [reflexivity|].
  rewrite filter_cons. destruct (decide (Role msg ≠ "system")) as [Hne|_]; [|exact IH].
  rewrite filter_cons. destruct (decide (Role msg = "system")); [contradiction|exact IH].
Qed.

Lemma filter_nonsystem_idem (msgs : list Message) :
  filter (λ msg, Role msg ≠ "system") (filter (λ msg, Role msg ≠ "system") msgs)
  = filter (λ msg, Role msg ≠ "system") msgs.
Proof.
  induction msgs as [|msg msgs IH]; [reflexivity|].
  rewrite filter_cons. destruct (decide (Role msg ≠ "system")) as [Hne|_]; [|exact IH].
  rewrite filter_cons. destruct (decide (Role msg ≠ "system")); [|contradiction].
  by rewrite IH.
Qed.

Lemma SetSystemPrompt_nonsystem {S : Type} (m : @chat.Manager S) (prompt : string) :
  filter (λ msg, Role msg ≠ "system") (chat.messages (chat.SetSystemPrompt m prompt))
  = filter (λ msg, Role msg ≠ "system") (chat.messages m).
Proof.
  unfold chat.SetSystemPrompt. cbn [chat.messages chat.setMessages].
  rewrite filter_cons. cbn [Role].
  destruct (decide ("system" ≠ "system")); [contradiction|].
  apply filter_nonsystem_idem.
Qed.

(** X7. After [SetSystemPrompt] the history has exactly one system
    message, the new prompt, at its head, whatever system messages it held
    before; the other messages are kept in their order, and of two
    successive prompts only the second remains. *)
Theorem SetSystemPrompt_replaces {S : Type} (m : @chat.Manager S) (prompt later : string) :
  let m' := chat.SetSystemPrompt m prompt in
  filter (λ msg, Role msg = "system") (chat.messages m')
  = [{| Role := "system"; Content := prompt |}]
  ∧ filter (λ msg, Role msg ≠ "system") (chat.messages m')
    = filter (λ msg, Role msg ≠ "system") (chat.messages m)
  ∧ head (chat.messages m') = Some {| Role := "system"; Content := prompt |}
  ∧ chat.SetSystemPrompt m' later = chat.SetSystemPrompt m later.
Proof.
  intros m'. split; [|split; [apply SetSystemPrompt_nonsystem|split; [reflexivity|]]].
  - subst m'. unfold chat.SetSystemPrompt. cbn [chat.messages chat.setMessages].
    rewrite filter_cons. cbn [Role].
    destruct (decide ("system" = "system")); [|contradiction].
    by rewrite filter_system_nonsystem.
  - pose proof (SetSystemPrompt_nonsystem m prompt) as Hkeep. fold m' in Hkeep.
    unfold chat.SetSystemPrompt at 1 2. rewrite Hkeep. reflexivity.
Qed.

Section ManagerTurns.
Context {S : Type} (P : Provider S).

(** X8. A turn that does not summarize, or whose summarization fails,
    works on the whole history: when the provider fails the history is the
    old one with the user turn and the error wraps the provider's, else the
    history is the old one with the user turn and one assistant message. *)
Theorem turn_keeps_history (lib : Library) (m : @chat.Manager S) (userInput : string)
    (tools : list Tool) (onToolCall : bool) :
  let m1 := chat.AddMessage m "user" userInput in
  let run := chat.StreamChatWithTools P lib m userInput tools onToolCall in
  Z.of_nat (List.length (chat.messages m1)) <= chat.summarizeThreshold m
  ∨ Z.of_nat (List.length (chat.messages m1)) < 10
  ∨ (chat.summarizeContext P m1).2 ≠ None →
  match run.2 with
  | Some err =>
      chat.messages run.1.1 = chat.messages m ++ [{| Role := "user"; Content := userInput |}]
      ∧ ∃ cause : error, err = ErrorWrap "failed to stream chat: " cause
  | None =>
      ∃ reply : string,
        chat.messages run.1.1
        = chat.messages m ++ [{| Role := "user"; Content := userInput |};
                              {| Role := "assistant"; Content := reply |}]
  end.
Proof.
  intros m1 run Hcase. subst run. unfold chat.StreamChatWithTools. fold m1.
  assert (Hsame : ∃ m2 warned,
             (if Z.of_nat (List.length (chat.messages m1)) >? chat.summarizeThreshold m1
              then match chat.summarizeContext P m1 with
                   | (m, Some err) =>
                       (m, [Printf ("Warning: failed to summarize context: "
                                    +:+ Error err +:+ newline)])
                   | (m, None) => (m, [])
                   end
              else (m1, [])) = (m2, warned)
             ∧ chat.messages m2 = chat.messages m1).
  { destruct (Z.gtb_spec (Z.of_nat (List.length (chat.messages m1)))
                (chat.summarizeThreshold m1)) as [Hgt|_]; [|by eexists _, _].
    unfold chat.summarizeContext in *.
    destruct (Z.ltb_spec (Z.of_nat (List.length (chat.messages m1))) 10) as [|Hfloor];
      [by eexists _, _|].
    destruct Hcase as [Hle|[Hlt|Hfail]]; [simpl in *; lia|simpl in *; lia|].
    destruct (Chat P _ _) as [[p summary] [err|]]; [by eexists _, _|].
    by destruct Hfail. }
  destruct Hsame as (m2 & warned & -> & Hmsgs).
  destruct (llm.StreamChatWithTools P _ _ _ _) as [[p streamed] [err|]];
    cbn [fst snd chat.messages chat.setProvider chat.AddMessage chat.setMessages].
  - rewrite Hmsgs. split; [reflexivity|by eexists].
  - eexists. rewrite Hmsgs. subst m1.
    cbn [chat.messages chat.AddMessage chat.setMessages]. by rewrite <- app_assoc.
Qed.

Lemma chunksOf_app (l1 l2 : list Effect) : chunksOf (l1 ++ l2) = chunksOf l1 ++ chunksOf l2.
Proof. unfold chunksOf. apply omap_app. Qed.

Lemma forward_chunks (onToolCall : bool) (streamed : list Effect) :
  chunksOf (streamed ≫= chat.forward onToolCall) = chunksOf streamed.
Proof.
  induction streamed as [|e streamed IH]; [reflexivity|].
  rewrite bind_cons, chunksOf_app, IH.
  destruct e; try reflexivity. simpl. by destruct onToolCall.
Qed.

Lemma forward_tool_calls (onToolCall : bool) (streamed : list Effect) :
  toolCallsOf (streamed ≫= chat.forward onToolCall)
  = if onToolCall then toolCallsOf streamed else [].
Proof.
  induction streamed as [|e streamed IH]; [by destruct onToolCall|].
  rewrite bind_cons, toolCallsOf_app, IH.
  destruct e; try reflexivity. by destruct onToolCall.
Qed.

(** X9. Whether the caller of [Manager.StreamChatWithTools] hands in a
    tool-call callback changes nothing but what that callback receives:
    the history (the tool calls written into the assistant message
    included), the returned error and the chunks delivered are the same,
    and without a callback no tool call is delivered. *)
Theorem manager_callback_independence (lib : Library) (m : @chat.Manager S)
    (userInput : string) (tools : list Tool) :
  let told := chat.StreamChatWithTools P lib m userInput tools true in
  let untold := chat.StreamChatWithTools P lib m userInput tools false in
  untold.1.1 = told.1.1 ∧ untold.2 = told.2
  ∧ chunksOf untold.1.2 = chunksOf told.1.2
  ∧ toolCallsOf untold.1.2 = [].
Proof.
  intros told untold. subst told untold. unfold chat.StreamChatWithTools.
  set (pre := if _ >? _ then _ else _).
  assert (Hw : toolCallsOf pre.2 = []).
  { subst pre. destruct (_ >? _); [|reflexivity].
    by destruct (chat.summarizeContext P _) as [? [?|]]. }
  destruct pre as [m2 warned]. cbn [snd] in Hw.
  destruct (llm.StreamChatWithTools P _ _ _ _) as [[p streamed] [err|]]; cbn [fst snd];
    rewrite ?chunksOf_app, ?toolCallsOf_app, ?forward_chunks, ?forward_tool_calls, ?app_nil_r;
    repeat split; exact Hw.
Qed.

End ManagerTurns.

(** *** Agent: tool execution, history, failures *)

Section AgentRuns.
Context {S E : Type} (P : Provider S) (onToolCall : agent.Executor E).

Lemma executeToolCalls_fold (toolCalls : list ToolCall) (e : E)
    (toolResults : list string) (events : list agent.Event) :
  let out :=
    foldl (λ '(e, toolResults, events) toolCall,
             let '(e, result, err) := onToolCall e toolCall in
             let record :=
               match err with
               | Some err => chat.FormatToolCall (Name toolCall) ("오류: " +:+ Error err) false
               | None => chat.FormatToolCall (Name toolCall) result true
               end in
             (e, toolResults ++ [record], events ++ [agent.Executed toolCall result err]))
          (e, toolResults, events) toolCalls in
  ∃ executed : list agent.Event,
    out.2 = events ++ executed
    ∧ out.1.2 = toolResults ++ omap toolRecord executed
    ∧ executedCalls executed = toolCalls
    ∧ List.length executed = List.length toolCalls
    ∧ List.length (omap toolRecord executed) = List.length toolCalls.
Proof.
  revert e toolResults events.
  induction toolCalls as [|tc tcs IH]; intros e toolResults events; cbn [foldl].
  - exists []. by rewrite !app_nil_r.
  - destruct (onToolCall e tc) as [[e1 result] err] eqn:Hcall.
    destruct (IH e1 (toolResults ++ [match err with
                                     | Some err => chat.FormatToolCall (Name tc)
                                                     ("오류: " +:+ Error err) false
                                     | None => chat.FormatToolCall (Name tc) result true
                                     end])
                 (events ++ [agent.Executed tc result err]))
      as (executed & Hev & Hres & Hcalls & Hlen & Hrecords).
    exists (agent.Executed tc result err :: executed).
    cbv zeta in *. rewrite Hev, Hres, <- !app_assoc.
    repeat split.
    + f_equal. by destruct err.
    + cbn. by rewrite <- Hcalls.
    + cbn. by rewrite Hlen.
    + destruct err; cbn; by rewrite Hrecords.
Qed.

(** X10. Every tool call of a reply is executed exactly once and in
    order, and every execution, failed or not, leaves exactly one
    tool-result record in the same order: a failing tool does not keep the
    later ones from running. *)
Theorem every_tool_call_is_executed (toolCalls : list ToolCall) (e : E) :
  let out := agent.executeToolCalls onToolCall e toolCalls in
  executedCalls out.2 = toolCalls
  ∧ List.length out.2 = List.length toolCalls
  ∧ out.1.2 = omap toolRecord out.2
  ∧ List.length out.1.2 = List.length toolCalls.
Proof.
  intros out. subst out. unfold agent.executeToolCalls.
  destruct (executeToolCalls_fold toolCalls e [] [])
    as (executed & Hev & Hres & Hcalls & Hlen & Hrecords).
  cbv zeta in Hev, Hres. rewrite Hev, Hres. cbn [app]. by repeat split.
Qed.

End AgentRuns.

Lemma requestMessages_app (l1 l2 : list agent.Event) :
  requestMessages (l1 ++ l2) = requestMessages l1 ++ requestMessages l2.
Proof. unfold requestMessages. apply omap_app. Qed.

Lemma requestMessages_none (l : list agent.Event) :
  filter agent.isRequest l = [] → requestMessages l = [].
Proof.
  induction l as [|ev l IH]; [reflexivity|].
  rewrite filter_cons. destruct ev; simpl; try exact IH. discriminate.
Qed.

Lemma lastRequest_none (l : list agent.Event) :
  filter agent.isRequest l = [] → lastRequest l = None.
Proof. unfold lastRequest. by intros ->. Qed.

Lemma chain_weaken (from from' : list Message) (requests : list (list Message))
    (final : list Message) :
  from' `prefix_of` from → chain from requests final → chain from' requests final.
Proof.
  destruct requests as [|msgs requests]; simpl.
  - intros H1 H2. by etransitivity.
  - intros H1 [H2 H3]. split; [by etransitivity|done].
Qed.

Section AgentTraces.
Context {S E : Type} (P : Provider S) (onToolCall : agent.Executor E).

Lemma executeLoop_trace (a : agent.Agent) (st : agent.Store) (iterations : Z)
    (finalResponse : string) (events : list agent.Event) :
  let r := agent.executeLoop P onToolCall a st iterations finalResponse events in
  ∃ new : list agent.Event,
    agent.events r = events ++ new
    ∧ chain (chat.messages (agent.chatManager st)) (requestMessages new)
            (chat.messages (agent.chatManager (agent.store r)))
    ∧ (∀ msgs reply cause,
         lastRequest new = Some (agent.Request_ msgs reply (Some cause)) →
         agent.failure r = Some (ErrorWrap "LLM 호출 실패: " cause)
         ∧ chat.messages (agent.chatManager (agent.store r)) = msgs
         ∧ agent.response r = "")
    ∧ (∀ e, agent.failure r = Some e →
         ∃ msgs reply cause,
           lastRequest new = Some (agent.Request_ msgs reply (Some cause))
           ∧ e = ErrorWrap "LLM 호출 실패: " cause).
Proof.
  funelim (agent.executeLoop P onToolCall a st iterations finalResponse events).
  2:{ simpl. exists []. rewrite app_nil_r. split; [reflexivity|].
      split; [by apply prefix_app_r|]. split; [intros ? ? ? [=]|intros ? [=]]. }
  clear Heqcall. simpl.
  destruct (llm.StreamChatWithTools P _ _ _ _) as [[p reply0] err].
  destruct err as [err|]; simpl.
  { eexists. split; [reflexivity|]. simpl. split; [done|].
    split; [by intros ? ? ? [= <- _ <-]|]. intros e [= <-]. by eexists _, _, _. }
  destruct (decide _) as [Hnone|Hsome]; simpl.
  { eexists. split; [reflexivity|]. simpl. split.
    - split; [done|]. rewrite <- app_assoc. by apply prefix_app_r.
    - split; [intros ? ? ? [=]|intros ? [=]]. }
  pose proof (executeToolCalls_events onToolCall (toolCallsOf reply0)
                (agent.executor (agent.setLLM st p))) as Hexec.
  destruct (agent.executeToolCalls _ _ _) as [[e toolResults] executed] eqn:Hrun.
  simpl in Hexec.
  match goal with
  | IH : context [agent.executeLoop] |- _ =>
      specialize (IH (p, reply0) None p reply0 Hsome (e, toolResults) executed e toolResults)
        as (new & Hev & Hchain & Hfail & Hwhy)
  end.
  simpl in Hev, Hchain, Hfail, Hwhy.
  exists ([agent.Request_ (chat.GetMessages (agent.chatManager st)) reply0 None]
            ++ executed ++ new).
  split; [rewrite Hev; by rewrite <- !app_assoc|].
  assert (Hlast : lastRequest new ≠ None →
            lastRequest ([agent.Request_ (chat.GetMessages (agent.chatManager st)) reply0 None]
                           ++ executed ++ new) = lastRequest new).
  { intros Hne. rewrite !lastRequest_app. by destruct (lastRequest new). }
  split; [|split].
  - rewrite !requestMessages_app, (requestMessages_none executed Hexec). simpl.
    split; [done|]. eapply chain_weaken; [|exact Hchain]. by apply prefix_app_r.
  - intros msgs reply cause Hreq. apply (Hfail msgs reply cause).
    rewrite !lastRequest_app in Hreq.
    destruct (lastRequest new) as [ev|]; [exact Hreq|].
    rewrite (lastRequest_none executed Hexec) in Hreq. discriminate Hreq.
  - intros err Herr. destruct (Hwhy err Herr) as (msgs & reply & cause & Hreq & ->).
    exists msgs, reply, cause. split; [|reflexivity]. rewrite Hlast; [done|by rewrite Hreq].
Qed.

Lemma lastRequest_streamed (messages : list Message) (reply : list Effect)
    (err : option error) :
  lastRequest ([agent.Request_ messages reply err] ++ (agent.Chunk <$> chunksOf reply))
  = Some (agent.Request_ messages reply err).
Proof.
  rewrite lastRequest_app, (lastRequest_none _ (filter_request_chunks _)). reflexivity.
Qed.

Lemma streamLoop_trace (a : agent.Agent) (st : agent.Store) (iterations : Z)
    (events : list agent.Event) :
  let r := agent.streamLoop P onToolCall a st iterations events in
  ∃ new : list agent.Event,
    agent.events r = events ++ new
    ∧ chain (chat.messages (agent.chatManager st)) (requestMessages new)
            (chat.messages (agent.chatManager (agent.store r)))
    ∧ (∀ msgs reply cause,
         lastRequest new = Some (agent.Request_ msgs reply (Some cause)) →
         agent.failure r = Some (ErrorWrap "LLM 호출 실패: " cause)
         ∧ chat.messages (agent.chatManager (agent.store r)) = msgs)
    ∧ (∀ msgs reply,
         lastRequest new = Some (agent.Request_ msgs reply None) →
         toolCallsOf reply = [] →
         if decide (String.concat "" (chunksOf reply) = "") then
           agent.failure r = Some (ErrorNew "LLM에서 응답을 받지 못했습니다 (빈 응답)")
           ∧ chat.messages (agent.chatManager (agent.store r)) = msgs
         else
           agent.failure r = None
           ∧ chat.messages (agent.chatManager (agent.store r))
             = msgs ++ [{| Role := "assistant";
                           Content := String.concat "" (chunksOf reply) |}]).
Proof.
  funelim (agent.streamLoop P onToolCall a st iterations events).
  2:{ simpl. exists []. rewrite app_nil_r. split; [reflexivity|].
      split; [simpl; reflexivity|]. split; [intros ? ? ? [=]|intros ? ? [=]]. }
  clear Heqcall. cbv zeta.
  destruct (llm.StreamChatWithTools P _ _ _ _) as [[p reply0] err].
  assert (Hreqs : ∀ err0, requestMessages
            ([agent.Request_ (chat.GetMessages (agent.chatManager st)) reply0 err0]
               ++ (agent.Chunk <$> chunksOf reply0))
            = [chat.messages (agent.chatManager st)]).
  { intros err0. rewrite requestMessages_app.
    by rewrite (requestMessages_none _ (filter_request_chunks _)). }
  destruct err as [err|].
  { eexists. split; [reflexivity|]. rewrite Hreqs, lastRequest_streamed. simpl.
    split; [done|]. split; [by intros ? ? ? [= <- _ <-]|intros ? ? [=]]. }
  destruct (bool_decide (String.concat "" (chunksOf reply0) = "")
            && bool_decide (List.length (toolCallsOf reply0) = 0%nat)) eqn:Hempty.
  { eexists. split; [reflexivity|]. rewrite Hreqs, lastRequest_streamed. simpl.
    split; [done|]. split; [intros ? ? ? [=]|]. intros msgs reply [= <- <-] Hno.
    apply andb_true_iff in Hempty as [Htext _]. apply bool_decide_eq_true in Htext.
    destruct (decide _); [done|contradiction]. }
  destruct (decide _) as [Hnone|Hsome].
  { eexists. split; [reflexivity|]. rewrite Hreqs, lastRequest_streamed. simpl.
    split; [split; [done|by apply prefix_app_r]|].
    split; [intros ? ? ? [=]|]. intros msgs reply [= <- <-] Hno.
    apply andb_false_iff in Hempty as [Htext|Hcalls].
    - apply bool_decide_eq_false in Htext. destruct (decide _); [contradiction|done].
    - apply bool_decide_eq_false in Hcalls. contradiction. }
  pose proof (executeToolCalls_events onToolCall (toolCallsOf reply0)
                (agent.executor (agent.setLLM st p))) as Hexec.
  destruct (agent.executeToolCalls _ _ _) as [[e toolResults] executed] eqn:Hrun.
  simpl in Hexec.
  match goal with
  | IH : context [agent.streamLoop] |- _ =>
      specialize (IH (p, reply0) None p reply0 Hsome (e, toolResults) executed e toolResults)
        as (new & Hev & Hchain & Hfail & Hfinal)
  end.
  cbv zeta in Hev, Hchain, Hfail, Hfinal.
  cbn [agent.chatManager agent.setChat agent.setExecutor agent.setLLM chat.messages
       chat.AddMessage chat.setMessages] in Hchain.
  exists (([agent.Request_ (chat.GetMessages (agent.chatManager st)) reply0 None]
             ++ (agent.Chunk <$> chunksOf reply0))
            ++ (executed ++ [agent.Chunk agent.progressNote]) ++ new).
  split; [rewrite Hev; by rewrite <- !app_assoc|].
  assert (Hmid : filter agent.isRequest (executed ++ [agent.Chunk agent.progressNote]) = []).
  { by rewrite filter_app, Hexec. }
  split; [|split].
  - rewrite (requestMessages_app (_ ++ _)), Hreqs, requestMessages_app,
      (requestMessages_none _ Hmid). simpl.
    split; [done|]. eapply chain_weaken; [|exact Hchain]. by apply prefix_app_r.
  - intros msgs reply cause Hreq. apply (Hfail msgs reply cause).
    rewrite (lastRequest_app (_ ++ _)), lastRequest_app in Hreq.
    destruct (lastRequest new) as [ev|]; [exact Hreq|].
    rewrite (lastRequest_none _ Hmid), lastRequest_streamed in Hreq. discriminate Hreq.
  - intros msgs reply Hreq Hno. apply (Hfinal msgs reply); [|exact Hno].
    rewrite (lastRequest_app (_ ++ _)), lastRequest_app in Hreq.
    destruct (lastRequest new) as [ev|]; [exact Hreq|].
    rewrite (lastRequest_none _ Hmid), lastRequest_streamed in Hreq.
    injection Hreq as _ <-. rewrite Hno in Hsome. contradiction.
Qed.

End AgentTraces.

Section AgentTasks.
Context {S E : Type} (P : Provider S) (onToolCall : agent.Executor E).

Lemma streamLoop_exhausts (a : agent.Agent) (st : agent.Store) (iterations : Z)
    (events : list agent.Event) :
  insists P →
  agent.requestsIn (agent.events (agent.streamLoop P onToolCall a st iterations events))
  = (agent.requestsIn events + Z.to_nat (agent.maxIterations a - iterations))%nat
  ∧ agent.failure (agent.streamLoop P onToolCall a st iterations events) = None.
Proof.
  intros Hins.
  funelim (agent.streamLoop P onToolCall a st iterations events);
    [|simpl; split; [lia|reflexivity]].
  clear Heqcall.
  destruct (Hins (agent.llmProvider st) (chat.GetMessages (agent.chatManager st))
              (agent.tools a) true) as [Herr Hcalls].
  destruct (llm.StreamChatWithTools P _ _ _ _) as [[p reply] err].
  simpl in Herr, Hcalls. subst err. cbv zeta.
  assert (Hempty : bool_decide (List.length (toolCallsOf reply) = 0%nat) = false).
  { apply bool_decide_eq_false. intros Hnone. by apply nil_length_inv in Hnone. }
  rewrite Hempty, andb_false_r.
  destruct (decide _) as [Hnone|Hsome]; [by apply nil_length_inv in Hnone|].
  pose proof (executeToolCalls_events onToolCall (toolCallsOf reply)
                (agent.executor (agent.setLLM st p))) as Hexec.
  destruct (agent.executeToolCalls _ _ _) as [[e toolResults] executed] eqn:Hrun.
  simpl in Hexec.
  match goal with
  | IH : context [agent.streamLoop] |- _ =>
      specialize (IH (p, reply) None p reply Hsome (e, toolResults) executed e toolResults Hins)
        as [IHn IHf]
  end.
  assert (Hone : agent.requestsIn
                   (events ++ [agent.Request_ (chat.GetMessages (agent.chatManager st)) reply None]
                           ++ (agent.Chunk <$> chunksOf reply))
                 = (agent.requestsIn events + 1)%nat).
  { rewrite requestsIn_app. f_equal. unfold agent.requestsIn. simpl.
    by rewrite filter_request_chunks. }
  split; [|exact IHf]. etransitivity; [exact IHn|].
  rewrite requestsIn_app, Hone, requestsIn_app.
  unfold agent.requestsIn at 2 3. rewrite Hexec. simpl. lia.
Qed.

(** X11. During a task the history only grows: the first request carries
    the built prompt, the earlier messages that are no system messages and
    the task; every later request extends the one before it, and the
    history the task leaves extends the last request. *)
Theorem task_history_only_grows (a : agent.Agent) (st : agent.Store) (task : string) :
  let init :=
    taskHistory (agent.buildSystemPrompt a) (chat.messages (agent.chatManager st)) task in
  let r := agent.ExecuteTask P onToolCall a st task in
  let s := agent.StreamTask P onToolCall a st task in
  chain init (requestMessages (agent.events r))
        (chat.messages (agent.chatManager (agent.store r)))
  ∧ chain init (requestMessages (agent.events s))
          (chat.messages (agent.chatManager (agent.store s)))
  ∧ (0 < agent.maxIterations a →
     head (requestMessages (agent.events r)) = Some init
     ∧ head (requestMessages (agent.events s)) = Some init).
Proof.
  intros init r s. subst r s. unfold agent.ExecuteTask, agent.StreamTask.
  set (st1 := agent.setChat (agent.setChat st _) _).
  assert (Hinit : chat.messages (agent.chatManager st1) = init) by reflexivity.
  split; [|split].
  - destruct (executeLoop_trace P onToolCall a st1 0 "" []) as (new & Hev & Hchain & _).
    cbv zeta in Hev, Hchain. rewrite Hev. by rewrite Hinit in Hchain.
  - destruct (streamLoop_trace P onToolCall a st1 0 []) as (new & Hev & Hchain & _).
    cbv zeta in Hev, Hchain. rewrite Hev. by rewrite Hinit in Hchain.
  - intros Hpos. split.
    + rewrite agent.executeLoop_unfold_eq. unfold agent.executeLoop_unfold.
      destruct (Z_lt_dec 0 (agent.maxIterations a)) as [Hlt|Hge]; [|lia].
      unfold agent.executeLoop_unfold_clause_1. cbv beta iota zeta.
      destruct (llm.StreamChatWithTools P _ _ _ _) as [[p reply] [err|]]; [reflexivity|].
      destruct (decide _); [reflexivity|].
      destruct (agent.executeToolCalls _ _ _) as [[e toolResults] executed].
      match goal with
      | |- context [agent.executeLoop P onToolCall a ?st2 ?it ?fr ?evs] =>
          destruct (executeLoop_trace P onToolCall a st2 it fr evs) as (new & Hev & _)
      end.
      cbv zeta in Hev. rewrite Hev. reflexivity.
    + rewrite agent.streamLoop_unfold_eq. unfold agent.streamLoop_unfold.
      destruct (Z_lt_dec 0 (agent.maxIterations a)) as [Hlt|Hge]; [|lia].
      unfold agent.streamLoop_unfold_clause_1. cbv beta iota zeta.
      destruct (llm.StreamChatWithTools P _ _ _ _) as [[p reply] [err|]]; [reflexivity|].
      destruct (_ && _); [reflexivity|].
      destruct (decide _); [reflexivity|].
      destruct (agent.executeToolCalls _ _ _) as [[e toolResults] executed].
      match goal with
      | |- context [agent.streamLoop P onToolCall a ?st2 ?it ?evs] =>
          destruct (streamLoop_trace P onToolCall a st2 it evs) as (new & Hev & _)
      end.
      cbv zeta in Hev. rewrite Hev. reflexivity.
Qed.

(** X12. When the last request of a task failed, the task returns that
    error wrapped, and the history it leaves is exactly what that request
    carried; and [ExecuteTask] fails in no other way: an error of a tool
    never makes it fail. *)
Theorem provider_failure_ends_task (a : agent.Agent) (st : agent.Store) (task : string)
    (msgs : list Message) (reply : list Effect) (cause : error) :
  let r := agent.ExecuteTask P onToolCall a st task in
  let s := agent.StreamTask P onToolCall a st task in
  (lastRequest (agent.events r) = Some (agent.Request_ msgs reply (Some cause)) →
   agent.failure r = Some (ErrorWrap "LLM 호출 실패: " cause)
   ∧ chat.messages (agent.chatManager (agent.store r)) = msgs
   ∧ agent.response r = "")
  ∧ (lastRequest (agent.events s) = Some (agent.Request_ msgs reply (Some cause)) →
     agent.failure s = Some (ErrorWrap "LLM 호출 실패: " cause)
     ∧ chat.messages (agent.chatManager (agent.store s)) = msgs)
  ∧ (∀ err : error, agent.failure r = Some err →
       ∃ msgs' reply' cause',
         lastRequest (agent.events r) = Some (agent.Request_ msgs' reply' (Some cause'))
         ∧ err = ErrorWrap "LLM 호출 실패: " cause').
Proof.
  intros r s. subst r s. unfold agent.ExecuteTask, agent.StreamTask.
  set (st1 := agent.setChat (agent.setChat st _) _).
  destruct (executeLoop_trace P onToolCall a st1 0 "" []) as (new & Hev & _ & Hfail & Hwhy).
  destruct (streamLoop_trace P onToolCall a st1 0 []) as (new' & Hev' & _ & Hfail' & _).
  cbv zeta in *. rewrite Hev, Hev'. cbn [app].
  split; [apply Hfail|]. split; [apply Hfail'|]. exact Hwhy.
Qed.

(** X13. When the last reply that [StreamTask] got asked for no tool, the
    task appends its text as one assistant message and returns nil, unless
    the text is empty: then nothing is appended and the empty-response
    error is returned. *)
Theorem StreamTask_final_reply (a : agent.Agent) (st : agent.Store) (task : string)
    (msgs : list Message) (reply : list Effect) :
  let s := agent.StreamTask P onToolCall a st task in
  lastRequest (agent.events s) = Some (agent.Request_ msgs reply None) →
  toolCallsOf reply = [] →
  if decide (String.concat "" (chunksOf reply) = "") then
    agent.failure s = Some (ErrorNew "LLM에서 응답을 받지 못했습니다 (빈 응답)")
    ∧ chat.messages (agent.chatManager (agent.store s)) = msgs
  else
    agent.failure s = None
    ∧ chat.messages (agent.chatManager (agent.store s))
      = msgs ++ [{| Role := "assistant"; Content := String.concat "" (chunksOf reply) |}].
Proof.
  intros s. subst s. unfold agent.StreamTask.
  set (st1 := agent.setChat (agent.setChat st _) _).
  destruct (streamLoop_trace P onToolCall a st1 0 []) as (new & Hev & _ & _ & Hfinal).
  cbv zeta in *. rewrite Hev. cbn [app]. apply Hfinal.
Qed.

(** X14. With a provider that asks for a tool in every reply, both tasks
    send exactly [maxIterations] requests and then return nil: running
    into the cap is no error. *)
Theorem exhausted_task_returns_nil (a : agent.Agent) (st : agent.Store) (task : string) :
  insists P → 0 <= agent.maxIterations a →
  let r := agent.ExecuteTask P onToolCall a st task in
  let s := agent.StreamTask P onToolCall a st task in
  Z.of_nat (agent.requestsIn (agent.events r)) = agent.maxIterations a
  ∧ agent.failure r = None
  ∧ Z.of_nat (agent.requestsIn (agent.events s)) = agent.maxIterations a
  ∧ agent.failure s = None.
Proof.
  intros Hins Hmax r s. subst r s. unfold agent.ExecuteTask, agent.StreamTask.
  set (st1 := agent.setChat (agent.setChat st _) _).
  destruct (executeLoop_exhausts P onToolCall a st1 0 "" [] Hins) as [Hn Hf].
  destruct (streamLoop_exhausts a st1 0 [] Hins) as [Hn' Hf'].
  rewrite Hn, Hn', Hf, Hf'. unfold agent.requestsIn. simpl. repeat split; lia.
Qed.

End AgentTasks.

Section AgentSteps.
Context {S E : Type} (P : Provider S) (onToolCall : agent.Executor E).





End AgentSteps.

(** *** Skills *)

(** X16. [SkillManager.ActivateSkill] returns the content of the first
    loaded skill of the given name; when no loaded skill has that name it
    returns the empty string and the error "skill not found" with the
    name. *)
Theorem ActivateSkill_first_match (skills : list agent.Skill) (name : string) :
  match agent.SkillManager.ActivateSkill skills name with
  | (content, None) =>
      ∃ before skill behind,
        skills = before ++ skill :: behind
        ∧ Forall (λ other, agent.SkillName other ≠ name) before
        ∧ agent.SkillName skill = name ∧ content = agent.SkillContent skill
  | (content, Some err) =>
      content = "" ∧ err = ErrorNew ("skill not found: " +:+ name)
      ∧ Forall (λ other, agent.SkillName other ≠ name) skills
  end.
Proof.
  induction skills as [|skill skills IH]; cbn [agent.SkillManager.ActivateSkill].
  - repeat split. apply Forall_nil_2.
  - destruct (decide (agent.SkillName skill = name)) as [Heq|Hne].
    + exists [], skill, skills. repeat split; [apply Forall_nil_2|exact Heq].
    + destruct (agent.SkillManager.ActivateSkill skills name) as [content [err|]].
      * destruct IH as (-> & -> & Hall). repeat split. by apply Forall_cons_2.
      * destruct IH as (before & found & behind & -> & Hall & Hname & ->).
        exists (skill :: before), found, behind. repeat split; [by apply Forall_cons_2|exact Hname].
Qed.

Section SkillsAndTasks.
Context {S E : Type} (P : Provider S) (onToolCall : agent.Executor E).

Lemma AddMessage_system_nonsystem (m : @chat.Manager S) (content : string) :
  filter (λ msg, Role msg ≠ "system") (chat.messages (chat.AddMessage m "system" content))
  = filter (λ msg, Role msg ≠ "system") (chat.messages m).
Proof.
  unfold chat.AddMessage. cbn [chat.messages chat.setMessages].
  rewrite filter_app, filter_cons. cbn [Role].
  destruct (decide ("system" ≠ "system")); [contradiction|]. by rewrite app_nil_r.
Qed.

Lemma ActivateSkill_store (skills : list agent.Skill) (st : @agent.Store S E)
    (skillName : string) :
  let st' := (agent.ActivateSkill skills st skillName).1 in
  agent.llmProvider st' = agent.llmProvider st ∧ agent.executor st' = agent.executor st
  ∧ chat.provider (agent.chatManager st') = chat.provider (agent.chatManager st)
  ∧ chat.maxMessages (agent.chatManager st') = chat.maxMessages (agent.chatManager st)
  ∧ chat.summarizeThreshold (agent.chatManager st')
    = chat.summarizeThreshold (agent.chatManager st)
  ∧ filter (λ msg, Role msg ≠ "system") (chat.messages (agent.chatManager st'))
    = filter (λ msg, Role msg ≠ "system") (chat.messages (agent.chatManager st)).
Proof.
  unfold agent.ActivateSkill.
  destruct (agent.SkillManager.ActivateSkill skills skillName) as [content [err|]];
    [by repeat split|].
  unfold chat.GetMessages.
  destruct (chat.messages (agent.chatManager st)) as [|first rest] eqn:Hmsgs.
  - cbn [fst agent.setChat agent.llmProvider agent.executor agent.chatManager].
    rewrite AddMessage_system_nonsystem, Hmsgs. by repeat split.
  - destruct (decide (Role first = "system"));
      cbn [fst agent.setChat agent.llmProvider agent.executor agent.chatManager].
    + rewrite SetSystemPrompt_nonsystem, Hmsgs. by repeat split.
    + rewrite AddMessage_system_nonsystem, Hmsgs. by repeat split.
Qed.

Lemma SetSystemPrompt_same (m m' : @chat.Manager S) (prompt : string) :
  chat.provider m' = chat.provider m → chat.maxMessages m' = chat.maxMessages m →
  chat.summarizeThreshold m' = chat.summarizeThreshold m →
  filter (λ msg, Role msg ≠ "system") (chat.messages m')
  = filter (λ msg, Role msg ≠ "system") (chat.messages m) →
  chat.SetSystemPrompt m' prompt = chat.SetSystemPrompt m prompt.
Proof.
  intros Hp Hm Ht Hf. unfold chat.SetSystemPrompt, chat.setMessages.
  by rewrite Hp, Hm, Ht, Hf.
Qed.

(** X17. [Agent.ActivateSkill] touches nothing but the system messages
    of the history: on an unknown skill it returns the error wrapped and
    leaves the store as it is, otherwise the content of the skill ends the
    text of a system message. A task started afterwards runs exactly as it
    would have run without the activation, since it begins by replacing
    every system message with the prompt it builds. *)
Theorem activated_skill_does_not_reach_tasks (skills : list agent.Skill)
    (a : agent.Agent) (st : @agent.Store S E) (skillName task : string) :
  let activated := agent.ActivateSkill skills st skillName in
  match agent.SkillManager.ActivateSkill skills skillName with
  | (_, Some err) =>
      activated = (st, Some (ErrorWrap "스킬 활성화 실패: " err))
  | (content, None) =>
      activated.2 = None
      ∧ ∃ (before : string) (msg : Message),
          msg ∈ chat.messages (agent.chatManager activated.1)
          ∧ Role msg = "system" ∧ Content msg = before +:+ content
  end
  ∧ filter (λ msg, Role msg ≠ "system") (chat.messages (agent.chatManager activated.1))
    = filter (λ msg, Role msg ≠ "system") (chat.messages (agent.chatManager st))
  ∧ agent.ExecuteTask P onToolCall a activated.1 task = agent.ExecuteTask P onToolCall a st task
  ∧ agent.StreamTask P onToolCall a activated.1 task = agent.StreamTask P onToolCall a st task.
Proof.
  intros activated.
  destruct (ActivateSkill_store skills st skillName) as (Hllm & Hexe & Hp & Hm & Ht & Hf).
  fold activated in Hllm, Hexe, Hp, Hm, Ht, Hf.
  pose proof (SetSystemPrompt_same _ _ (agent.buildSystemPrompt a) Hp Hm Ht Hf) as Hsame.
  split; [|split; [exact Hf|]].
  - subst activated. unfold agent.ActivateSkill.
    destruct (agent.SkillManager.ActivateSkill skills skillName) as [content [err|]];
      [reflexivity|].
    unfold chat.GetMessages.
    destruct (chat.messages (agent.chatManager st)) as [|first rest] eqn:Hmsgs.
    + split; [reflexivity|]. exists "", {| Role := "system"; Content := content |}.
      split; [|by split]. cbn. rewrite Hmsgs. apply list_elem_of_here.
    + destruct (decide (Role first = "system")).
      * split; [reflexivity|].
        exists (Content first +:+ newline +:+ newline),
               {| Role := "system";
                  Content := Content first +:+ newline +:+ newline +:+ content |}.
        split; [apply list_elem_of_here|]. split; [reflexivity|]. cbn [Content].
        by rewrite !append_assoc.
      * split; [reflexivity|]. exists "", {| Role := "system"; Content := content |}.
        split; [|by split]. cbn. rewrite Hmsgs. apply elem_of_app. right.
        apply list_elem_of_here.
  - unfold agent.ExecuteTask, agent.StreamTask, agent.setChat.
    cbn [agent.chatManager agent.llmProvider agent.executor].
    by rewrite Hsame, Hllm, Hexe.
Qed.

End SkillsAndTasks.

(** *** Stream decoders: the text *)

Lemma finalizeTool_chunks (lib : Library) (onToolCall : bool) (d : anthropic.decoder) :
  chunksOf (anthropic.emitted (anthropic.finalizeTool lib onToolCall d))
  = chunksOf (anthropic.emitted d).
Proof.
  destruct (finalizeTool_cases lib onToolCall d) as [_ [->|Hnew]]; [reflexivity|].
  destruct Hnew as (tool & input & _ & _ & _ & _ & ->).
  by rewrite chunksOf_app, app_nil_r.
Qed.

(** Decides the tests between two literal strings in the goal. *)
Ltac literal_tests :=
  repeat match goal with
         | |- context [bool_decide (@eq string ?a ?b)] =>
             let v := eval vm_compute in (bool_decide (a = b)) in
             match v with
             | true => idtac
             | false => idtac
             end;
             change (bool_decide (a = b)) with v
         end;
  cbn [orb andb].

Lemma anthropic_handle_text (lib : Library) (onToolCall : bool) (d : anthropic.decoder)
    (r : anthropicStreamResponse) :
  match anthropic.handle lib onToolCall d r with
  | anthropic.Next d' =>
      anthropicEnds r = false
      ∧ chunksOf (anthropic.emitted d') = chunksOf (anthropic.emitted d) ++ anthropicText r
  | anthropic.Stop d' =>
      anthropicEnds r = true ∧ chunksOf (anthropic.emitted d') = chunksOf (anthropic.emitted d)
  | anthropic.Abort _ => anthropicEnds r = true
  end.
Proof.
  unfold anthropic.handle, anthropicEnds, anthropicText.
  destruct (decide (srType r = "content_block_start")) as [Ht|_].
  { rewrite Ht. literal_tests.
    assert (Hno : (match srDelta r with Some _ => [] | None => [] end : list string) = [])
      by by destruct (srDelta r).
    destruct (srContentBlock r) as [cb|]; [destruct (decide (cbType cb = "tool_use"))|];
      (split; [reflexivity|]); cbn [anthropic.emitted anthropic.setTool];
      rewrite ?finalizeTool_chunks; destruct (srDelta r); by rewrite app_nil_r. }
  destruct (decide (srType r = "content_block_delta")) as [Ht|Hnd].
  { rewrite Ht. literal_tests.
    destruct (srDelta r) as [delta|]; [|by rewrite app_nil_r].
    destruct (bool_decide (dType delta = "text_delta") && bool_decide (dText delta ≠ ""))
      eqn:Htext.
    { split; [reflexivity|]. cbn [anthropic.emitted]. by rewrite chunksOf_app. }
    destruct (decide (dType delta = "input_json_delta")).
    { destruct (decide (dPartialJSON delta = "")); [by rewrite app_nil_r|].
      destruct (anthropic.currentTool d); by rewrite app_nil_r. }
    destruct (decide (dType delta = "tool_use")); by rewrite app_nil_r. }
  destruct (decide (srType r = "content_block_stop")) as [Ht|_].
  { rewrite Ht. literal_tests. split; [reflexivity|].
    rewrite finalizeTool_chunks. destruct (srDelta r); by rewrite app_nil_r. }
  destruct (decide (srType r = "message_stop")) as [Ht|Hns].
  { rewrite Ht. literal_tests. split; [reflexivity|]. apply finalizeTool_chunks. }
  destruct (decide (srType r = "error")) as [Ht|Hne]; [rewrite Ht; by literal_tests|].
  rewrite !bool_decide_eq_false_2 by done. split; [reflexivity|].
  destruct (srDelta r) as [delta|]; [|by rewrite app_nil_r].
  try rewrite (bool_decide_eq_false_2 _ Hnd). cbn [andb]. by rewrite app_nil_r.
Qed.

(** X18. The chunks the Anthropic loop hands to [onChunk] are the
    non-empty texts of the [text_delta] records, in their order, up to the
    [[DONE]] sentinel or the first [message_stop] or [error] record;
    skipped lines, tool records and the presence of a tool callback change
    nothing about them. *)
Theorem anthropic_text_in_order (lib : Library) (onToolCall : bool)
    (lines : list (sseLine anthropicStreamResponse)) (d : anthropic.decoder) :
  chunksOf (anthropic.emitted (anthropic.decode lib onToolCall lines d).1)
  = chunksOf (anthropic.emitted d) ++ (heard anthropicEnds lines ≫= anthropicText).
Proof.
  revert d. induction lines as [|line lines IH]; intros d; cbn [anthropic.decode heard].
  - by rewrite app_nil_r.
  - destruct line as [| |r]; [apply IH|by rewrite app_nil_r|].
    pose proof (anthropic_handle_text lib onToolCall d r) as Hstep.
    destruct (anthropic.handle lib onToolCall d r) as [d'|d'|err].
    + destruct Hstep as [-> Hchunks]. rewrite IH, Hchunks, bind_cons. by rewrite app_assoc.
    + destruct Hstep as [-> Hchunks]. cbn [fst]. by rewrite Hchunks, app_nil_r.
    + rewrite Hstep. cbn [fst]. by rewrite app_nil_r.
Qed.

Lemma openai_handle_text (lib : Library) (onToolCall : bool) (d : openai.decoder)
    (r : openaiStreamResponse) :
  chunksOf (openai.emitted (openai.handle lib onToolCall d r).1)
  = chunksOf (openai.emitted d) ++ openaiText r
  ∧ (onToolCall = false →
     (openai.handle lib onToolCall d r).2 = None
     ∧ openai.currentToolCalls (openai.handle lib onToolCall d r).1
       = openai.currentToolCalls d).
Proof.
  unfold openai.handle, openaiText.
  destruct (Choices r) as [|choice _]; [by rewrite app_nil_r|].
  set (d1 := if decide (odContent (Delta choice) = "") then d else _).
  assert (Hd1 : chunksOf (openai.emitted d1)
                = chunksOf (openai.emitted d)
                  ++ (if decide (odContent (Delta choice) = "") then []
                      else [odContent (Delta choice)])
                ∧ openai.currentToolCalls d1 = openai.currentToolCalls d).
  { subst d1. destruct (decide _); [by rewrite app_nil_r|].
    cbn [openai.emitted openai.currentToolCalls]. by rewrite chunksOf_app. }
  clearbody d1. destruct Hd1 as [Hchunks Hcalls].
  destruct onToolCall; [|by rewrite andb_false_r].
  rewrite andb_true_r. split; [|discriminate].
  destruct (bool_decide _); [|exact Hchunks].
  destruct (openai.applyToolCallDeltas lib _ _); exact Hchunks.
Qed.

(** X19. The chunks the OpenAI loop hands to [onChunk] are the non-empty
    contents of the first choice of each record, in their order, up to the
    [[DONE]] sentinel, as long as the loop does not panic; and without a
    tool callback ([StreamChat], [Chat]) it never panics, assembles nothing
    and delivers no tool call. *)
Theorem openai_text_in_order (lib : Library) (onToolCall : bool)
    (lines : list (sseLine openaiStreamResponse)) (d : openai.decoder) :
  let out := openai.decode lib onToolCall lines d in
  ((∀ msg, out.2 ≠ openai.Panicked msg) →
   chunksOf (openai.emitted out.1)
   = chunksOf (openai.emitted d) ++ (heard (λ _, false) lines ≫= openaiText))
  ∧ (onToolCall = false →
     (∀ msg, out.2 ≠ openai.Panicked msg)
     ∧ openai.currentToolCalls out.1 = openai.currentToolCalls d
     ∧ openai.remaining onToolCall (openai.currentToolCalls out.1) = []).
Proof.
  revert d. induction lines as [|line lines IH]; intros d; cbn [openai.decode heard].
  - cbn [fst snd]. split; [by rewrite app_nil_r|]. intros ->. by repeat split.
  - destruct line as [| |r]; [apply IH| |].
    { cbn [fst snd]. split; [by rewrite app_nil_r|]. intros ->. by repeat split. }
    destruct (openai_handle_text lib onToolCall d r) as [Hchunks Hquiet].
    destruct (openai.handle lib onToolCall d r) as [d' [msg|]]; cbn [fst snd] in *.
    + split; [intros Hno; by destruct (Hno msg)|].
      intros Hoff. by destruct (Hquiet Hoff).
    + destruct (IH d') as [IHchunks IHquiet]. cbv zeta in IHchunks, IHquiet.
      split.
      * intros Hno. rewrite (IHchunks Hno), Hchunks, bind_cons. by rewrite app_assoc.
      * intros Hoff. destruct (IHquiet Hoff) as (Hno & Hcalls & Hrem).
        destruct (Hquiet Hoff) as [_ Hsame]. repeat split; [exact Hno|congruence|exact Hrem].
Qed.

(** *** Stream decoders: when tool calls are handed over *)

Lemma anthropic_handle_keeps_calls (lib : Library) (onToolCall : bool)
    (d : anthropic.decoder) (r : anthropicStreamResponse) :
  ¬ anthropicHandsOver r →
  match anthropic.handle lib onToolCall d r with
  | anthropic.Next d' | anthropic.Stop d' =>
      toolCallsOf (anthropic.emitted d') = toolCallsOf (anthropic.emitted d)
      ∧ (is_Some (anthropic.currentTool d) → is_Some (anthropic.currentTool d'))
  | anthropic.Abort _ => True
  end.
Proof.
  intros Hno. unfold anthropicHandsOver in Hno. unfold anthropic.handle.
  destruct (decide (srType r = "content_block_start")) as [Ht|_]; [tauto|].
  destruct (decide (srType r = "content_block_delta")) as [_|_].
  { destruct (srDelta r) as [delta|]; [|done].
    destruct (_ && _).
    { cbn [anthropic.emitted anthropic.currentTool].
      by rewrite toolCallsOf_app, app_nil_r. }
    destruct (decide (dType delta = "input_json_delta")).
    { destruct (decide (dPartialJSON delta = "")); [done|].
      destruct (anthropic.currentTool d) eqn:Htool; [|by rewrite Htool].
      split; [reflexivity|]. by eexists. }
    destruct (decide (dType delta = "tool_use")); [|done].
    split; [reflexivity|]. by eexists. }
  destruct (decide (srType r = "content_block_stop")) as [Ht|_]; [tauto|].
  destruct (decide (srType r = "message_stop")) as [Ht|_]; [tauto|].
  by destruct (decide (srType r = "error")).
Qed.

Lemma anthropic_decode_keeps_calls (lib : Library) (onToolCall : bool)
    (lines : list (sseLine anthropicStreamResponse)) (d : anthropic.decoder) :
  Forall (λ r, ¬ anthropicHandsOver r) (recordsOf lines) →
  toolCallsOf (anthropic.emitted (anthropic.decode lib onToolCall lines d).1)
  = toolCallsOf (anthropic.emitted d).
Proof.
  revert d. induction lines as [|line lines IH]; intros d Hall; [reflexivity|].
  destruct line as [| |r]; cbn [anthropic.decode]; [by apply IH|reflexivity|].
  unfold recordsOf in Hall. cbn in Hall. apply Forall_cons in Hall as [Hr Hall].
  pose proof (anthropic_handle_keeps_calls lib onToolCall d r Hr) as Hstep.
  destruct (anthropic.handle lib onToolCall d r) as [d'|d'|err]; cbn [fst].
  - destruct Hstep as [<- _]. by apply IH.
  - by destruct Hstep.
  - reflexivity.
Qed.

(** X20. The Anthropic loop hands a buffered tool call to the callback
    only at a [content_block_start], [content_block_stop] or
    [message_stop] record: over any other lines the calls delivered stay
    as they are, so a call whose block is still open when the stream ends
    is never delivered. *)
Theorem anthropic_open_call_is_lost (lib : Library) (onToolCall : bool) :
  (∀ (lines : list (sseLine anthropicStreamResponse)) (d : anthropic.decoder),
     Forall (λ r, ¬ anthropicHandsOver r) (recordsOf lines) →
     toolCallsOf (anthropic.emitted (anthropic.decode lib onToolCall lines d).1)
     = toolCallsOf (anthropic.emitted d))
  ∧ ∀ (id name : string) (input : option (gmap string Json.json))
      (fragments : list string),
      anthropicCompleted lib onToolCall
        (Record_ (anthropicToolUse id name input)
           :: ((λ fragment, Record_ (anthropicFragment fragment)) <$> fragments)
           ++ [DoneSentinel]) = [].
Proof.
  split; [apply anthropic_decode_keeps_calls|].
  intros id name input fragments. unfold anthropicCompleted.
  cbn [anthropic.decode]. unfold anthropic.handle, anthropicToolUse.
  cbn [srType srContentBlock cbType cbID cbToolUseID cbName cbInput].
  destruct (decide ("content_block_start" = "content_block_start")); [|contradiction].
  destruct (decide ("tool_use" = "tool_use")); [|contradiction].
  rewrite anthropic_decode_keeps_calls; [reflexivity|].
  unfold recordsOf. rewrite omap_app. cbn. rewrite app_nil_r.
  induction fragments as [|fragment fragments IH]; [apply Forall_nil_2|].
  cbn. apply Forall_cons_2; [|exact IH].
  unfold anthropicHandsOver, anthropicFragment. cbn [srType].
  intros [H|[H|H]]; discriminate H.
Qed.

(** *** OpenAI: the order of the effects *)




(** *** Providers: what is sent, and when nothing is *)

Lemma convertMessages_fold (lib : Library) (messages : list Message)
    (acc : list anthropicMessage) (systemPrompt : string) :
  foldl (λ '(anthropicMessages, systemPrompt) msg,
           if decide (Role msg = "system") then (anthropicMessages, Content msg)
           else if decide (TrimSpace lib (Content msg) = "")
                then (anthropicMessages, systemPrompt)
                else (anthropicMessages ++
                        [{| amRole := Role msg;
                            amContent := [{| cbType := "text"; cbText := Content msg;
                                             cbID := ""; cbToolUseID := ""; cbName := "";
                                             cbInput := None |}] |}],
                      systemPrompt))
        (acc, systemPrompt) messages
  = (acc ++ (asAnthropic <$> filter (λ msg, ¬ unsent lib msg) messages),
     default systemPrompt
       (Content <$> last (filter (λ msg, Role msg = "system") messages))).
Proof.
  revert acc systemPrompt.
  induction messages as [|msg messages IH]; intros acc systemPrompt; cbn [foldl].
  - by rewrite app_nil_r.
  - rewrite !filter_cons. unfold unsent at 1.
    destruct (decide (Role msg = "system")) as [Hsys|Hno].
    + rewrite IH. destruct (decide (¬ (Role msg = "system" ∨ _))) as [Hn|_]; [tauto|].
      f_equal. rewrite last_cons.
      by destruct (last (filter (λ msg0, Role msg0 = "system") messages)).
    + destruct (decide (TrimSpace lib (Content msg) = "")) as [Hblank|Hfull].
      * rewrite IH. destruct (decide (¬ (Role msg = "system" ∨ _))) as [Hn|_]; [tauto|].
        reflexivity.
      * rewrite IH. destruct (decide (¬ (Role msg = "system" ∨ _))) as [_|Hn]; [|tauto].
        rewrite fmap_cons, <- app_assoc. reflexivity.
Qed.

(** X22. The Anthropic provider sends, in their order, the messages that
    are no system messages and are not blank once trimmed; of the system
    messages only the content of the last one is sent, as the system
    prompt. *)
Theorem anthropic_sends_last_system_prompt (lib : Library) (messages : list Message) :
  anthropic.convertMessages lib messages
  = (asAnthropic <$> filter (λ msg, ¬ unsent lib msg) messages,
     default "" (Content <$> last (filter (λ msg, Role msg = "system") messages))).
Proof. unfold anthropic.convertMessages. by rewrite convertMessages_fold. Qed.

Lemma filter_none_sent (lib : Library) (messages : list Message) :
  Forall (unsent lib) messages → filter (λ msg, ¬ unsent lib msg) messages = [].
Proof.
  induction 1 as [|msg messages Hmsg _ IH]; [reflexivity|].
  rewrite filter_cons. destruct (decide (¬ unsent lib msg)); [contradiction|exact IH].
Qed.

(** X23. When every message is a system message or blank, a call of the
    Anthropic provider with a key sends nothing; but the limiter has been
    asked first, so unless the wait failed the estimated tokens and one
    request are reserved all the same when "no valid messages to send"
    comes back. *)
Theorem nothing_to_send_still_reserves (lib : Library) (env : Env)
    (p : anthropic.AnthropicProvider) (messages : list Message) (tools : list Tool)
    (onToolCall : bool) (r : run anthropic.AnthropicProvider) :
  anthropic.apiKey p ≠ "" → Forall (unsent lib) messages →
  anthropic.StreamChatWithTools lib env p messages tools onToolCall = Some r →
  recordedRequests (effects r) = []
  ∧ ∃ l err waited,
      Wait (ctx env) (rounds env) (anthropic.limiter p) (EstimateTokens messages)
      = Some (l, err, waited)
      ∧ anthropic.limiter (after r) = l
      ∧ returned r
        = Return (Some match err with
                       | Some err => ErrorWrap "rate limit 대기 실패: " err
                       | None => ErrorNew "no valid messages to send"
                       end).
Proof.
  intros Hkey Hall. unfold anthropic.StreamChatWithTools.
  destruct (decide (anthropic.apiKey p = "")) as [|_]; [contradiction|].
  destruct (Wait _ _ _ _) as [[[l [err|]] waited]|] eqn:Hwait; [| |discriminate].
  - intros [= <-]. cbn [effects returned after]. split.
    + change (recordedRequests (LimiterWait (EstimateTokens messages) :: waited))
        with (recordedRequests waited).
      by eapply Wait_no_requests.
    + by eexists _, _, _.
  - unfold anthropic.convertMessages.
    rewrite convertMessages_fold, (filter_none_sent lib messages Hall).
    cbn [fmap list_fmap List.length]. destruct (decide (0%nat = 0%nat)); [|contradiction].
    intros [= <-]. cbn [effects returned after]. split.
    + change (recordedRequests (LimiterWait (EstimateTokens messages) :: waited))
        with (recordedRequests waited).
      by eapply Wait_no_requests.
    + by eexists _, _, _.
Qed.

(** X24. With a positive window and a clock that does not go back, a
    conversation whose estimate exceeds the positive token cap of the
    limiter is never sent by the Anthropic provider: the call does not
    return before the context is done, and then returns the context's
    error wrapped, without a request. *)
Theorem oversized_conversation_is_never_sent (lib : Library) (env : Env)
    (p : anthropic.AnthropicProvider) (l : RateLimiter) (messages : list Message)
    (tools : list Tool) (onToolCall : bool) (r : run anthropic.AnthropicProvider) :
  anthropic.apiKey p ≠ "" → anthropic.limiter p = Some l →
  0 < window l <= maxInt → monotone (windowStart l) (rounds env) →
  0 < maxTokens l < EstimateTokens messages →
  0 <= usedTokens l → usedTokens l + EstimateTokens messages <= maxInt →
  anthropic.StreamChatWithTools lib env p messages tools onToolCall = Some r →
  returned r = Return (Some (ErrorWrap "rate limit 대기 실패: " (ctxErr (ctx env))))
  ∧ recordedRequests (effects r) = []
  ∧ ∃ err, returned r = Return (Some err) ∧ Is err (ctxErr (ctx env)) = true.
Proof.
  intros Hkey Hlim Hw Hmono Hcap Hused Hsum Hrun.
  destruct (anthropic_waits_first lib env p messages tools onToolCall r Hkey Hrun)
    as [_ Hfail].
  unfold anthropic.StreamChatWithTools in Hrun.
  destruct (decide (anthropic.apiKey p = "")) as [|_]; [contradiction|].
  rewrite Hlim in *. unfold Wait in Hrun, Hfail.
  destruct (Z.ltb_spec (EstimateTokens messages) 0); [lia|].
  destruct (waitLoop _ _ _ _) as [[[l1 err] waited]|] eqn:Hloop; [|discriminate].
  pose proof (waitLoop_oversized _ _ _ _ Hw Hmono Hcap Hused Hsum _ _ _ Hloop) as ->.
  destruct (Hfail _ _ _ eq_refl) as [Hret Hnone].
  split; [exact Hret|]. split; [exact Hnone|].
  eexists. split; [exact Hret|]. cbn [Is].
  destruct (decide (ErrorWrap _ _ = ctxErr (ctx env))); [reflexivity|].
  destruct (ctxErr (ctx env)); cbn [Is]; by rewrite decide_True.
Qed.

(** X25. A response whose status is not 200 ends the call of either
    provider with an error that quotes the status and the body; no
    callback is called. The Anthropic provider has applied the rate-limit
    headers of that response to its limiter by then. *)
Theorem error_status_ends_call (lib : Library) (env : Env)
    (pa : anthropic.AnthropicProvider) (po : openai.OpenAIProvider)
    (messages : list Message) (tools : list Tool) (onToolCall : bool) (resp : Response) :
  StatusCode resp ≠ 200 → (∀ req, client env req = DoResponse resp) →
  (openai.apiKey po ≠ "" →
   let r := openai.StreamChatWithTools lib env po messages tools onToolCall in
   returned r
   = Return (Some (ErrorNew ("openai API error: " +:+ pretty (StatusCode resp) +:+ " - "
                             +:+ bodyText resp)))
   ∧ chunksOf (effects r) = [] ∧ toolCallsOf (effects r) = []
   ∧ List.length (recordedRequests (effects r)) = 1%nat)
  ∧ ∀ r, anthropic.StreamChatWithTools lib env pa messages tools onToolCall = Some r →
         recordedRequests (effects r) ≠ [] →
         returned r
         = Return (Some (ErrorNew ("anthropic API error: HTTP " +:+ pretty (StatusCode resp)
                                   +:+ " - " +:+ bodyText resp)))
         ∧ chunksOf (effects r) = [] ∧ toolCallsOf (effects r) = []
         ∧ List.length (recordedRequests (effects r)) = 1%nat
         ∧ ∃ l waited,
             Wait (ctx env) (rounds env) (anthropic.limiter pa) (EstimateTokens messages)
             = Some (l, None, waited)
             ∧ anthropic.limiter (after r)
               = updateLimiterFromHeaders lib l (HeaderGet resp)
                   "anthropic-ratelimit-limit-tokens" "anthropic-ratelimit-limit-requests".
Proof.
  intros Hbad Hdo. split.
  - intros Hkey r. subst r. unfold openai.StreamChatWithTools.
    destruct (decide (openai.apiKey po = "")) as [|_]; [contradiction|].
    rewrite Hdo. destruct (decide (StatusCode resp ≠ 200)); [|contradiction].
    by repeat split.
  - intros r. unfold anthropic.StreamChatWithTools.
    destruct (decide (anthropic.apiKey pa = "")) as [|_]; [by intros [= <-] Hsent|].
    destruct (Wait _ _ _ _) as [[[l [err|]] waited]|] eqn:Hwait; [| |discriminate].
    { intros [= <-] Hsent. cbn [effects] in Hsent.
      change (recordedRequests (LimiterWait (EstimateTokens messages) :: waited))
        with (recordedRequests waited) in Hsent.
      by rewrite (Wait_no_requests _ _ _ _ _ _ _ Hwait) in Hsent. }
    pose proof (Wait_no_requests _ _ _ _ _ _ _ Hwait) as Hquiet.
    assert (Hwaited : chunksOf waited = [] ∧ toolCallsOf waited = []).
    { pose proof (Wait_only_reports _ _ _ _ _ _ _ Hwait) as Hall.
      clear -Hall. induction Hall as [|e rest He _ [IH1 IH2]]; [done|].
      destruct e; try contradiction. by split. }
    destruct Hwaited as [Hchunks Hcalls].
    destruct (anthropic.convertMessages lib messages) as [anthropicMessages systemPrompt].
    destruct (decide (List.length anthropicMessages = 0%nat)).
    { intros [= <-] Hsent. cbn [effects] in Hsent.
      change (recordedRequests (LimiterWait (EstimateTokens messages) :: waited))
        with (recordedRequests waited) in Hsent. by rewrite Hquiet in Hsent. }
    rewrite Hdo. destruct (decide (StatusCode resp ≠ 200)); [|contradiction].
    intros [= <-] _. cbn [effects returned after anthropic.limiter anthropic.withLimiter].
    split; [reflexivity|].
    unfold chunksOf, toolCallsOf, recordedRequests in *. cbn [app omap list_omap].
    rewrite !omap_app, Hchunks, Hcalls, Hquiet.
    repeat split. by eexists _, _.
Qed.

(** *** OpenAI: assembling tool calls *)

(** X26. One tool-call delta changes the call under its own index and no
    other. The id that an index got first stays; the name is replaced by
    every later delta that carries a non-empty one. *)
Theorem openai_delta_is_local (lib : Library) (calls calls' : gmap Z ToolCall)
    (toolCallDelta : openaiToolCallDelta) :
  openai.applyToolCallDelta lib calls toolCallDelta = Fine calls' →
  (∀ idx, idx ≠ tcdIndex toolCallDelta → calls' !! idx = calls !! idx)
  ∧ ∃ call',
      calls' !! tcdIndex toolCallDelta = Some call'
      ∧ (∀ old, calls !! tcdIndex toolCallDelta = Some old → ID old ≠ "" → ID call' = ID old)
      ∧ (fdName (tcdFunction toolCallDelta) ≠ "" →
         Name call' = fdName (tcdFunction toolCallDelta))
      ∧ (∀ old, calls !! tcdIndex toolCallDelta = Some old →
                fdName (tcdFunction toolCallDelta) = "" → Name call' = Name old).
Proof.
  unfold openai.applyToolCallDelta.
  set (idx := tcdIndex toolCallDelta). set (fn := tcdFunction toolCallDelta).
  set (keeps (call : ToolCall) :=
         (∀ old, calls !! idx = Some old → ID old ≠ "" → ID call = ID old)
         ∧ (fdName fn ≠ "" → Name call = fdName fn)
         ∧ (∀ old, calls !! idx = Some old → fdName fn = "" → Name call = Name old)).
  set (call0 := match calls !! idx with Some call => call | None => _ end).
  assert (H0 : (∀ old, calls !! idx = Some old → call0 = old)
               ∧ (calls !! idx = None → Name call0 = fdName fn)).
  { subst call0. destruct (calls !! idx) as [old|]; split; try done.
    by intros ? [= <-]. }
  clearbody call0.
  set (call1 := if decide (fdName fn ≠ "") then _ else call0).
  assert (H1 : keeps call1).
  { subst call1 keeps. cbv beta. destruct H0 as [Hold Hnew].
    destruct (decide (fdName fn ≠ "")) as [Hn|Hn]; cbn [ID Name].
    - split; [|split; [done|]].
      + intros old Hlook _. by rewrite (Hold old Hlook).
      + intros old _ Hempty. contradiction.
    - split; [|split; [done|]].
      + intros old Hlook _. by rewrite (Hold old Hlook).
      + intros old Hlook _. by rewrite (Hold old Hlook). }
  assert (Hid1 : ∀ old, calls !! idx = Some old → ID call1 = ID old).
  { subst call1. destruct H0 as [Hold _]. intros old Hlook.
    destruct (decide _); cbn [ID]; by rewrite (Hold old Hlook). }
  clearbody call1. clear H0 call0.
  set (call2 := if _ && _ then _ else call1).
  assert (H2 : keeps call2).
  { subst call2 keeps. cbv beta in *. destruct H1 as (Hid & Hname & Hname').
    destruct (bool_decide (tcdID toolCallDelta ≠ "")); cbn [andb]; [|done].
    destruct (bool_decide (ID call1 = "")) eqn:Hblank; [|done].
    apply bool_decide_eq_true in Hblank. cbn [ID Name].
    split; [|split; assumption].
    intros old Hlook Hfull. rewrite (Hid1 old Hlook) in Hblank. contradiction. }
  clearbody call2. clear H1 Hid1 call1.
  assert (Hothers : ∀ (call : ToolCall) (other : Z),
            other ≠ idx → <[idx := call]> calls !! other = calls !! other).
  { intros call other Hne. by rewrite lookup_insert_ne. }
  destruct (decide (fdArguments fn = "")).
  { intros [= <-]. split; [by apply Hothers|]. exists call2.
    split; [by rewrite lookup_insert_eq|exact H2]. }
  destruct (Input call2) as [m|]; [|discriminate].
  destruct (UnmarshalInput lib _ None) as [parsedArgs ok].
  intros [= <-]. split; [by apply Hothers|]. eexists.
  split; [by rewrite lookup_insert_eq|]. exact H2.
Qed.

Lemma null_arguments_decode (lib : Library) (idx : Z) (id name more : string)
    (lines : list (sseLine openaiStreamResponse)) :
  id ≠ "" → name ≠ "" → more ≠ "" →
  ∃ d,
    openai.decode (withJson lib) true
      (Record_ (openaiFragment idx id name "null")
         :: Record_ (openaiFragment idx "" "" more) :: lines) openai.start
    = (d, openai.Panicked "assignment to entry in nil map")
    ∧ openai.emitted d = [].
Proof.
  intros Hid Hname Hmore. cbn [openai.decode].
  rewrite (openai_fragment_handled (withJson lib) idx id name id name "" "null" ∅
             openai.start Hid Hname ltac:(discriminate) ltac:(left; by repeat split)).
  assert (Hnull : settled (withJson lib) ("" +:+ "null") = None) by (vm_compute; reflexivity).
  rewrite Hnull. cbn [openai.emitted openai.start].
  unfold openai.handle, openaiFragment.
  cbn [Choices Delta odContent odToolCalls openai.applyToolCallDeltas
       openai.currentToolCalls openai.emitted].
  rewrite decide_True by reflexivity. cbn [List.length].
  rewrite bool_decide_eq_true_2 by lia. cbn [andb].
  unfold openai.applyToolCallDelta.
  cbn [tcdIndex tcdID tcdFunction fdName fdArguments openai.currentToolCalls openai.emitted].
  rewrite lookup_singleton_eq.
  rewrite (decide_False (P := "" ≠ "")) by (intros H; by apply H).
  rewrite (bool_decide_eq_false_2 ("" ≠ "")) by (intros H; by apply H).
  cbn [andb Input]. rewrite decide_False by assumption.
  eexists. split; reflexivity.
Qed.

Lemma openai_decode_unskipped (lib : Library) (onToolCall : bool)
    (lines : list (sseLine openaiStreamResponse)) (d : openai.decoder) :
  openai.decode lib onToolCall lines d = openai.decode lib onToolCall (unskipped lines) d.
Proof.
  revert d. induction lines as [|line lines IH]; intros d; [reflexivity|].
  destruct line as [| |r]; cbn [openai.decode unskipped]; [apply IH|reflexivity|].
  destruct (openai.handle lib onToolCall d r) as [d' [msg|]]; [reflexivity|apply IH].
Qed.

(** X27. When the arguments of a tool call received so far are the JSON
    text [null], the OpenAI loop replaces the input map of the call by a
    nil map; the next argument fragment for that call then stores into it,
    and the call of the provider panics instead of returning, no tool call
    having been delivered. *)
Theorem null_arguments_panic (lib : Library) (env : Env) (p : openai.OpenAIProvider)
    (messages : list Message) (tools : list Tool) (resp : Response)
    (idx : Z) (id name more : string) (lines : list (sseLine openaiStreamResponse)) :
  openai.apiKey p ≠ "" → (∀ req, client env req = DoResponse resp) →
  StatusCode resp = 200 →
  unskipped (readLine (UnmarshalOpenAI lib) <$> scanLines resp)
  = Record_ (openaiFragment idx id name "null")
      :: Record_ (openaiFragment idx "" "" more) :: lines →
  id ≠ "" → name ≠ "" → more ≠ "" →
  let r := openai.StreamChatWithTools (withJson lib) env p messages tools true in
  returned r = Panic "assignment to entry in nil map"
  ∧ toolCallsOf (effects r) = [] ∧ chunksOf (effects r) = [].
Proof.
  intros Hkey Hdo Hok Hlines Hid Hname Hmore r. subst r.
  unfold openai.StreamChatWithTools.
  destruct (decide (openai.apiKey p = "")) as [|_]; [contradiction|].
  rewrite Hdo. destruct (decide (StatusCode resp ≠ 200)) as [|_]; [contradiction|].
  change (UnmarshalOpenAI (withJson lib)) with (UnmarshalOpenAI lib).
  rewrite openai_decode_unskipped, Hlines.
  destruct (null_arguments_decode lib idx id name more lines Hid Hname Hmore)
    as (d & -> & Hemitted).
  cbn [returned effects]. rewrite Hemitted. by repeat split.
Qed.

(** *** Stream decoders: the end of the stream *)

Lemma anthropic_decode_done (lib : Library) (onToolCall : bool)
    (before behind : list (sseLine anthropicStreamResponse)) (d : anthropic.decoder)
    (line : sseLine anthropicStreamResponse) :
  line = DoneSentinel ∨ (∃ r, line = Record_ r ∧ anthropicEnds r = true) →
  anthropic.decode lib onToolCall (before ++ line :: behind) d
  = anthropic.decode lib onToolCall (before ++ [line]) d.
Proof.
  intros Hline. revert d.
  induction before as [|first before IH]; intros d; cbn [app anthropic.decode].
  - destruct Hline as [->|(r & -> & Hends)]; [reflexivity|].
    pose proof (anthropic_handle_text lib onToolCall d r) as Hstep.
    destruct (anthropic.handle lib onToolCall d r) as [d'|d'|err]; [|reflexivity..].
    destruct Hstep as [Hgo _]. congruence.
  - destruct first as [| |r]; [apply IH|reflexivity|].
    destruct (anthropic.handle lib onToolCall d r); [apply IH|reflexivity..].
Qed.

Lemma openai_decode_done (lib : Library) (onToolCall : bool)
    (before behind : list (sseLine openaiStreamResponse)) (d : openai.decoder) :
  openai.decode lib onToolCall (before ++ DoneSentinel :: behind) d
  = openai.decode lib onToolCall (before ++ [DoneSentinel]) d.
Proof.
  revert d. induction before as [|first before IH]; intros d; cbn [app openai.decode];
    [reflexivity|].
  destruct first as [| |r]; [apply IH|reflexivity|].
  destruct (openai.handle lib onToolCall d r) as [d' [msg|]]; [reflexivity|apply IH].
Qed.

(** X28. Neither decoding loop reads past the [[DONE]] sentinel, and the
    Anthropic loop reads nothing past a [message_stop] or [error] record:
    whatever lines follow, text or tool calls, the outcome of the loop is
    the same as if the stream had ended there. *)
Theorem nothing_is_read_past_the_end (lib : Library) (onToolCall : bool) :
  (∀ (before behind : list (sseLine anthropicStreamResponse)) (d : anthropic.decoder),
     anthropic.decode lib onToolCall (before ++ DoneSentinel :: behind) d
     = anthropic.decode lib onToolCall (before ++ [DoneSentinel]) d)
  ∧ (∀ (before behind : list (sseLine anthropicStreamResponse)) (d : anthropic.decoder)
       (r : anthropicStreamResponse),
       srType r = "message_stop" ∨ srType r = "error" →
       anthropic.decode lib onToolCall (before ++ Record_ r :: behind) d
       = anthropic.decode lib onToolCall (before ++ [Record_ r]) d)
  ∧ (∀ (before behind : list (sseLine openaiStreamResponse)) (d : openai.decoder),
       openai.decode lib onToolCall (before ++ DoneSentinel :: behind) d
       = openai.decode lib onToolCall (before ++ [DoneSentinel]) d).
Proof.
  split; [|split].
  - intros before behind d. apply anthropic_decode_done. by left.
  - intros before behind d r Htype. apply anthropic_decode_done. right. exists r.
    split; [reflexivity|]. unfold anthropicEnds.
    destruct Htype as [-> | ->]; by literal_tests.
  - apply openai_decode_done.
Qed.

(** *** The recording transport *)

Lemma Do_recorded (net : httpclient.Net) (m : httpclient.MockHTTPClient) (req : Request) :
  httpclient.requests (httpclient.Do net m req).1 = httpclient.requests m ++ [req]
  ∧ httpclient.errors (httpclient.Do net m req).1 = httpclient.errors m
  ∧ ∀ url, is_Some (httpclient.responses (httpclient.Do net m req).1 !! url)
           ↔ is_Some (httpclient.responses m !! url).
Proof.
  unfold httpclient.Do.
  cbn [httpclient.errors httpclient.responses httpclient.requests].
  destruct (httpclient.errors m !! URL req); [by repeat split|].
  destruct (httpclient.responses m !! URL req) as [resp|] eqn:Hresp; [|by repeat split].
  cbn [fst httpclient.errors httpclient.responses httpclient.requests].
  repeat split; intros Hsome.
  - destruct (decide (url = URL req)) as [->|Hne]; [by rewrite Hresp|].
    by rewrite lookup_insert_ne in Hsome.
  - destruct (decide (url = URL req)) as [->|Hne]; [by rewrite lookup_insert_eq|].
    by rewrite lookup_insert_ne.
Qed.

(** X29. The recording transport stores every request it is handed, in
    the order of the calls and whatever it answers; a URL with a configured
    error is answered with that error even if a response is configured for
    it as well, and a URL with neither gets the 404 response with the body
    "Not Found". *)
Theorem mock_records_every_request (net : httpclient.Net) (m : httpclient.MockHTTPClient)
    (reqs : list Request) :
  let out := DoAll net m reqs in
  httpclient.GetRequests out.1 = httpclient.GetRequests m ++ reqs
  ∧ httpclient.GetRequests (DoAll net (httpclient.ClearRequests m) reqs).1 = reqs
  ∧ Forall2 (λ req answer,
               match httpclient.errors m !! URL req with
               | Some err => answer = httpclient.Failure err
               | None =>
                   httpclient.responses m !! URL req = None →
                   answer = httpclient.Answer
                              (httpclient.StatusText net httpclient.StatusNotFound)
                              httpclient.StatusNotFound "Not Found" ∅
               end) reqs out.2.
Proof.
  assert (Hgen : ∀ (reqs : list Request) (m0 : httpclient.MockHTTPClient),
            httpclient.errors m0 = httpclient.errors m →
            (∀ url, is_Some (httpclient.responses m0 !! url)
                    ↔ is_Some (httpclient.responses m !! url)) →
            httpclient.requests (DoAll net m0 reqs).1 = httpclient.requests m0 ++ reqs
            ∧ Forall2 (λ req answer,
                         match httpclient.errors m !! URL req with
                         | Some err => answer = httpclient.Failure err
                         | None =>
                             httpclient.responses m !! URL req = None →
                             answer = httpclient.Answer
                                        (httpclient.StatusText net httpclient.StatusNotFound)
                                        httpclient.StatusNotFound "Not Found" ∅
                         end) reqs (DoAll net m0 reqs).2).
  { clear reqs. induction reqs as [|req reqs IH]; intros m0 Herr Hdom; cbn [DoAll].
    - cbn [fst snd]. rewrite app_nil_r. split; [reflexivity|constructor].
    - destruct (Do_recorded net m0 req) as (Hreq & Herr' & Hdom').
      assert (Hanswer : match httpclient.errors m !! URL req with
                        | Some err => (httpclient.Do net m0 req).2 = httpclient.Failure err
                        | None =>
                            httpclient.responses m !! URL req = None →
                            (httpclient.Do net m0 req).2
                            = httpclient.Answer
                                (httpclient.StatusText net httpclient.StatusNotFound)
                                httpclient.StatusNotFound "Not Found" ∅
                        end).
      { unfold httpclient.Do. cbn [httpclient.errors httpclient.responses].
        rewrite Herr. destruct (httpclient.errors m !! URL req); [reflexivity|].
        intros Hnone.
        destruct (httpclient.responses m0 !! URL req) as [resp|] eqn:Hresp; [|reflexivity].
        assert (Hsome : is_Some (httpclient.responses m !! URL req)).
        { apply Hdom. by rewrite Hresp. }
        rewrite Hnone in Hsome. by destruct Hsome. }
      destruct (httpclient.Do net m0 req) as [m1 first]. cbn [fst snd] in *.
      destruct (IH m1) as [IHreq IHans]; [congruence| |].
      { intros url. rewrite Hdom'. apply Hdom. }
      destruct (DoAll net m1 reqs) as [m2 others]. cbn [fst snd] in *.
      split; [by rewrite IHreq, Hreq, <- app_assoc|].
      constructor; assumption. }
  intros out. subst out. unfold httpclient.GetRequests.
  destruct (Hgen reqs m eq_refl ltac:(done)) as [Hreqs Hans].
  destruct (Hgen reqs (httpclient.ClearRequests m) eq_refl ltac:(done)) as [Hcleared _].
  split; [exact Hreqs|]. split; [exact Hcleared|exact Hans].
Qed.

Lemma DoAll_served (net : httpclient.Net) (reqs : list Request)
    (m : httpclient.MockHTTPClient) (url : string) (resp : httpclient.stored) :
  httpclient.errors m !! url = None → httpclient.responses m !! url = Some resp →
  Forall (λ req, URL req = url) reqs →
  (DoAll net m reqs).2
  = match reqs with
    | [] => []
    | _ :: later =>
        httpclient.Answer (httpclient.Status resp) (httpclient.Code resp)
          (httpclient.unread resp) (httpclient.Header resp)
          :: ((λ _, httpclient.Answer (httpclient.Status resp) (httpclient.Code resp) ""
                      (httpclient.Header resp)) <$> later)
    end.
Proof.
  intros Herr Hresp Hall. destruct reqs as [|req reqs]; [reflexivity|].
  apply Forall_cons in Hall as [Hurl Hall]. cbn [DoAll].
  unfold httpclient.Do at 1. cbn [httpclient.errors httpclient.responses httpclient.requests].
  rewrite Hurl, Herr, Hresp.
  match goal with
  | |- context [DoAll net ?m1 reqs] => set (m1' := m1)
  end.
  assert (Hgen : ∀ (reqs : list Request) (m1 : httpclient.MockHTTPClient),
            httpclient.errors m1 !! url = None →
            httpclient.responses m1 !! url
            = Some {| httpclient.Status := httpclient.Status resp;
                      httpclient.Code := httpclient.Code resp;
                      httpclient.unread := "";
                      httpclient.Header := httpclient.Header resp |} →
            Forall (λ req, URL req = url) reqs →
            (DoAll net m1 reqs).2
            = (λ _, httpclient.Answer (httpclient.Status resp) (httpclient.Code resp) ""
                      (httpclient.Header resp)) <$> reqs).
  { clear. induction reqs as [|req reqs IH]; intros m1 Herr Hresp Hall; [reflexivity|].
    apply Forall_cons in Hall as [Hurl Hall]. cbn [DoAll].
    unfold httpclient.Do at 1.
    cbn [httpclient.errors httpclient.responses httpclient.requests].
    rewrite Hurl, Herr, Hresp.
    cbn [httpclient.Status httpclient.Code httpclient.unread httpclient.Header].
    match goal with
    | |- context [DoAll net ?m2 reqs] =>
        rewrite (surjective_pairing (DoAll net m2 reqs)), (IH m2)
    end; [reflexivity|exact Herr| |exact Hall].
    cbn [httpclient.responses]. by rewrite lookup_insert_eq. }
  rewrite (surjective_pairing (DoAll net m1' reqs)), (Hgen reqs m1'); [reflexivity| | |exact Hall].
  - exact Herr.
  - subst m1'. cbn [httpclient.responses]. by rewrite lookup_insert_eq.
Qed.

(** X30. A response configured with [SetResponse] hands out its body
    once: the first [Do] on its URL gets the body, every later one the same
    status and headers with an empty body, the stored reader having been
    read to its end. *)
Theorem mock_body_is_served_once (net : httpclient.Net) (m : httpclient.MockHTTPClient)
    (url : string) (statusCode : Z) (body : string) (headers : list (string * string))
    (first : Request) (later : list Request) :
  httpclient.errors m !! url = None →
  URL first = url → Forall (λ req, URL req = url) later →
  ∃ header : gmap string string,
    (DoAll net (httpclient.SetResponse net m url statusCode body headers)
       (first :: later)).2
    = httpclient.Answer (httpclient.StatusText net statusCode) statusCode body header
        :: ((λ _, httpclient.Answer (httpclient.StatusText net statusCode) statusCode ""
                    header) <$> later).
Proof.
  intros Herr Hfirst Hlater.
  set (header := foldl (λ h '(k, v), <[httpclient.CanonicalHeaderKey net k := v]> h)
                       (∅ : gmap string string) headers).
  exists header.
  rewrite (DoAll_served net (first :: later) _ url
             {| httpclient.Status := httpclient.StatusText net statusCode;
                httpclient.Code := statusCode; httpclient.unread := body;
                httpclient.Header := header |}); [reflexivity|exact Herr| |].
  - unfold httpclient.SetResponse. cbn [httpclient.responses]. by rewrite lookup_insert_eq.
  - by apply Forall_cons_2.
Qed.

(** *** Instances of the conditional properties *)

Lemma turn_keeps_history_witness :
  let P : Provider unit :=
    {| llm.StreamChatWithTools := λ s _ _ _, (s, [OnChunk "fine"], None);
       llm.Chat := λ s _, (s, "", Some (ErrorNew "overloaded"));
       llm.GetModel := λ _, "model" |} in
  let m := chat.setMessages (chat.NewManager tt)
             (replicate 30 {| Role := "user"; Content := "df -h" |}) in
  let run := chat.StreamChatWithTools P bareLibrary m "and now?" [] false in
  match run.2 with
  | Some err =>
      chat.messages run.1.1 = chat.messages m ++ [{| Role := "user"; Content := "and now?" |}]
      ∧ ∃ cause : error, err = ErrorWrap "failed to stream chat: " cause
  | None =>
      ∃ reply : string,
        chat.messages run.1.1
        = chat.messages m ++ [{| Role := "user"; Content := "and now?" |};
                              {| Role := "assistant"; Content := reply |}]
  end.
Proof.
  intros P m run.
  apply (turn_keeps_history P bareLibrary m "and now?" [] false).
  right. right. vm_compute. discriminate.
Defined.

Lemma StreamTask_final_reply_witness :
  let P : Provider unit :=
    {| llm.StreamChatWithTools := λ s _ _ _, (s, [OnChunk "all "; OnChunk "good"], None);
       llm.Chat := λ s _, (s, "", None);
       llm.GetModel := λ _, "model" |} in
  let exec : agent.Executor unit := λ e _, (e, "", None) in
  let a := {| agent.skillMetadata := ""; agent.tools := []; agent.maxIterations := 10 |} in
  let st := {| agent.llmProvider := tt; agent.chatManager := chat.NewManager tt;
               agent.executor := tt |} in
  let s := agent.StreamTask P exec a st "check the disk" in
  let msgs := taskHistory (agent.buildSystemPrompt a) [] "check the disk" in
  agent.failure s = None
  ∧ chat.messages (agent.chatManager (agent.store s))
    = msgs ++ [{| Role := "assistant"; Content := "all good" |}].
Proof.
  intros P exec a st s msgs.
  exact (StreamTask_final_reply P exec a st "check the disk" msgs
           [OnChunk "all "; OnChunk "good"] eq_refl eq_refl).
Defined.

Lemma exhausted_task_returns_nil_witness :
  let call := {| ID := "toolu_1"; Name := "read_file"; Input := Some ∅ |} in
  let P : Provider unit :=
    {| llm.StreamChatWithTools := λ s _ _ _, (s, [OnToolCall call], None);
       llm.Chat := λ s _, (s, "", None);
       llm.GetModel := λ _, "model" |} in
  let exec : agent.Executor unit := λ e _, (e, "no such file", None) in
  let a := agent.NewAgent "" in
  let st := {| agent.llmProvider := tt; agent.chatManager := chat.NewManager tt;
               agent.executor := tt |} in
  let r := agent.ExecuteTask P exec a st "check the disk" in
  let s := agent.StreamTask P exec a st "check the disk" in
  Z.of_nat (agent.requestsIn (agent.events r)) = agent.maxIterations a
  ∧ agent.failure r = None
  ∧ Z.of_nat (agent.requestsIn (agent.events s)) = agent.maxIterations a
  ∧ agent.failure s = None.
Proof.
  intros call P exec a st r s.
  apply (exhausted_task_returns_nil P exec a st "check the disk").
  - intros ? ? ? ?. split; [reflexivity|discriminate].
  - vm_compute. discriminate.
Defined.



Lemma nothing_to_send_still_reserves_witness :
  let env := {| ctx := {| hasReporter := false; ctxErr := ErrorNew "context canceled" |};
                rounds := [(1000, false)];
                client := λ _, DoError (ErrorNew "connection refused") |} in
  let p := anthropic.NewAnthropicProvider "sk-ant-test" "claude-haiku-4-5-20251001" in
  let messages := [{| Role := "system"; Content := "be brief" |}] in
  ∃ r : run anthropic.AnthropicProvider,
    anthropic.StreamChatWithTools bareLibrary env p messages [] true = Some r
    ∧ recordedRequests (effects r) = []
    ∧ ∃ l err waited,
        Wait (ctx env) (rounds env) (anthropic.limiter p) (EstimateTokens messages)
        = Some (l, err, waited)
        ∧ anthropic.limiter (after r) = l
        ∧ returned r
          = Return (Some match err with
                         | Some err => ErrorWrap "rate limit 대기 실패: " err
                         | None => ErrorNew "no valid messages to send"
                         end).
Proof.
  intros env p messages. eexists. split; [vm_compute; reflexivity|].
  apply (nothing_to_send_still_reserves bareLibrary env p messages [] true).
  - discriminate.
  - repeat constructor.
  - vm_compute. reflexivity.
Defined.

Lemma oversized_conversation_is_never_sent_witness :
  let env := {| ctx := {| hasReporter := false; ctxErr := ErrorNew "context canceled" |};
                rounds := [(1000, false); (1000 + Minute, true)];
                client := λ _, DoError (ErrorNew "connection refused") |} in
  let l := NewRateLimiter Minute 3 60 in
  let p := anthropic.withLimiter
             (anthropic.NewAnthropicProvider "sk-ant-test" "claude-haiku-4-5-20251001")
             (Some l) in
  let messages := [{| Role := "user"; Content := "hello" |}] in
  ∃ r : run anthropic.AnthropicProvider,
    anthropic.StreamChatWithTools bareLibrary env p messages [] true = Some r
    ∧ returned r = Return (Some (ErrorWrap "rate limit 대기 실패: " (ctxErr (ctx env))))
    ∧ recordedRequests (effects r) = []
    ∧ ∃ err, returned r = Return (Some err) ∧ Is err (ctxErr (ctx env)) = true.
Proof.
  intros env l p messages. eexists. split; [vm_compute; reflexivity|].
  apply (oversized_conversation_is_never_sent bareLibrary env p l messages [] true).
  - discriminate.
  - reflexivity.
  - vm_compute. split; [reflexivity|discriminate].
  - vm_compute. repeat split; discriminate.
  - vm_compute. split; reflexivity.
  - vm_compute. discriminate.
  - vm_compute. discriminate.
  - vm_compute. reflexivity.
Defined.

Lemma error_status_ends_call_witness :
  let resp := {| StatusCode := 429; HeaderGet := λ _, ""; bodyText := "slow down";
                 scanLines := []; scanErr := None; scanFailsAt := 0 |} in
  let env := {| ctx := {| hasReporter := false; ctxErr := ErrorNew "context canceled" |};
                rounds := [(1000, false)];
                client := λ _, DoResponse resp |} in
  let po := openai.NewOpenAIProvider "sk-test" "gpt-5" in
  let messages := [{| Role := "user"; Content := "hello" |}] in
  let r := openai.StreamChatWithTools bareLibrary env po messages [] true in
  returned r = Return (Some (ErrorNew ("openai API error: " +:+ pretty 429 +:+ " - "
                                       +:+ "slow down")))
  ∧ chunksOf (effects r) = [] ∧ toolCallsOf (effects r) = []
  ∧ List.length (recordedRequests (effects r)) = 1%nat.
Proof.
  intros resp env po messages r.
  apply (error_status_ends_call bareLibrary env
           (anthropic.NewAnthropicProvider "sk-ant-test" "claude-haiku-4-5-20251001")
           po messages [] true resp).
  - vm_compute. discriminate.
  - reflexivity.
  - discriminate.
Defined.

Lemma openai_delta_is_local_witness :
  let toolCallDelta :=
    {| tcdIndex := 1; tcdID := "call_2"; tcdType := "function";
       tcdFunction := {| fdName := "read_file"; fdArguments := "" |} |} in
  let first := {| ID := "call_1"; Name := "execute_command"; Input := Some ∅ |} in
  let second := {| ID := "call_2"; Name := "read_file"; Input := Some ∅ |} in
  let calls : gmap Z ToolCall := {[ 0 := first ]} in
  let calls' : gmap Z ToolCall := <[ 1 := second ]> calls in
  (∀ idx, idx ≠ 1 → calls' !! idx = calls !! idx)
  ∧ ∃ call',
      calls' !! 1 = Some call'
      ∧ (∀ old, calls !! 1 = Some old → ID old ≠ "" → ID call' = ID old)
      ∧ ("read_file" ≠ "" → Name call' = "read_file")
      ∧ (∀ old, calls !! 1 = Some old → "read_file" = "" → Name call' = Name old).
Proof.
  intros toolCallDelta first second calls calls'.
  apply (openai_delta_is_local bareLibrary calls calls' toolCallDelta).
  vm_compute. reflexivity.
Defined.

Lemma null_arguments_panic_witness :
  let lib :=
    {| TrimSpace := id; ParseFloatInt := λ _, None; Atoi := λ _, None;
       UnmarshalInput := Json.Unmarshal; UnmarshalAnthropic := λ _, None;
       UnmarshalOpenAI := λ data,
         if decide (data = "1")
         then Some (openaiFragment 0 "call_1" "execute_command" "null")
         else if decide (data = "2") then Some (openaiFragment 0 "" "" "{}") else None;
       MarshalInput := λ _, None |} in
  let resp := {| StatusCode := 200; HeaderGet := λ _, ""; bodyText := "";
                 scanLines := ["data: 1"; ""; "data: 2"; ""; "data: [DONE]"];
                 scanErr := None; scanFailsAt := 5 |} in
  let env := {| ctx := {| hasReporter := false; ctxErr := ErrorNew "context canceled" |};
                rounds := []; client := λ _, DoResponse resp |} in
  let r := openai.StreamChatWithTools (withJson lib) env
             (openai.NewOpenAIProvider "sk-test" "gpt-5")
             [{| Role := "user"; Content := "hello" |}] GetTools true in
  returned r = Panic "assignment to entry in nil map"
  ∧ toolCallsOf (effects r) = [] ∧ chunksOf (effects r) = [].
Proof.
  intros lib resp env r.
  apply (null_arguments_panic lib env (openai.NewOpenAIProvider "sk-test" "gpt-5")
           [{| Role := "user"; Content := "hello" |}] GetTools resp 0 "call_1"
           "execute_command" "{}"
           [DoneSentinel]).
  - discriminate.
  - reflexivity.
  - reflexivity.
  - vm_compute. reflexivity.
  - discriminate.
  - discriminate.
  - discriminate.
Defined.

Lemma mock_body_is_served_once_witness :
  let net := {| httpclient.StatusText := λ _, "OK";
                httpclient.CanonicalHeaderKey := λ key, key |} in
  let url := "https://api.openai.com/v1/chat/completions" in
  let req := {| Method := "POST"; URL := url; Headers := [];
                Body := OpenAIBody {| orModel := "gpt-5"; orMessages := []; orStream := true;
                                      orMaxTokens := 4096; orTools := [] |} |} in
  ∃ header : gmap string string,
    (DoAll net (httpclient.SetResponse net httpclient.NewMockHTTPClient url 200
                  "data: [DONE]" [])
       [req; req]).2
    = [httpclient.Answer "OK" 200 "data: [DONE]" header;
       httpclient.Answer "OK" 200 "" header].
Proof.
  intros net url req.
  apply (mock_body_is_served_once net httpclient.NewMockHTTPClient url 200
           "data: [DONE]" [] req [req]).
  - reflexivity.
  - reflexivity.
  - repeat constructor.
Defined.
